(** * Rescue.net health monitor: decision fusion, history and trends

    A shallow embedding of the decision core of [src/ai-models]:
    [health_monitor.py] (classes [HealthMonitor] and
    [HealthMonitorSimulation]), the prediction path of
    [risk_predictor.py], [emergency_classifier.py] and
    [anomaly_detector.py], and the analyze, risk and trends routes of
    [ai_service.py]. The fitted scikit-learn models and the pandas and
    numpy computations on columns are parameters of the functions that
    call them.

    Conventions of the embedding:
    - Python numbers are exact rationals ([Q]); a literal such as [0.95]
      is the rational 95/100 and arithmetic does not round.
    - A Python dict read with string keys is a [gmap string _]; a dict
      whose iteration order matters is an association list.
    - A signal dict returned by a scorer is a record with one optional
      field per key the monitor reads ([None] = key missing), so that
      every [dict.get(key, default)] of the source keeps its default.
    - Exceptions are values of [exn]; stateful methods run in the monad
      [M], whose state is the monitor object. *)

From Stdlib Require Import QArith Qminmax Qabs ZArith Lia Lqa Ascii.
From stdpp Require Import gmap strings list fin_maps pretty sorting.

(** ** Python values and exceptions *)

(** Values a JSON reading can hold for a key. *)
Inductive pyval : Type :=
  | PNum (q : Q)
  | PStr (s : string)
  | PNone.

(** A reading ([health_data]) is a dict from vital names to values. *)
Abbreviation reading := (gmap string pyval).

(** An exception object (an instance of a subclass of [Exception]): its
    class and [str(e)]. *)
Record exn : Type := mk_exn {
  exn_class : string;
  exn_str : string
}.

Definition TypeError (msg : string) : exn := mk_exn "TypeError" msg.
Definition ValueError (msg : string) : exn := mk_exn "ValueError" msg.
Definition ZeroDivisionError (msg : string) : exn := mk_exn "ZeroDivisionError" msg.

Inductive result (A : Type) : Type :=
  | Ok (a : A)
  | Raise (e : exn).
Arguments Ok {A} a.
Arguments Raise {A} e.

Global Instance result_ret : MRet result := λ A a, Ok a.
Global Instance result_bind : MBind result := λ A B k r,
  match r with
  | Ok a => k a
  | Raise e => Raise e
  end.

(** ** Rational comparisons, as booleans *)

Definition Qltb (a b : Q) : bool := negb (Qle_bool b a).
Definition Qgtb (a b : Q) : bool := Qltb b a.
Definition Qgeb (a b : Q) : bool := Qle_bool b a.

(** [a < b] on Python values: numbers compare, anything else against a
    number is a [TypeError] (the text is the one CPython gives for an
    [int] bound). *)
Definition py_lt (a : pyval) (b : Q) : result bool :=
  match a with
  | PNum q => Ok (Qltb q b)
  | PStr _ => Raise (TypeError "'<' not supported between instances of 'str' and 'int'")
  | PNone => Raise (TypeError "'<' not supported between instances of 'NoneType' and 'int'")
  end.

Definition py_gt (a : pyval) (b : Q) : result bool :=
  match a with
  | PNum q => Ok (Qgtb q b)
  | PStr _ => Raise (TypeError "'>' not supported between instances of 'str' and 'int'")
  | PNone => Raise (TypeError "'>' not supported between instances of 'NoneType' and 'int'")
  end.

(** ** Python slices *)

(** [l[i:]] *)
Definition slice_from {A} (i : Z) (l : list A) : list A :=
  if (i <? 0)%Z then drop (Z.to_nat (Z.of_nat (length l) + i)) l
  else drop (Z.to_nat i) l.

(** [l[:i]] *)
Definition slice_to {A} (i : Z) (l : list A) : list A :=
  if (i <? 0)%Z then take (Z.to_nat (Z.of_nat (length l) + i)) l
  else take (Z.to_nat i) l.

(** ** The bounded per-device history *)

(** [lst.append(x)], then [lst = lst[-100:]] when [len(lst) > 100]:
    the two statements that [_store_health_data] and the
    [/analyze/health-data] route both run on a device's list. *)
Definition append_capped {A} (l : list A) (x : A) : list A :=
  let l' := l ++ [x] in
  if (100 <? length l')%nat then slice_from (-100) l' else l'.

(** [{**health_data, 'timestamp': ts}] *)
Definition timestamped (health_data : reading) (ts : string) : reading :=
  <["timestamp" := PStr ts]> health_data.

(** [HealthMonitor._store_health_data] on the [health_history] dict,
    with [ts] the value of [datetime.now().isoformat()]. *)
Definition store_in_history (device_id : string) (health_data : reading)
    (ts : string) (h : gmap string (list reading)) : gmap string (list reading) :=
  let h1 := match h !! device_id with
            | None => <[device_id := []]> h
            | Some _ => h
            end in
  let h2 := <[device_id := default [] (h1 !! device_id) ++ [timestamped health_data ts]]> h1 in
  if (100 <? length (default [] (h2 !! device_id)))%nat
  then <[device_id := slice_from (-100) (default [] (h2 !! device_id))]> h2
  else h2.

(** [{'timestamp': ts, **health_data}] of [ai_service.py]: a
    ['timestamp'] key of the posted data wins. *)
Definition timestamped_first (health_data : reading) (ts : string) : reading :=
  match health_data !! "timestamp" with
  | Some _ => health_data
  | None => <["timestamp" := PStr ts]> health_data
  end.

(** The [recent_health_data] update of the [/analyze/health-data] route. *)
Definition store_recent (patient_id : string) (health_data : reading)
    (ts : string) (h : gmap string (list reading)) : gmap string (list reading) :=
  let h1 := match h !! patient_id with
            | None => <[patient_id := []]> h
            | Some _ => h
            end in
  let h2 := <[patient_id := default [] (h1 !! patient_id) ++ [timestamped_first health_data ts]]> h1 in
  if (100 <? length (default [] (h2 !! patient_id)))%nat
  then <[patient_id := slice_from (-100) (default [] (h2 !! patient_id))]> h2
  else h2.

(** ** Threshold alerts *)

(** One entry of a bounds table: [vital: {'min': lo, 'max': hi}]. *)
Abbreviation bounds_table := (list (string * (Q * Q))).

(** [HealthMonitor.critical_thresholds], in the order of the dict literal. *)
Definition critical_thresholds : bounds_table :=
  [ ("heart_rate", (40, 150));
    ("temperature", (35.0, 39.0));
    ("systolic_bp", (80, 180));
    ("diastolic_bp", (50, 110));
    ("spo2", (90, 100));
    ("respiratory_rate", (8, 30)) ]%Q.

Record alert : Type := mk_alert {
  al_type : string;
  al_vital_sign : string;
  al_current_value : pyval;
  al_threshold : Q;
  al_severity : string;
  al_message : string
}.

(** ** Signals of the three scorers *)

Record top_prediction : Type := mk_top_prediction {
  tp_type : string;
  tp_probability : Q;
  tp_confidence : string
}.

Record window_prediction : Type := mk_window_prediction {
  wp_risk_score : Q;
  wp_risk_level : string;
  wp_probability : Q
}.

Record risk_factor : Type := mk_risk_factor {
  rf_factor : string;
  rf_importance : Q;
  rf_current_value : Q;
  rf_concern_level : string
}.

(** Result dict of [predict_anomaly]. [*_other_keys] tells whether the
    dict holds keys besides the ones listed (it matters only for the
    truth value of the dict). *)
Record anomaly_result : Type := mk_anomaly_result {
  ar_is_anomaly : option bool;
  ar_risk_score : option Q;
  ar_risk_level : option string;
  ar_confidence : option Q;
  ar_recommendations : option (list string);
  ar_other_keys : bool
}.

(** Result dict of [predict_emergency]. *)
Record emergency_result : Type := mk_emergency_result {
  er_predicted_emergency : option string;
  er_confidence : option Q;
  er_severity : option string;
  er_top_predictions : option (list top_prediction);
  er_recommended_actions : option (list string);
  er_other_keys : bool
}.

(** Result dict of [predict_risk]. *)
Record risk_result : Type := mk_risk_result {
  rr_overall_risk_score : option Q;
  rr_risk_level : option string;
  rr_confidence : option Q;
  rr_time_predictions : option (list (string * window_prediction));
  rr_key_risk_factors : option (list risk_factor);
  rr_recommendations : option (list string);
  rr_other_keys : bool
}.

(** Truth value of a dict: it has at least one key. *)
Definition anomaly_truthy (r : anomaly_result) : bool :=
  bool_decide (is_Some (ar_is_anomaly r)) || bool_decide (is_Some (ar_risk_score r))
  || bool_decide (is_Some (ar_risk_level r)) || bool_decide (is_Some (ar_confidence r))
  || bool_decide (is_Some (ar_recommendations r)) || ar_other_keys r.

Definition emergency_truthy (r : emergency_result) : bool :=
  bool_decide (is_Some (er_predicted_emergency r)) || bool_decide (is_Some (er_confidence r))
  || bool_decide (is_Some (er_severity r)) || bool_decide (is_Some (er_top_predictions r))
  || bool_decide (is_Some (er_recommended_actions r)) || er_other_keys r.

Definition risk_truthy (r : risk_result) : bool :=
  bool_decide (is_Some (rr_overall_risk_score r)) || bool_decide (is_Some (rr_risk_level r))
  || bool_decide (is_Some (rr_confidence r)) || bool_decide (is_Some (rr_time_predictions r))
  || bool_decide (is_Some (rr_key_risk_factors r)) || bool_decide (is_Some (rr_recommendations r))
  || rr_other_keys r.

(** [if x:] for [x] either [None] or a dict. *)
Definition truthy {A} (t : A → bool) (x : option A) : option A :=
  match x with
  | Some r => if t r then Some r else None
  | None => None
  end.

(** ** The verdict *)

Record status : Type := mk_status {
  st_level : string;
  st_severity : string;
  st_confidence : Q;
  st_primary_concern : option string;
  st_summary : string
}.

(** [s.replace('_', ' ')] *)
Fixpoint replace_underscores (s : string) : string :=
  match s with
  | EmptyString => EmptyString
  | String c s' =>
      String (if Ascii.eqb c "_" then " "%char else c) (replace_underscores s')
  end.

(** [severity_map.get(sev, 'medium')] of [_determine_overall_status]. *)
Definition severity_map_get (sev : string) : string :=
  if bool_decide (sev = "critical") then "critical"
  else if bool_decide (sev = "high") then "high"
  else if bool_decide (sev = "medium") then "medium"
  else if bool_decide (sev = "low") then "low"
  else "medium".

(** [d.get(k)] on a dict kept as an association list. *)
Fixpoint assoc_get {V} (k : string) (d : list (string * V)) : option V :=
  match d with
  | [] => None
  | (k', v) :: d' => if bool_decide (k' = k) then Some v else assoc_get k d'
  end.

(** ** The emergency classifier's severity table *)

Module EmergencyClassifier.

Definition critical_emergencies : list string :=
  ["cardiac_arrest"; "stroke"; "severe_hypotension"; "respiratory_distress"].
Definition high_emergencies : list string :=
  ["severe_hypertension"; "hyperthermia"; "hypothermia"; "seizure"].
Definition medium_emergencies : list string :=
  ["fall_detected"; "medication_reaction"].

(** [EmergencyClassifier._determine_severity] *)
Definition _determine_severity (emergency_type : string) (confidence : Q) : string :=
  if bool_decide (emergency_type ∈ critical_emergencies) && Qgtb confidence 0.7
  then "critical"
  else if bool_decide (emergency_type ∈ critical_emergencies)
          || (bool_decide (emergency_type ∈ high_emergencies) && Qgtb confidence 0.8)
  then "high"
  else if bool_decide (emergency_type ∈ high_emergencies)
          || (bool_decide (emergency_type ∈ medium_emergencies) && Qgtb confidence 0.7)
  then "medium"
  else if bool_decide (emergency_type ≠ "normal")
  then "low"
  else "normal".

(** [EmergencyClassifier._get_emergency_actions] *)
Definition _get_emergency_actions (emergency_type : string) : list string :=
  let actions : list (string * list string) :=
    [ ("normal", ["Continue normal monitoring"; "Maintain healthy lifestyle"]);
      ("cardiac_arrest", ["CALL 108 IMMEDIATELY"; "Begin CPR if trained";
                          "Use AED if available"; "Notify nearest hospital"]);
      ("stroke", ["CALL 108 IMMEDIATELY"; "Note time of symptom onset";
                  "Keep patient calm and still"; "Check for FAST symptoms"]);
      ("hyperthermia", ["Move to cool environment"; "Remove excess clothing";
                        "Apply cool water to skin"; "Seek immediate medical attention"]);
      ("hypothermia", ["Move to warm environment"; "Remove wet clothing";
                       "Wrap in warm blankets"; "Seek immediate medical attention"]);
      ("severe_hypotension", ["Elevate legs"; "Increase fluid intake if conscious";
                              "Call emergency services"; "Monitor vital signs"]);
      ("severe_hypertension", ["Keep patient calm"; "Avoid sudden movements";
                               "Call emergency services"; "Monitor for stroke symptoms"]);
      ("respiratory_distress", ["Help patient sit upright"; "Ensure airway is clear";
                                "Call emergency services"; "Use rescue inhaler if available"]);
      ("hypoglycemia", ["Give glucose or sugar if conscious";
                        "Call emergency services if severe";
                        "Monitor blood sugar"; "Contact healthcare provider"]);
      ("seizure", ["Keep patient safe from injury"; "Time the seizure";
                   "Call 108 if seizure lasts >5 minutes";
                   "Stay with patient until recovery"]);
      ("fall_detected", ["Check for injuries"; "Do not move if spinal injury suspected";
                         "Call emergency services if needed"; "Monitor vital signs"]);
      ("medication_reaction", ["Stop suspected medication";
                               "Call poison control or emergency services";
                               "Note medication and time taken"; "Monitor symptoms"]) ] in
  default ["Seek medical attention"] (assoc_get emergency_type actions).

(** What the fitted ensemble says about a reading: the predicted
    class, its probability (the maximum one) and the three most
    likely classes with their probabilities. The scaler, the ensemble
    and the label encoder are scikit-learn objects. *)
Record ensemble_output : Type := mk_ensemble_output {
  eo_emergency_type : string;
  eo_confidence : Q;
  eo_top : list (string * Q)
}.

(** The dict that [predict_emergency] builds from the ensemble's
    output (the ['timestamp'] and ['requires_immediate_attention']
    keys are the other keys). *)
Definition emergency_dict (o : ensemble_output) : emergency_result :=
  {| er_predicted_emergency := Some (eo_emergency_type o);
     er_confidence := Some (eo_confidence o);
     er_severity := Some (_determine_severity (eo_emergency_type o) (eo_confidence o));
     er_top_predictions :=
       Some ((λ np : string * Q,
                mk_top_prediction np.1 np.2
                  (if Qgtb np.2 0.7 then "high"
                   else if Qgtb np.2 0.4 then "medium" else "low")) <$> eo_top o);
     er_recommended_actions := Some (_get_emergency_actions (eo_emergency_type o));
     er_other_keys := true |}.

(** [EmergencyClassifier.predict_emergency] *)
Definition predict_emergency (is_trained : bool)
    (ensemble : reading → result ensemble_output) (health_data : reading)
    : result emergency_result :=
  if negb is_trained
  then Raise (ValueError "Model must be trained before making predictions")
  else o ← ensemble health_data; Ok (emergency_dict o).

End EmergencyClassifier.

(** ** The risk predictor's time windows *)

Module RiskPredictor.

(** [self.prediction_windows], hours. *)
Definition prediction_windows : list Z := [1; 6; 12; 24]%Z.

(** [RiskPredictor._determine_risk_level] *)
Definition _determine_risk_level (risk_score : Q) : string :=
  if Qgeb risk_score 0.8 then "critical"
  else if Qgeb risk_score 0.6 then "high"
  else if Qgeb risk_score 0.4 then "medium"
  else if Qgeb risk_score 0.2 then "low"
  else "minimal".

(** [1 + (window / 24) * 0.1] *)
Definition time_factor (window : Z) : Q :=
  1 + (inject_Z window / 24) * 0.1.

(** [min(0.95, base_risk * time_factor)] *)
Definition windowed_risk (base_risk : Q) (window : Z) : Q :=
  Qmin 0.95 (base_risk * time_factor window).

(** [RiskPredictor._calculate_time_predictions]: the dict is filled in
    the order of [prediction_windows], under the keys [f'{window}h']. *)
Definition _calculate_time_predictions (base_risk : Q)
    : list (string * window_prediction) :=
  (λ window,
     (pretty window +:+ "h",
      {| wp_risk_score := windowed_risk base_risk window;
         wp_risk_level := _determine_risk_level (windowed_risk base_risk window);
         wp_probability := windowed_risk base_risk window * 100 |}))
  <$> prediction_windows.

End RiskPredictor.

(** ** The monitor *)

(** The analysis dict returned by [analyze_health_data]. Keys that only
    some paths set are optional. *)
Record analysis : Type := mk_analysis {
  an_current_vitals : option reading;
  an_overall_status : status;
  an_immediate_alerts : list alert;
  an_recommendations : list string;
  an_requires_emergency_response : bool;
  an_confidence_score : Q;
  an_anomaly_detection : option (bool * Q * string);
  an_emergency_classification : option (string * Q * string * list top_prediction);
  an_risk_prediction :
    option (Q * string * list (string * window_prediction) * list risk_factor);
  an_device_id : option string;
  an_analysis_timestamp : option string;
  an_processing_time_ms : option Q;
  an_ai_models_enabled : option bool;
  an_error : option string
}.

(** The scorer objects, seen through what the monitor calls. *)
Record AnomalyDetector : Type := mk_anomaly_detector {
  ad_is_trained : bool;
  ad_predict_anomaly : reading → result anomaly_result
}.

Record EmergencyClassifierObj : Type := mk_emergency_classifier {
  ec_is_trained : bool;
  ec_predict_emergency : reading → result emergency_result
}.

Record RiskPredictorObj : Type := mk_risk_predictor {
  rp_is_trained : bool;
  rp_predict_risk : reading → list reading → result risk_result
}.

(** The attributes of a [HealthMonitor] that the analysis reads or writes. *)
Record HealthMonitor : Type := mk_monitor {
  enable_ai_models : bool;
  anomaly_detector : option AnomalyDetector;
  emergency_classifier : option EmergencyClassifierObj;
  risk_predictor : option RiskPredictorObj;
  health_history : gmap string (list reading)
}.

(** The monitor together with the number of times the system clock has
    been read. *)
Record world : Type := mk_world {
  w_monitor : HealthMonitor;
  w_clock_reads : nat
}.

(** A method call: it may raise, and it leaves a new state either way. *)
Definition M (A : Type) : Type := world → result A * world.

Global Instance M_ret : MRet M := λ A a w, (Ok a, w).
Global Instance M_bind : MBind M := λ A B k m w,
  match m w with
  | (Ok a, w') => k a w'
  | (Raise e, w') => (Raise e, w')
  end.

Definition lift_result {A} (r : result A) : M A := λ w, (r, w).

(** [try: body  except Exception as e: handler(e)] *)
Definition try_except {A} (body : M A) (handler : exn → M A) : M A := λ w,
  match body w with
  | (Ok a, w') => (Ok a, w')
  | (Raise e, w') => handler e w'
  end.

Definition get_monitor : M HealthMonitor := λ w, (Ok (w_monitor w), w).

Definition set_history (h : gmap string (list reading)) : M unit := λ w,
  let m := w_monitor w in
  (Ok tt,
   mk_world (mk_monitor (enable_ai_models m) (anomaly_detector m)
               (emergency_classifier m) (risk_predictor m) h)
            (w_clock_reads w)).

Section Monitor.

Set Default Proof Using "Type".

(** Renderings and the clock belong to the Python runtime. *)
Variable fmt_num : Q → string.    (* f"{x}" for a number *)
Variable fmt_2f : Q → string.     (* f"{x:.2f}" *)
Variable isoformat : Z → string.  (* datetime.isoformat(), a datetime in microseconds *)
Variable wall : nat → Z.          (* the n-th reading of the system clock *)
Variable round2 : Q → Q.          (* round(x, 2) *)

(** [datetime.now()] *)
Definition now : M Z := λ w,
  (Ok (wall (w_clock_reads w)), mk_world (w_monitor w) (S (w_clock_reads w))).

(** [f"{value}"] *)
Definition py_format (v : pyval) : string :=
  match v with
  | PNum q => fmt_num q
  | PStr s => s
  | PNone => "None"
  end.

(** [HealthMonitor._store_health_data] *)
Definition _store_health_data (device_id : string) (health_data : reading) : M unit :=
  t ← now;
  self ← get_monitor;
  set_history (store_in_history device_id health_data (isoformat t) (health_history self)).

(** The loop of [_check_immediate_alerts] over the bounds table, with
    the alerts collected so far. *)
Fixpoint check_alerts_loop (table : bounds_table) (health_data : reading)
    (alerts : list alert) : result (list alert) :=
  match table with
  | [] => Ok alerts
  | (vital, (lo, hi)) :: rest =>
      match health_data !! vital with
      | None => check_alerts_loop rest health_data alerts
      | Some value =>
          below ← py_lt value lo;
          if below : bool then
            check_alerts_loop rest health_data
              (alerts ++ [mk_alert "critical_low" vital value lo "critical"
                            (vital +:+ " critically low: " +:+ py_format value)])
          else
            above ← py_gt value hi;
            if above : bool then
              check_alerts_loop rest health_data
                (alerts ++ [mk_alert "critical_high" vital value hi "critical"
                              (vital +:+ " critically high: " +:+ py_format value)])
            else check_alerts_loop rest health_data alerts
      end
  end.

(** [HealthMonitor._check_immediate_alerts] *)
Definition _check_immediate_alerts (health_data : reading) : result (list alert) :=
  check_alerts_loop critical_thresholds health_data [].

(** *** Fusion: [_determine_overall_status] *)

Definition normal_status : status :=
  mk_status "normal" "normal" 0.8 None "All vital signs within normal range".

(** [[a for a in immediate_alerts if a['severity'] == 'critical']] *)
Definition critical_alerts (immediate_alerts : list alert) : list alert :=
  filter (λ a, al_severity a = "critical") immediate_alerts.

(** Each rule gives [Some] status where the source returns. *)
Definition rule_alerts (immediate_alerts : list alert) : option status :=
  match immediate_alerts with
  | [] => None
  | _ :: _ =>
      match critical_alerts immediate_alerts with
      | a :: _ =>
          Some (mk_status "emergency" "critical" 0.95 (Some (al_message a))
                  "Critical vital signs detected - immediate medical attention required")
      | [] => None
      end
  end.

Definition rule_emergency (emergency : option emergency_result) : option status :=
  match truthy emergency_truthy emergency with
  | None => None
  | Some r =>
      let emergency_type := default "normal" (er_predicted_emergency r) in
      let confidence := default 0%Q (er_confidence r) in
      if bool_decide (emergency_type ≠ "normal") && Qgtb confidence 0.7 then
        let emergency_severity := default "medium" (er_severity r) in
        Some (mk_status
                (if bool_decide (emergency_severity = "critical")
                 then "emergency" else "warning")
                (severity_map_get emergency_severity)
                confidence
                (Some ("Potential " +:+ replace_underscores emergency_type +:+ " detected"))
                ("Emergency classification: " +:+ emergency_type
                   +:+ " (confidence: " +:+ fmt_2f confidence +:+ ")"))
      else None
  end.

Definition rule_anomaly (anomaly : option anomaly_result) : option status :=
  match truthy anomaly_truthy anomaly with
  | None => None
  | Some r =>
      let is_anomaly := default false (ar_is_anomaly r) in
      let risk_level := default "normal" (ar_risk_level r) in
      if is_anomaly && bool_decide (risk_level ∈ ["high"; "critical"]) then
        Some (mk_status "warning" risk_level (default 0.7%Q (ar_confidence r))
                (Some "Abnormal vital sign patterns detected")
                ("Health anomaly detected - risk level: " +:+ risk_level))
      else None
  end.

Definition rule_risk (risk : option risk_result) : option status :=
  match truthy risk_truthy risk with
  | None => None
  | Some r =>
      let risk_score := default 0%Q (rr_overall_risk_score r) in
      let risk_level := default "minimal" (rr_risk_level r) in
      if Qgtb risk_score 0.6 then
        Some (mk_status "caution" risk_level (default 0.7%Q (rr_confidence r))
                (Some "Elevated risk for future health events")
                ("Increased health risk detected - level: " +:+ risk_level))
      else None
  end.

(** [HealthMonitor._determine_overall_status] *)
Definition _determine_overall_status (immediate_alerts : list alert)
    (anomaly : option anomaly_result) (emergency : option emergency_result)
    (risk : option risk_result) : status :=
  match rule_alerts immediate_alerts with
  | Some s => s
  | None =>
      match rule_emergency emergency with
      | Some s => s
      | None =>
          match rule_anomaly anomaly with
          | Some s => s
          | None =>
              match rule_risk risk with
              | Some s => s
              | None => normal_status
              end
          end
      end
  end.

(** *** Recommendations and the analysis dict: [_combine_analysis_results] *)

(** The four [extend] calls, in order. *)
Definition all_recommendations (immediate_alerts : list alert)
    (anomaly : option anomaly_result) (emergency : option emergency_result)
    (risk : option risk_result) : list string :=
  (match immediate_alerts with
   | [] => []
   | _ :: _ => ["IMMEDIATE MEDICAL ATTENTION REQUIRED"]
   end)
  ++ (match truthy anomaly_truthy anomaly with
      | Some r => default [] (ar_recommendations r)
      | None => []
      end)
  ++ (match truthy emergency_truthy emergency with
      | Some r => default [] (er_recommended_actions r)
      | None => []
      end)
  ++ (match truthy risk_truthy risk with
      | Some r => default [] (rr_recommendations r)
      | None => []
      end).

(** [for rec in all: if rec not in unique: unique.append(rec)] *)
Definition unique_loop (all : list string) (unique : list string) : list string :=
  fold_left (λ unique rec, if bool_decide (rec ∈ unique) then unique else unique ++ [rec])
    all unique.

Definition unique_recommendations (all : list string) : list string :=
  unique_loop all [].

(** [HealthMonitor._combine_analysis_results] *)
Definition _combine_analysis_results (health_data : reading)
    (immediate_alerts : list alert) (anomaly : option anomaly_result)
    (emergency : option emergency_result) (risk : option risk_result) : analysis :=
  let overall_status :=
    _determine_overall_status immediate_alerts anomaly emergency risk in
  let unique :=
    unique_recommendations (all_recommendations immediate_alerts anomaly emergency risk) in
  {| an_current_vitals := Some health_data;
     an_overall_status := overall_status;
     an_immediate_alerts := immediate_alerts;
     an_recommendations := slice_to 10 unique;
     an_requires_emergency_response :=
       bool_decide (st_severity overall_status ∈ ["critical"; "high"]);
     an_confidence_score := st_confidence overall_status;
     an_anomaly_detection :=
       (λ r, (default false (ar_is_anomaly r), default 0%Q (ar_risk_score r),
              default "unknown" (ar_risk_level r)))
       <$> truthy anomaly_truthy anomaly;
     an_emergency_classification :=
       (λ r, (default "unknown" (er_predicted_emergency r), default 0%Q (er_confidence r),
              default "unknown" (er_severity r), default [] (er_top_predictions r)))
       <$> truthy emergency_truthy emergency;
     an_risk_prediction :=
       (λ r, (default 0%Q (rr_overall_risk_score r), default "unknown" (rr_risk_level r),
              default [] (rr_time_predictions r), default [] (rr_key_risk_factors r)))
       <$> truthy risk_truthy risk;
     an_device_id := None;
     an_analysis_timestamp := None;
     an_processing_time_ms := None;
     an_ai_models_enabled := None;
     an_error := None |}.

(** [HealthMonitor._create_error_response] *)
Definition _create_error_response (device_id : string) (error_message : string)
    : M analysis :=
  t ← now;
  self ← get_monitor;
  mret {| an_current_vitals := None;
          an_overall_status :=
            mk_status "error" "unknown" 0.0 (Some "Analysis failed")
              ("Health analysis error: " +:+ error_message);
          an_immediate_alerts := [];
          an_recommendations := ["Contact technical support"; "Retry health monitoring"];
          an_requires_emergency_response := false;
          an_confidence_score := 0.0;
          an_anomaly_detection := None;
          an_emergency_classification := None;
          an_risk_prediction := None;
          an_device_id := Some device_id;
          an_analysis_timestamp := Some (isoformat t);
          an_processing_time_ms := None;
          an_ai_models_enabled := Some (enable_ai_models self);
          an_error := Some error_message |}.

(** [analysis_result.update({...})]: the four metadata keys. *)
Definition with_metadata (a : analysis) (device_id : string) (start finish : Z)
    (enabled : bool) : analysis :=
  {| an_current_vitals := an_current_vitals a;
     an_overall_status := an_overall_status a;
     an_immediate_alerts := an_immediate_alerts a;
     an_recommendations := an_recommendations a;
     an_requires_emergency_response := an_requires_emergency_response a;
     an_confidence_score := an_confidence_score a;
     an_anomaly_detection := an_anomaly_detection a;
     an_emergency_classification := an_emergency_classification a;
     an_risk_prediction := an_risk_prediction a;
     an_device_id := Some device_id;
     an_analysis_timestamp := Some (isoformat start);
     an_processing_time_ms := Some (inject_Z (finish - start) / 1000000 * 1000)%Q;
     an_ai_models_enabled := Some enabled;
     an_error := an_error a |}.

(** The scorer calls of [analyze_health_data], each guarded by
    [self.x and self.x.is_trained]. *)
Definition run_anomaly (self : HealthMonitor) (health_data : reading)
    : result (option anomaly_result) :=
  match anomaly_detector self with
  | Some d => if ad_is_trained d
              then r ← ad_predict_anomaly d health_data; Ok (Some r)
              else Ok None
  | None => Ok None
  end.

Definition run_emergency (self : HealthMonitor) (health_data : reading)
    : result (option emergency_result) :=
  match emergency_classifier self with
  | Some c => if ec_is_trained c
              then r ← ec_predict_emergency c health_data; Ok (Some r)
              else Ok None
  | None => Ok None
  end.

Definition run_risk (self : HealthMonitor) (device_id : string) (health_data : reading)
    : result (option risk_result) :=
  match risk_predictor self with
  | Some p => if rp_is_trained p
              then r ← rp_predict_risk p health_data
                         (default [] (health_history self !! device_id));
                   Ok (Some r)
              else Ok None
  | None => Ok None
  end.

(** The [try] block of [analyze_health_data]. Logging writes to the
    handlers of the [logging] module and is left out. *)
Definition analyze_body (analysis_start_time : Z) (device_id : string)
    (health_data : reading) : M analysis :=
  _store_health_data device_id health_data;;
  immediate_alerts ← lift_result (_check_immediate_alerts health_data);
  self ← get_monitor;
  '(anomaly_result, emergency_result, risk_result) ← lift_result
    (if enable_ai_models self then
       anomaly_result ← run_anomaly self health_data;
       emergency_result ← run_emergency self health_data;
       risk_result ← run_risk self device_id health_data;
       Ok (anomaly_result, emergency_result, risk_result)
     else Ok (None, None, None));
  let analysis_result :=
    _combine_analysis_results health_data immediate_alerts
      anomaly_result emergency_result risk_result in
  finish ← now;
  mret (with_metadata analysis_result device_id analysis_start_time finish
          (enable_ai_models self)).

(** [HealthMonitor.analyze_health_data] *)
Definition analyze_health_data (device_id : string) (health_data : reading)
    : M analysis :=
  analysis_start_time ← now;
  try_except (analyze_body analysis_start_time device_id health_data)
    (λ e, _create_error_response device_id (exn_str e)).

(** *** Direction of a vital over a window: [_analyze_trends] *)

(** [sum(xs) / len(xs)] *)
Definition mean (xs : list Q) : result Q :=
  match xs with
  | [] => Raise (ZeroDivisionError "division by zero")
  | _ :: _ => Ok (fold_left Qplus xs 0 / inject_Z (Z.of_nat (length xs)))%Q
  end.

(** [values[:len(values)//4] if len(values) >= 4 else values[:1]] *)
Definition first_quarter (values : list Q) : list Q :=
  if (4 <=? length values)%nat
  then slice_to (Z.of_nat (length values) / 4) values
  else slice_to 1 values.

(** [values[-len(values)//4:] if len(values) >= 4 else values[-1:]];
    the unary minus applies before the floor division. *)
Definition last_quarter (values : list Q) : list Q :=
  if (4 <=? length values)%nat
  then slice_from ((- Z.of_nat (length values)) / 4) values
  else slice_from (-1) values.

(** The body of the loop of [_analyze_trends] for one vital. *)
Definition trend_of (values : list Q) : result string :=
  if (5 <=? length values)%nat then
    avg_first ← mean (first_quarter values);
    avg_last ← mean (last_quarter values);
    if Qgtb avg_last (avg_first * 1.05) then Ok "increasing"
    else if Qltb avg_last (avg_first * 0.95) then Ok "decreasing"
    else Ok "stable"
  else Ok "insufficient_data".

(** [HealthMonitor._analyze_trends]: one direction per key of [vitals],
    in the order of the dict. *)
Fixpoint _analyze_trends (vitals : list (string * list Q))
    : result (list (string * string)) :=
  match vitals with
  | [] => Ok []
  | (vital, values) :: rest =>
      t ← trend_of values;
      trends ← _analyze_trends rest;
      Ok ((vital, t) :: trends)
  end.

(** *** Risk summary over a history: [predict_health_risks] *)

(** The dict returned by [predict_health_risks]. *)
Record risk_summary : Type := mk_risk_summary {
  rs_overall_risk : string;
  rs_risk_score : Q;
  rs_message : option string;
  rs_risk_factors : option (list string);
  rs_recommendations : option (list string);
  rs_prediction_confidence : option Q;
  rs_data_points_analyzed : option nat
}.

(** [any(v > bound for v in values)]: stops at the first hit. *)
Fixpoint any_gt (values : list pyval) (bound : Q) : result bool :=
  match values with
  | [] => Ok false
  | v :: rest => hit ← py_gt v bound; if hit : bool then Ok true else any_gt rest bound
  end.

(** [any(v < bound for v in values)] *)
Fixpoint any_lt (values : list pyval) (bound : Q) : result bool :=
  match values with
  | [] => Ok false
  | v :: rest => hit ← py_lt v bound; if hit : bool then Ok true else any_lt rest bound
  end.

(** [[d.get(key, dflt) for d in patient_data[-10:]]] *)
Definition recent_values (key : string) (dflt : Q) (patient_data : list reading)
    : list pyval :=
  (λ d : reading, default (PNum dflt) (d !! key)) <$> slice_from (-10) patient_data.

(** [HealthMonitor._get_risk_recommendations] *)
Definition _get_risk_recommendations (risk_level : string) (risk_factors : list string)
    : list string :=
  (if bool_decide (risk_level = "high")
   then ["Immediate medical attention recommended";
         "Contact emergency services if symptoms worsen"]
   else if bool_decide (risk_level = "medium")
   then ["Monitor vitals closely"; "Consider consulting healthcare provider"]
   else [])
  ++ (if bool_decide ("elevated_heart_rate" ∈ risk_factors)
      then ["Reduce physical activity and stress"] else [])
  ++ (if bool_decide ("fever_pattern" ∈ risk_factors)
      then ["Stay hydrated and monitor temperature"] else [])
  ++ (if bool_decide ("hypertension_risk" ∈ risk_factors)
      then ["Reduce sodium intake and monitor blood pressure"] else [])
  ++ (if bool_decide ("respiratory_concern" ∈ risk_factors)
      then ["Ensure adequate ventilation and avoid pollutants"] else []).

(** One risk indicator: test, then extend the factors and the score. *)
Definition add_factor (hit : bool) (name : string) (weight : Q)
    (acc : list string * Q) : list string * Q :=
  if hit then (acc.1 ++ [name], (acc.2 + weight)%Q) else acc.

(** The [try] block of [predict_health_risks]. *)
Definition predict_risks_body (patient_data : list reading) : result risk_summary :=
  if (length patient_data <? 5)%nat then
    Ok (mk_risk_summary "insufficient_data" 0.0
          (Some "Need at least 5 data points for risk prediction")
          None None None None)
  else
    hr ← any_gt (recent_values "heartRate" 0 patient_data) 120;
    let acc := add_factor hr "elevated_heart_rate" 0.2 ([], 0.0%Q) in
    temp ← any_gt (recent_values "temperature" 36.5 patient_data) 38.0;
    let acc := add_factor temp "fever_pattern" 0.3 acc in
    sys ← any_gt (recent_values "bloodPressureSystolic" 120 patient_data) 160;
    let acc := add_factor sys "hypertension_risk" 0.4 acc in
    spo2 ← any_lt (recent_values "oxygenSaturation" 98 patient_data) 94;
    let acc := add_factor spo2 "respiratory_concern" 0.5 acc in
    let risk_factors := acc.1 in
    let risk_score := acc.2 in
    let overall_risk :=
      if Qgeb risk_score 0.7 then "high"
      else if Qgeb risk_score 0.4 then "medium"
      else if Qgeb risk_score 0.2 then "low"
      else "minimal" in
    Ok (mk_risk_summary overall_risk (Qmin risk_score 1.0) None
          (Some risk_factors)
          (Some (_get_risk_recommendations overall_risk risk_factors))
          (Some 0.75%Q)
          (Some (length patient_data))).

(** [HealthMonitor.predict_health_risks] *)
Definition predict_health_risks (patient_data : list reading) : risk_summary :=
  match predict_risks_body patient_data with
  | Ok r => r
  | Raise e =>
      mk_risk_summary "error" 0.0
        (Some ("Risk prediction failed: " +:+ exn_str e)) None None None None
  end.

(** *** Trend report over a history: [analyze_health_trends] *)

Record vital_trend : Type := mk_vital_trend {
  vt_direction : string;
  vt_change : option Q;
  vt_change_percent : option Q;
  vt_recent_average : option Q;
  vt_historical_average : option Q
}.

(** The dict returned by [analyze_health_trends]. *)
Record trend_report : Type := mk_trend_report {
  tr_status : option string;
  tr_message : option string;
  tr_overall_trajectory : option string;
  tr_vital_trends : option (list (string * vital_trend));
  tr_trend_summary : option (nat * nat * nat);
  tr_analysis_period : option nat;
  tr_last_updated : option string
}.

(** [sum(values)] *)
Fixpoint py_sum (values : list pyval) (acc : Q) : result Q :=
  match values with
  | [] => Ok acc
  | PNum q :: rest => py_sum rest (acc + q)%Q
  | PStr _ :: _ => Raise (TypeError "unsupported operand type(s) for +: 'int' and 'str'")
  | PNone :: _ =>
      Raise (TypeError "unsupported operand type(s) for +: 'int' and 'NoneType'")
  end.

(** [sum(values) / len(values)] *)
Definition py_mean (values : list pyval) : result Q :=
  total ← py_sum values 0%Q;
  match values with
  | [] => Raise (ZeroDivisionError "division by zero")
  | _ :: _ => Ok (total / inject_Z (Z.of_nat (length values)))%Q
  end.

(** [HealthMonitor._calculate_trend] *)
Definition _calculate_trend (values : list pyval) : result vital_trend :=
  if (length values <? 2)%nat then
    Ok (mk_vital_trend "unknown" (Some 0%Q) None None None)
  else
    recent_avg ← py_mean (slice_from (-3) values);
    older_avg ← py_mean (slice_to 3 values);
    let change_percent :=
      if Qeq_bool older_avg 0 then 0%Q
      else ((recent_avg - older_avg) / older_avg * 100)%Q in
    let direction :=
      if Qltb (Qabs change_percent) 5 then "stable"
      else if Qgtb change_percent 0 then "increasing"
      else "decreasing" in
    let trend_quality :=
      if bool_decide (direction = "increasing") then "concerning"
      else if bool_decide (direction = "decreasing") then "improving"
      else "stable" in
    Ok (mk_vital_trend trend_quality None (Some (round2 change_percent))
          (Some (round2 recent_avg)) (Some (round2 older_avg))).

(** [[d.get(vital, 0) for d in patient_data if vital in d]] *)
Definition vital_values (vital : string) (patient_data : list reading) : list pyval :=
  omap (λ d : reading, d !! vital) patient_data.

(** The loop over the four vitals: a vital gets a trend when it has at
    least five values. *)
Fixpoint trends_loop (vitals : list string) (patient_data : list reading)
    (trends : list (string * vital_trend)) : result (list (string * vital_trend)) :=
  match vitals with
  | [] => Ok trends
  | vital :: rest =>
      let values := vital_values vital patient_data in
      if (5 <=? length values)%nat then
        t ← _calculate_trend values;
        trends_loop rest patient_data (trends ++ [(vital, t)])
      else trends_loop rest patient_data trends
  end.

Definition count_direction (d : string) (trends : list (string * vital_trend)) : nat :=
  length (filter (λ vt : string * vital_trend, vt_direction vt.2 = d) trends).

(** The [try] block of [analyze_health_trends]. *)
Definition analyze_trends_body (patient_data : list reading) : M trend_report :=
  if (length patient_data <? 10)%nat then
    mret (mk_trend_report (Some "insufficient_data")
            (Some "Need at least 10 data points for trend analysis")
            None None None None None)
  else
    trends ← lift_result
      (trends_loop ["heartRate"; "temperature"; "bloodPressureSystolic"; "oxygenSaturation"]
         patient_data []);
    let improving_trends := count_direction "improving" trends in
    let stable_trends := count_direction "stable" trends in
    let declining_trends := count_direction "declining" trends in
    let overall_trajectory :=
      if (declining_trends <? improving_trends)%nat then "improving"
      else if (improving_trends <? declining_trends)%nat then "declining"
      else "stable" in
    t ← now;
    mret (mk_trend_report None None (Some overall_trajectory) (Some trends)
            (Some (improving_trends, stable_trends, declining_trends))
            (Some (length patient_data)) (Some (isoformat t))).

(** [HealthMonitor.analyze_health_trends] *)
Definition analyze_health_trends (patient_data : list reading) : M trend_report :=
  try_except (analyze_trends_body patient_data)
    (λ e, mret (mk_trend_report (Some "error")
                  (Some ("Trend analysis failed: " +:+ exn_str e))
                  None None None None None)).

(** *** Simulation mode: [HealthMonitorSimulation] *)

(** [a or b] where [a] and [b] are comparisons: [b] is only looked at
    when [a] is false. *)
Definition py_or (a b : result bool) : result bool :=
  x ← a; if x : bool then Ok true else b.

(** [health_data.get(key, dflt)] *)
Definition get_num (key : string) (dflt : Q) (health_data : reading) : pyval :=
  default (PNum dflt) (health_data !! key).

(** The dict returned by [_simulate_ai_analysis]. *)
Record simulated : Type := mk_simulated {
  sim_anomaly : anomaly_result;
  sim_emergency : emergency_result;
  sim_risk : risk_result
}.

(** [HealthMonitorSimulation._simulate_ai_analysis] *)
Definition _simulate_ai_analysis (health_data : reading) : result simulated :=
  let hr := get_num "heart_rate" 70 health_data in
  let temp := get_num "temperature" 36.8 health_data in
  let spo2 := get_num "spo2" 98 health_data in
  is_concerning ←
    py_or (py_or (py_or (py_or (py_gt hr 100) (py_lt hr 50)) (py_gt temp 38))
             (py_lt temp 35))
      (py_lt spo2 95);
  '(risk_score, risk_level, emergency_type) ←
    (if is_concerning : bool then
       low ← py_lt spo2 95;
       if low : bool then Ok (0.7%Q, "high", "respiratory_distress")
       else fast ← py_gt hr 100;
            Ok (0.7%Q, "high", if fast : bool then "tachycardia" else "fever")
     else Ok (0.2%Q, "low", "normal"));
  Ok {| sim_anomaly :=
          mk_anomaly_result (Some is_concerning) (Some (risk_score * 100)%Q)
            (Some risk_level) None
            (Some (if is_concerning then ["Monitor closely"]
                   else ["Continue normal monitoring"]))
            false;
        sim_emergency :=
          mk_emergency_result (Some emergency_type)
            (Some (if is_concerning then 0.8%Q else 0.9%Q))
            (Some (if is_concerning then "high" else "normal"))
            None
            (Some (if is_concerning then ["Seek medical attention"]
                   else ["Continue monitoring"]))
            false;
        sim_risk :=
          mk_risk_result (Some risk_score) (Some risk_level) (Some 0.8%Q) None None
            (Some (if is_concerning then ["Contact healthcare provider"]
                   else ["Maintain healthy habits"]))
            false |}.

(** The dict returned in simulation mode: the analysis and its
    ['simulation_mode'] key. *)
Record simulation_analysis : Type := mk_simulation_analysis {
  sa_analysis : analysis;
  sa_simulation_mode : bool
}.

(** [HealthMonitorSimulation.analyze_health_data]: it has no [try]. *)
Definition simulation_analyze_health_data (device_id : string)
    (health_data : reading) : M simulation_analysis :=
  analysis_start_time ← now;
  _store_health_data device_id health_data;;
  immediate_alerts ← lift_result (_check_immediate_alerts health_data);
  simulated_analysis ← lift_result (_simulate_ai_analysis health_data);
  let analysis_result :=
    _combine_analysis_results health_data immediate_alerts
      (Some (sim_anomaly simulated_analysis))
      (Some (sim_emergency simulated_analysis))
      (Some (sim_risk simulated_analysis)) in
  finish ← now;
  mret (mk_simulation_analysis
          (with_metadata analysis_result device_id analysis_start_time finish false)
          true).

(** The rule of the simulation for a worrying reading. *)
Definition concerning (hr temp spo2 : Q) : bool :=
  Qgtb hr 100 || Qltb hr 50 || Qgtb temp 38 || Qltb temp 35 || Qltb spo2 95.

(** *** Statistics over a window: [_calculate_health_statistics] *)

(** One entry of ['vital_signs_summary']. *)
Record vital_statistics : Type := mk_vital_statistics {
  vs_average : Q;
  vs_minimum : Q;
  vs_maximum : Q;
  vs_readings_count : nat
}.

(** The dict returned by [_calculate_health_statistics]. *)
Record health_statistics : Type := mk_health_statistics {
  hs_vital_signs_summary : list (string * vital_statistics);
  hs_health_trends : list (string * string);
  hs_alert_frequency : nat * nat * Q;
  hs_overall_health_score : Q
}.

(** The keys of the [vitals] dict of [_calculate_health_statistics]. *)
Definition statistics_vitals : list string :=
  ["heart_rate"; "temperature"; "systolic_bp"; "diastolic_bp"; "spo2";
   "respiratory_rate"].

(** The values appended to [vitals[vital]]: [record[vital]] for the
    records that have the key with a value other than [None]. *)
Definition collect_vital (vital : string) (health_data : list reading) : list pyval :=
  omap (λ record : reading,
          match record !! vital with
          | Some PNone | None => None
          | Some v => Some v
          end) health_data.

(** The numbers of a list of values; [sum(values)] raises on the first
    value that is not a number. *)
Fixpoint to_numbers (values : list pyval) : result (list Q) :=
  match values with
  | [] => Ok []
  | PNum q :: rest => qs ← to_numbers rest; Ok (q :: qs)
  | PStr _ :: _ => Raise (TypeError "unsupported operand type(s) for +: 'int' and 'str'")
  | PNone :: _ =>
      Raise (TypeError "unsupported operand type(s) for +: 'int' and 'NoneType'")
  end.

(** [min(x, *xs)] and [max(x, *xs)]: the first smallest (largest) value. *)
Definition py_min (x : Q) (xs : list Q) : Q :=
  fold_left (λ m y, if Qltb y m then y else m) xs x.

Definition py_max (x : Q) (xs : list Q) : Q :=
  fold_left (λ m y, if Qgtb y m then y else m) xs x.

(** The statistics of one vital, [None] when it has no value. *)
Definition stats_of_numbers (values : list Q) : option vital_statistics :=
  match values with
  | [] => None
  | x :: xs =>
      Some {| vs_average :=
                (fold_left Qplus values 0 / inject_Z (Z.of_nat (length values)))%Q;
              vs_minimum := py_min x xs;
              vs_maximum := py_max x xs;
              vs_readings_count := length values |}
  end.

(** The values of each vital as numbers, vital by vital. *)
Fixpoint numbers_of_vitals (vitals : list string) (health_data : list reading)
    : result (list (string * list Q)) :=
  match vitals with
  | [] => Ok []
  | vital :: rest =>
      qs ← to_numbers (collect_vital vital health_data);
      others ← numbers_of_vitals rest health_data;
      Ok ((vital, qs) :: others)
  end.

(** The [statistics] dict: an entry for each vital that has values. *)
Definition statistics_of (vitals : list (string * list Q))
    : list (string * vital_statistics) :=
  omap (λ vq : string * list Q, (λ st, (vq.1, st)) <$> stats_of_numbers vq.2) vitals.

(** [HealthMonitor._calculate_alert_frequency] *)
Definition _calculate_alert_frequency (health_data : list reading) : nat * nat * Q :=
  (length health_data, (length health_data / 20)%nat, 5.0%Q).

(** [normal_ranges] of [_calculate_overall_health_score]. *)
Definition normal_ranges : bounds_table :=
  [ ("heart_rate", (60, 100));
    ("temperature", (36.1, 37.2));
    ("systolic_bp", (90, 140));
    ("diastolic_bp", (60, 90));
    ("spo2", (95, 100));
    ("respiratory_rate", (12, 20)) ]%Q.

(** The score of one vital from its average and its normal range. *)
Definition vital_score (avg_value min_normal max_normal : Q) : Q :=
  if Qle_bool min_normal avg_value && Qle_bool avg_value max_normal then 100
  else
    let deviation :=
      if Qltb avg_value min_normal
      then ((min_normal - avg_value) / min_normal)%Q
      else ((avg_value - max_normal) / max_normal)%Q in
    let score := (100 - deviation * 100)%Q in
    if Qgtb score 0 then score else 0.

(** The [scores] list: one score per vital of [normal_ranges] that the
    statistics hold. *)
Fixpoint scores_loop (ranges : bounds_table)
    (statistics : list (string * vital_statistics)) : list Q :=
  match ranges with
  | [] => []
  | (vital, (min_normal, max_normal)) :: rest =>
      match assoc_get vital statistics with
      | Some st =>
          vital_score (vs_average st) min_normal max_normal
          :: scores_loop rest statistics
      | None => scores_loop rest statistics
      end
  end.

(** [HealthMonitor._calculate_overall_health_score] *)
Definition _calculate_overall_health_score
    (statistics : list (string * vital_statistics)) : Q :=
  match statistics with
  | [] => 50.0
  | _ :: _ =>
      match scores_loop normal_ranges statistics with
      | [] => 50.0
      | scores => (fold_left Qplus scores 0 / inject_Z (Z.of_nat (length scores)))%Q
      end
  end.

(** [HealthMonitor._calculate_health_statistics]; [None] is the empty
    dict returned for an empty window. *)
Definition _calculate_health_statistics (health_data : list reading)
    : result (option health_statistics) :=
  match health_data with
  | [] => Ok None
  | _ :: _ =>
      vitals ← numbers_of_vitals statistics_vitals health_data;
      let statistics := statistics_of vitals in
      health_trends ← _analyze_trends vitals;
      Ok (Some {| hs_vital_signs_summary := statistics;
                  hs_health_trends := health_trends;
                  hs_alert_frequency := _calculate_alert_frequency health_data;
                  hs_overall_health_score :=
                    _calculate_overall_health_score statistics |})
  end.

(** *** The anomaly detector: [HealthAnomalyDetector] *)

Variable np_exp : Q → Q.          (* np.exp *)

(** [HealthAnomalyDetector.assess_risk_level], for a reading given as a
    dict (the monitor passes no other). *)
Definition assess_risk_level (health_data : reading) (anomaly_prob : Q)
    : result string :=
  let hr := get_num "heart_rate" 70 health_data in
  let temp := get_num "temperature" 36.8 health_data in
  let spo2 := get_num "spo2" 98 health_data in
  critical ← py_or (py_or (py_or (py_gt hr 150) (py_lt hr 40)) (py_gt temp 39))
                   (py_lt spo2 90);
  if critical : bool then Ok "critical"
  else if Qgtb anomaly_prob 0.8 then Ok "high"
  else if Qgtb anomaly_prob 0.6 then Ok "medium"
  else if Qgtb anomaly_prob 0.3 then Ok "low"
  else Ok "normal".

(** [HealthAnomalyDetector.generate_recommendations] *)
Definition generate_recommendations (risk_level : string) : list string :=
  if bool_decide (risk_level = "critical") then
    ["EMERGENCY: Seek immediate medical attention";
     "Call emergency services (108) immediately";
     "Monitor vital signs continuously"]
  else if bool_decide (risk_level = "high") then
    ["Contact healthcare provider immediately";
     "Monitor symptoms closely";
     "Avoid strenuous activities"]
  else if bool_decide (risk_level = "medium") then
    ["Consider consulting a healthcare provider";
     "Monitor vital signs regularly";
     "Stay hydrated and rest"]
  else if bool_decide (risk_level = "low") then
    ["Continue normal monitoring";
     "Maintain healthy lifestyle";
     "Stay hydrated"]
  else
    ["Vital signs normal";
     "Continue regular health monitoring";
     "Maintain current health routine"].

(** [HealthAnomalyDetector.predict_anomaly]. [isolation_forest] stands
    for the preprocessing, the fitted scaler and the fitted forest: it
    gives the forest's prediction (-1 for an anomaly, 1 otherwise) and
    its decision function for the reading. The dict also holds the keys
    ['anomaly_probability'] and ['timestamp']. *)
Definition predict_anomaly (is_trained : bool)
    (isolation_forest : reading → result (Z * Q)) (health_data : reading)
    : result anomaly_result :=
  if negb is_trained
  then Raise (ValueError "Models must be trained before making predictions")
  else
    '(if_prediction, if_score) ← isolation_forest health_data;
    let if_anomaly_prob := (1 / (1 + np_exp if_score))%Q in
    let is_anomaly := bool_decide (if_prediction = (-1)%Z) in
    let confidence := Qabs if_score in
    risk_level ← assess_risk_level health_data if_anomaly_prob;
    Ok {| ar_is_anomaly := Some is_anomaly;
          ar_risk_score := Some (if_anomaly_prob * 100)%Q;
          ar_risk_level := Some risk_level;
          ar_confidence := Some confidence;
          ar_recommendations := Some (generate_recommendations risk_level);
          ar_other_keys := true |}.

(** *** The risk predictor: [RiskPredictor] *)

Definition vital_features : list string :=
  ["heart_rate_avg"; "heart_rate_trend"; "heart_rate_variability";
   "temperature_avg"; "temperature_trend";
   "bp_systolic_avg"; "bp_systolic_trend";
   "bp_diastolic_avg"; "bp_diastolic_trend";
   "spo2_avg"; "spo2_trend";
   "respiratory_rate_avg"; "respiratory_rate_trend"].

Definition behavioral_features : list string :=
  ["activity_level_avg"; "sleep_quality"; "stress_level_avg";
   "medication_adherence"; "fall_frequency"].

Definition environmental_features : list string :=
  ["ambient_temperature"; "humidity"; "air_quality"; "time_of_day"; "day_of_week"].

Definition all_features : list string :=
  vital_features ++ behavioral_features ++ environmental_features.

(** [RiskPredictor._get_default_trends] *)
Definition _get_default_trends : list (string * Q) :=
  [ ("heart_rate_avg", 70.0); ("heart_rate_trend", 0.0);
    ("heart_rate_variability", 5.0);
    ("temperature_avg", 36.8); ("temperature_trend", 0.0);
    ("bp_systolic_avg", 120.0); ("bp_systolic_trend", 0.0);
    ("bp_diastolic_avg", 80.0); ("bp_diastolic_trend", 0.0);
    ("spo2_avg", 98.0); ("spo2_trend", 0.0);
    ("respiratory_rate_avg", 16.0); ("respiratory_rate_trend", 0.0) ]%Q.

(** What pandas and numpy compute on a column of the history: the
    mean, the slope of the fitted line and the standard deviation. *)
Variable pd_mean : list pyval → result Q.           (* float(values.mean()) *)
Variable np_polyfit_slope : list pyval → result Q.  (* np.polyfit(x, values, 1)[0] *)
Variable pd_std : list pyval → result Q.            (* float(values.std()) *)

(** The vitals that [calculate_health_trends] loops over. *)
Definition health_trend_vitals : list string :=
  ["heart_rate"; "temperature"; "systolic_bp"; "diastolic_bp"; "spo2";
   "respiratory_rate"].

(** [vital in df.columns]: some reading of the history has the key. *)
Definition in_columns (vital : string) (health_history : list reading) : bool :=
  bool_decide (Exists (λ d : reading, is_Some (d !! vital)) health_history).

(** The loop of [calculate_health_trends]; the dict is kept in the
    order in which its keys are set. [df[vital].dropna()] holds the
    values of the readings that have one for the vital. *)
Fixpoint trends_of_vitals (vitals : list string) (health_history : list reading)
    : result (list (string * Q)) :=
  match vitals with
  | [] => Ok []
  | vital :: rest =>
      entries ←
        (if in_columns vital health_history then
           let values := collect_vital vital health_history in
           if (3 <=? length values)%nat then
             trend ← np_polyfit_slope values;
             avg ← pd_mean values;
             variability ←
               (if bool_decide (vital = "heart_rate")
                then s ← pd_std values; Ok [("heart_rate_variability", s)]
                else Ok []);
             Ok ([(vital +:+ "_avg", avg); (vital +:+ "_trend", trend)] ++ variability)
           else Ok []
         else Ok []);
      more ← trends_of_vitals rest health_history;
      Ok (entries ++ more)
  end.

(** [RiskPredictor.calculate_health_trends] *)
Definition calculate_health_trends (health_history : list reading)
    : result (list (string * Q)) :=
  if (length health_history <? 5)%nat then Ok _get_default_trends
  else trends_of_vitals health_trend_vitals health_history.

(** The two dicts that [predict_risk] reads off the current reading
    and the clock. *)
Definition behavioral_data (current_health_data : reading) : list (string * pyval) :=
  [ ("activity_level_avg", get_num "activity_level" 1 current_health_data);
    ("sleep_quality", get_num "sleep_quality" 7 current_health_data);
    ("stress_level_avg", get_num "stress_level" 3 current_health_data);
    ("medication_adherence", get_num "medication_adherence" 0.9 current_health_data);
    ("fall_frequency", get_num "fall_frequency" 0 current_health_data) ].

Definition environmental_data (current_health_data : reading) (hour weekday : Z)
    : list (string * pyval) :=
  [ ("ambient_temperature", get_num "ambient_temperature" 25 current_health_data);
    ("humidity", get_num "humidity" 45 current_health_data);
    ("air_quality", get_num "air_quality" 50 current_health_data);
    ("time_of_day", PNum (inject_Z hour));
    ("day_of_week", PNum (inject_Z weekday)) ].

(** The loop over [self.all_features] that fills [feature_vector]. *)
Definition feature_vector (trends : list (string * Q))
    (behavioral environmental : list (string * pyval)) : list pyval :=
  (λ feature,
     match assoc_get feature trends with
     | Some v => PNum v
     | None =>
         match assoc_get feature behavioral with
         | Some v => v
         | None =>
             match assoc_get feature environmental with
             | Some v => v
             | None => PNum 0.0
             end
         end
     end) <$> all_features.

(** [f == 0.0] *)
Definition py_eq_zero (f : pyval) : bool :=
  match f with
  | PNum q => Qeq_bool q 0
  | _ => false
  end.

(** [abs(f) > 3] *)
Definition py_abs_gt (f : pyval) (bound : Q) : result bool :=
  match f with
  | PNum q => Ok (Qgtb (Qabs q) bound)
  | PStr _ => Raise (TypeError "bad operand type for abs(): 'str'")
  | PNone => Raise (TypeError "bad operand type for abs(): 'NoneType'")
  end.

(** [sum(1 for f in features if abs(f) > 3)] *)
Fixpoint count_extreme (features : list pyval) : result nat :=
  match features with
  | [] => Ok 0%nat
  | f :: rest =>
      extreme ← py_abs_gt f 3;
      n ← count_extreme rest;
      Ok (if extreme : bool then S n else n)
  end.

(** [RiskPredictor._calculate_prediction_confidence] *)
Definition _calculate_prediction_confidence (features : list pyval) : result Q :=
  let missing_count := length (filter (λ f, py_eq_zero f = true) features) in
  extreme_count ← count_extreme features;
  let confidence :=
    (1.0 - inject_Z (Z.of_nat missing_count) * 0.05
         - inject_Z (Z.of_nat extreme_count) * 0.03)%Q in
  Ok (Qmax 0.5 (Qmin 1.0 confidence)).

(** [x < bound] and [x > bound] against a [float] bound. *)
Definition py_lt_float (a : pyval) (b : Q) : result bool :=
  match a with
  | PNum q => Ok (Qltb q b)
  | PStr _ => Raise (TypeError "'<' not supported between instances of 'str' and 'float'")
  | PNone =>
      Raise (TypeError "'<' not supported between instances of 'NoneType' and 'float'")
  end.

(** The lambdas of [concerning_thresholds]:
    ['high' if x > hi else 'low' if x < lo else None] and its one-sided
    forms. *)
Definition high_or_low (x : pyval) (hi lo : Q) : result (option string) :=
  above ← py_gt x hi;
  if above : bool then Ok (Some "high")
  else below ← py_lt x lo; Ok (if below : bool then Some "low" else None).

(** [RiskPredictor._is_concerning_value] *)
Definition _is_concerning_value (feature_name : string) (value : pyval)
    : result (option string) :=
  if bool_decide (feature_name = "heart_rate_avg") then high_or_low value 100 50
  else if bool_decide (feature_name = "temperature_avg") then high_or_low value 38 35
  else if bool_decide (feature_name = "bp_systolic_avg") then high_or_low value 140 90
  else if bool_decide (feature_name = "bp_diastolic_avg") then high_or_low value 90 60
  else if bool_decide (feature_name = "spo2_avg")
  then below ← py_lt value 95; Ok (if below : bool then Some "low" else None)
  else if bool_decide (feature_name = "stress_level_avg")
  then above ← py_gt value 7; Ok (if above : bool then Some "high" else None)
  else if bool_decide (feature_name = "medication_adherence")
  then below ← py_lt_float value 0.7; Ok (if below : bool then Some "low" else None)
  else Ok None.

(** [float(x)] for a value that a comparison has accepted. *)
Definition py_float (x : pyval) : result Q :=
  match x with
  | PNum q => Ok q
  | PStr s => Raise (ValueError ("could not convert string to float: '" +:+ s +:+ "'"))
  | PNone =>
      Raise (TypeError "float() argument must be a string or a real number, not 'NoneType'")
  end.

(** The loop of [_identify_risk_factors] over
    [enumerate(zip(self.all_features, features))], from index [i] on. *)
Fixpoint risk_factors_loop (importance : list Q) (i : nat)
    (named : list (string * pyval)) : result (list risk_factor) :=
  match named with
  | [] => Ok []
  | (feature_name, feature_value) :: rest =>
      match importance !! i with
      | None =>
          Raise (mk_exn "IndexError"
                   ("index " +:+ pretty i +:+ " is out of bounds for axis 0 with size "
                      +:+ pretty (length importance)))
      | Some imp =>
          found ←
            (if Qgtb imp 0.05 then
               concerning ← _is_concerning_value feature_name feature_value;
               match concerning with
               | Some concern_level =>
                   v ← py_float feature_value;
                   Ok [mk_risk_factor feature_name imp v concern_level]
               | None => Ok []
               end
             else Ok []);
          more ← risk_factors_loop importance (S i) rest;
          Ok (found ++ more)
      end
  end.

(** [risk_factors.sort(key=lambda x: x['importance'], reverse=True)]:
    the sort is stable, factors of equal importance keep their order. *)
Fixpoint insert_by_importance (x : risk_factor) (sorted : list risk_factor)
    : list risk_factor :=
  match sorted with
  | [] => [x]
  | y :: rest =>
      if Qltb (rf_importance x) (rf_importance y)
      then y :: insert_by_importance x rest
      else x :: y :: rest
  end.

Definition sort_by_importance (risk_factors : list risk_factor) : list risk_factor :=
  foldr insert_by_importance [] risk_factors.

(** [RiskPredictor._identify_risk_factors], with
    [self.risk_model.feature_importances_] as [importance]. *)
Definition _identify_risk_factors (is_trained : bool) (importance : list Q)
    (features : list pyval) : result (list risk_factor) :=
  if negb is_trained then Ok []
  else
    risk_factors ← risk_factors_loop importance 0 (zip all_features features);
    Ok (slice_to 5 (sort_by_importance risk_factors)).

(** [RiskPredictor._generate_risk_recommendations] *)
Definition _generate_risk_recommendations (risk_score : Q) : list string :=
  if Qgeb risk_score 0.8 then
    ["URGENT: Contact healthcare provider immediately";
     "Monitor vital signs every 15 minutes";
     "Prepare for possible emergency";
     "Ensure emergency contacts are notified";
     "Have emergency medications ready"]
  else if Qgeb risk_score 0.6 then
    ["Contact healthcare provider today";
     "Monitor vital signs every hour";
     "Avoid strenuous activities";
     "Stay hydrated and rest";
     "Have someone stay with you"]
  else if Qgeb risk_score 0.4 then
    ["Schedule healthcare appointment within 24-48 hours";
     "Monitor vital signs every 2-3 hours";
     "Take prescribed medications as directed";
     "Reduce stress and get adequate rest";
     "Inform family members of your status"]
  else if Qgeb risk_score 0.2 then
    ["Continue regular health monitoring";
     "Follow medication schedule";
     "Maintain healthy lifestyle";
     "Monitor for symptom changes";
     "Stay in contact with healthcare provider"]
  else
    ["Continue normal activities";
     "Maintain regular health monitoring";
     "Follow preventive care guidelines";
     "Keep emergency contacts updated"].

(** [RiskPredictor.predict_risk]. [risk_model] stands for the fitted
    scaler and regressor applied to the feature vector, [hour] and
    [weekday] for [datetime.now().hour] and [datetime.now().weekday()].
    The dict also holds the keys ['next_assessment_time'] and
    ['timestamp']. *)
Definition predict_risk (is_trained : bool) (risk_model : list pyval → result Q)
    (importance : list Q) (hour weekday : Z)
    (current_health_data : reading) (health_history : list reading)
    : result risk_result :=
  if negb is_trained
  then Raise (ValueError "Model must be trained before making predictions")
  else
    trends ← (match health_history with
              | [] => Ok _get_default_trends
              | _ :: _ => calculate_health_trends health_history
              end);
    let features :=
      feature_vector trends (behavioral_data current_health_data)
        (environmental_data current_health_data hour weekday) in
    predicted ← risk_model features;
    let risk_score := Qmax 0 (Qmin 1 predicted) in
    confidence ← _calculate_prediction_confidence features;
    let risk_level := RiskPredictor._determine_risk_level risk_score in
    let recommendations := _generate_risk_recommendations risk_score in
    let time_predictions := RiskPredictor._calculate_time_predictions risk_score in
    key_risk_factors ← _identify_risk_factors is_trained importance features;
    Ok {| rr_overall_risk_score := Some risk_score;
          rr_risk_level := Some risk_level;
          rr_confidence := Some confidence;
          rr_time_predictions := Some time_predictions;
          rr_key_risk_factors := Some key_risk_factors;
          rr_recommendations := Some recommendations;
          rr_other_keys := true |}.

(** *** The service: [ai_service.py] *)

(** A value of the analysis dict as the service reads it: a number, a
    string, a boolean, or a list or dict seen through its size. *)
Inductive pyobj : Type :=
  | ONum (q : Q)
  | OStr (s : string)
  | OBool (b : bool)
  | OContainer (size : nat).

(** Truth value of such a value. *)
Definition pyobj_truthy (v : pyobj) : bool :=
  match v with
  | ONum q => negb (Qeq_bool q 0)
  | OStr s => negb (bool_decide (s = ""))
  | OBool b => b
  | OContainer size => negb (size =? 0)%nat
  end.

(** [analysis.get(key)] on the dict that [analyze_health_data]
    returns: the keys are those set by [_combine_analysis_results],
    by the metadata update and by [_create_error_response]. *)
Definition analysis_get (key : string) (a : analysis) : option pyobj :=
  if bool_decide (key = "current_vitals")
  then (λ hd : reading, OContainer (size hd)) <$> an_current_vitals a
  else if bool_decide (key = "overall_status") then Some (OContainer 5)
  else if bool_decide (key = "immediate_alerts")
  then Some (OContainer (length (an_immediate_alerts a)))
  else if bool_decide (key = "recommendations")
  then Some (OContainer (length (an_recommendations a)))
  else if bool_decide (key = "requires_emergency_response")
  then Some (OBool (an_requires_emergency_response a))
  else if bool_decide (key = "confidence_score")
  then Some (ONum (an_confidence_score a))
  else if bool_decide (key = "anomaly_detection")
  then (λ _, OContainer 3) <$> an_anomaly_detection a
  else if bool_decide (key = "emergency_classification")
  then (λ _, OContainer 4) <$> an_emergency_classification a
  else if bool_decide (key = "risk_prediction")
  then (λ _, OContainer 4) <$> an_risk_prediction a
  else if bool_decide (key = "device_id") then OStr <$> an_device_id a
  else if bool_decide (key = "analysis_timestamp") then OStr <$> an_analysis_timestamp a
  else if bool_decide (key = "processing_time_ms") then ONum <$> an_processing_time_ms a
  else if bool_decide (key = "ai_models_enabled") then OBool <$> an_ai_models_enabled a
  else if bool_decide (key = "error") then OStr <$> an_error a
  else None.

(** One entry of [emergency_alerts]. *)
Record emergency_alert : Type := mk_emergency_alert {
  ea_patientId : string;
  ea_emergencyType : pyobj;
  ea_severity : pyobj;
  ea_timestamp : string;
  ea_healthData : reading;
  ea_aiConfidence : pyobj
}.

(** The module-level state of the service: the two globals and the
    monitor (with the clock). *)
Record service : Type := mk_service {
  recent_health_data : gmap string (list reading);
  emergency_alerts : list emergency_alert;
  svc_world : world
}.

(** The JSON body of a request, for bodies whose [patientId] is a
    string and whose [healthData] is an object of numbers, strings and
    nulls; [None] is a body that [get_json] reads as [None]. *)
Record request_json : Type := mk_request_json {
  rq_patientId : option string;
  rq_healthData : option reading
}.

(** What a route hands to [jsonify]. *)
Inductive response_body : Type :=
  | ErrorBody (error : string) (details : option string)
  | InsufficientBody (error message : string)
  | AnalysisBody (patientId : string) (analysis_result : analysis) (timestamp : string)
  | RiskBody (patientId : string) (riskPrediction : risk_summary)
      (timestamp : string) (dataPoints : nat)
  | TrendsBody (patientId : string) (trends : trend_report)
      (dataPoints : nat) (timestamp : string).

Record response : Type := mk_response {
  resp_code : nat;
  resp_body : response_body
}.

(** A view function: it may raise, and it leaves a new state of the
    service either way. *)
Definition SM (A : Type) : Type := service → result A * service.

#[local] Instance SM_ret : MRet SM := λ A a s, (Ok a, s).
#[local] Instance SM_bind : MBind SM := λ A B k m s,
  match m s with
  | (Ok a, s') => k a s'
  | (Raise e, s') => (Raise e, s')
  end.

(** A call into the monitor. *)
Definition lift_monitor {A} (m : M A) : SM A := λ s,
  let '(r, w') := m (svc_world s) in
  (r, mk_service (recent_health_data s) (emergency_alerts s) w').

Definition get_recent : SM (gmap string (list reading)) := λ s,
  (Ok (recent_health_data s), s).

Definition set_recent (h : gmap string (list reading)) : SM unit := λ s,
  (Ok tt, mk_service h (emergency_alerts s) (svc_world s)).

Definition append_alert (alert : emergency_alert) : SM unit := λ s,
  (Ok tt, mk_service (recent_health_data s) (emergency_alerts s ++ [alert])
            (svc_world s)).

Definition sm_raise {A} (e : exn) : SM A := λ s, (Raise e, s).

(** The [try ... except Exception as e] around the body of a view
    function. *)
Definition route_try (body : SM response) (handler : exn → response)
    : service → response * service := λ s,
  match body s with
  | (Ok r, s') => (r, s')
  | (Raise e, s') => (handler e, s')
  end.

(** The [/analyze/health-data] route. *)
Definition analyze_route (data : option request_json)
    : service → response * service :=
  route_try
    (match data with
     | None => mret (mk_response 400 (ErrorBody "Missing required fields" None))
     | Some d =>
         match rq_patientId d, rq_healthData d with
         | Some patient_id, Some health_data =>
             t ← lift_monitor now;
             recent ← get_recent;
             set_recent (store_recent patient_id health_data (isoformat t) recent);;
             analysis_result ← lift_monitor (analyze_health_data patient_id health_data);
             (if pyobj_truthy (default (OBool false)
                                 (analysis_get "emergency_detected" analysis_result))
              then
                t_alert ← lift_monitor now;
                append_alert
                  {| ea_patientId := patient_id;
                     ea_emergencyType :=
                       default (OStr "unknown")
                         (analysis_get "emergency_type" analysis_result);
                     ea_severity :=
                       default (OStr "medium") (analysis_get "severity" analysis_result);
                     ea_timestamp := isoformat t_alert;
                     ea_healthData := health_data;
                     ea_aiConfidence :=
                       default (ONum 0.5) (analysis_get "confidence" analysis_result) |}
              else mret tt);;
             t_response ← lift_monitor now;
             mret (mk_response 200
                     (AnalysisBody patient_id analysis_result (isoformat t_response)))
         | _, _ => mret (mk_response 400 (ErrorBody "Missing required fields" None))
         end
     end)
    (λ e, mk_response 500 (ErrorBody "Analysis failed" (Some (exn_str e)))).

(** The [/predict/risk] route. *)
Definition predict_risk_route (data : option request_json)
    : service → response * service :=
  route_try
    (match data with
     | None =>
         sm_raise (mk_exn "AttributeError" "'NoneType' object has no attribute 'get'")
     | Some d =>
         let patient_id := default "" (rq_patientId d) in
         if bool_decide (patient_id = "")
         then mret (mk_response 400 (ErrorBody "Patient ID required" None))
         else
           recent ← get_recent;
           let patient_data := default [] (recent !! patient_id) in
           if (length patient_data <? 5)%nat
           then mret (mk_response 400
                        (InsufficientBody "Insufficient data for risk prediction"
                           "Need at least 5 health readings"))
           else
             let risk_analysis := predict_health_risks patient_data in
             t ← lift_monitor now;
             mret (mk_response 200
                     (RiskBody patient_id risk_analysis (isoformat t)
                        (length patient_data)))
     end)
    (λ e, mk_response 500 (ErrorBody "Risk prediction failed" (Some (exn_str e)))).

(** The [/patient/<patient_id>/trends] route. *)
Definition get_health_trends_route (patient_id : string)
    : service → response * service :=
  route_try
    (recent ← get_recent;
     let patient_data := default [] (recent !! patient_id) in
     if (length patient_data <? 10)%nat
     then mret (mk_response 400
                  (InsufficientBody "Insufficient data for trend analysis"
                     "Need at least 10 health readings"))
     else
       trends ← lift_monitor (analyze_health_trends patient_data);
       t ← lift_monitor now;
       mret (mk_response 200
               (TrendsBody patient_id trends (length patient_data) (isoformat t))))
    (λ e, mk_response 500 (ErrorBody "Trend analysis failed" None)).

(** ** Definitions used to state the properties *)

(** A run of [_store_health_data] calls, one per (device, reading). *)
Fixpoint store_many (ops : list (string * reading)) : M unit :=
  match ops with
  | [] => mret tt
  | (device_id, health_data) :: rest =>
      _store_health_data device_id health_data;; store_many rest
  end.

(** Everything a run appends for [device_id], oldest first, when the
    clock has been read [clock] times before the run. *)
Fixpoint appended_log (device_id : string) (ops : list (string * reading))
    (clock : nat) : list reading :=
  match ops with
  | [] => []
  | (d, health_data) :: rest =>
      (if bool_decide (d = device_id)
       then [timestamped health_data (isoformat (wall clock))] else [])
      ++ appended_log device_id rest (S clock)
  end.

(** The last [n] entries of a list (all of it when it is shorter). *)
Definition most_recent {A} (n : nat) (l : list A) : list A :=
  drop (length l - n) l.

(** The history of a device, empty when the device is unknown. *)
Definition history_of (w : world) (device_id : string) : list reading :=
  default [] (health_history (w_monitor w) !! device_id).

(** Duplicates removed, the first occurrence of each string kept. *)
Fixpoint dedup_first (l : list string) : list string :=
  match l with
  | [] => []
  | x :: l' => x :: filter (λ y, y ≠ x) (dedup_first l')
  end.

(** The recommendation list a signal carries, empty when the signal or
    the list is absent. *)
Definition anomaly_recs (anomaly : option anomaly_result) : list string :=
  default [] (anomaly ≫= ar_recommendations).
Definition emergency_recs (emergency : option emergency_result) : list string :=
  default [] (emergency ≫= er_recommended_actions).
Definition risk_recs (risk : option risk_result) : list string :=
  default [] (risk ≫= rr_recommendations).

(** The fixed line that a threshold alert adds. *)
Definition immediate_attention_line : string := "IMMEDIATE MEDICAL ATTENTION REQUIRED".

(** The classifier object of the monitor, for a fitted ensemble. *)
Definition classifier_object (is_trained : bool)
    (ensemble : reading → result EmergencyClassifier.ensemble_output)
    : EmergencyClassifierObj :=
  mk_emergency_classifier is_trained
    (EmergencyClassifier.predict_emergency is_trained ensemble).

(** The ensemble's output in the scenario "cardiac arrest at 0.9". *)
Definition cardiac_arrest_output : EmergencyClassifier.ensemble_output :=
  EmergencyClassifier.mk_ensemble_output "cardiac_arrest" 0.9
    [("cardiac_arrest", 0.9%Q); ("stroke", 0.06%Q); ("normal", 0.04%Q)].

(** The score bands of the risk levels: at least 0.8 critical, at least
    0.6 high, at least 0.4 medium, at least 0.2 low, below that minimal. *)
Definition in_band (score : Q) (risk_level : string) : Prop :=
  ((0.8 <= score)%Q → risk_level = "critical")
  ∧ ((0.6 <= score)%Q → (score < 0.8)%Q → risk_level = "high")
  ∧ ((0.4 <= score)%Q → (score < 0.6)%Q → risk_level = "medium")
  ∧ ((0.2 <= score)%Q → (score < 0.4)%Q → risk_level = "low")
  ∧ ((score < 0.2)%Q → risk_level = "minimal").

(** A vital of the bounds table breaches when the reading has a number
    for it that is below the minimum or above the maximum. *)
Definition breaches (health_data : reading) (entry : string * (Q * Q)) : bool :=
  match health_data !! entry.1 with
  | Some (PNum q) => Qltb q entry.2.1 || Qgtb q entry.2.2
  | _ => false
  end.

(** The three bounds the scenario names; they are entries of
    [critical_thresholds]. *)
Definition scenario_thresholds : bounds_table :=
  [ ("heart_rate", (40, 150)); ("temperature", (35.0, 39.0)); ("spo2", (90, 100)) ]%Q.

(** The reading of the scenario: heart rate 155, temperature 39.2,
    oxygen saturation 89. *)
Definition scenario_reading : reading :=
  <["heart_rate" := PNum 155]> (<["temperature" := PNum 39.2]> (<["spo2" := PNum 89]> ∅)).

(** A reading whose value under [key], if it has one, is a number. *)
Definition numeric_at (key : string) (d : reading) : Prop :=
  match d !! key with
  | Some (PStr _) | Some PNone => False
  | Some (PNum _) | None => True
  end.

(** A reading of the service whose four vitals are numbers. *)
Definition numeric_vitals (d : reading) : Prop :=
  numeric_at "heartRate" d ∧ numeric_at "temperature" d
  ∧ numeric_at "bloodPressureSystolic" d ∧ numeric_at "oxygenSaturation" d.

(** The result for a history that is too short for a risk prediction. *)
Definition insufficient_risk : risk_summary :=
  mk_risk_summary "insufficient_data" 0.0
    (Some "Need at least 5 data points for risk prediction") None None None None.

(** The result for a history that is too short for a trend analysis. *)
Definition insufficient_trend : trend_report :=
  mk_trend_report (Some "insufficient_data")
    (Some "Need at least 10 data points for trend analysis") None None None None None.

(** A reading of the service with ordinary vitals. *)
Definition calm_reading : reading :=
  <["heartRate" := PNum 72]> (<["temperature" := PNum 36.6]>
    (<["bloodPressureSystolic" := PNum 118]> (<["oxygenSaturation" := PNum 98]> ∅))).

(** The direction of a series as the specification words it: the mean
    of the first quarter against the mean of the last quarter, a quarter
    being [len // 4] samples and never less than one. *)
Definition quarter_size (n : nat) : nat := Nat.max 1 (n / 4).

Definition mean_of (xs : list Q) : Q :=
  (fold_left Qplus xs 0 / inject_Z (Z.of_nat (length xs)))%Q.

Definition trend_direction_spec (values : list Q) : string :=
  if (length values <? 5)%nat then "insufficient_data"
  else
    let k := quarter_size (length values) in
    let avg_first := mean_of (take k values) in
    let avg_last := mean_of (drop (length values - k) values) in
    if Qgtb avg_last (avg_first * 1.05) then "increasing"
    else if Qltb avg_last (avg_first * 0.95) then "decreasing"
    else "stable".

(** Five heart-rate values whose last sample is 80. *)
Definition rising_series : list Q := [70; 72; 71; 60; 80]%Q.

(** Sample inputs: renderings, a clock, a monitor without scorers, a
    reading whose heart rate is text, and alerts. *)
Definition sample_fmt (q : Q) : string :=
  pretty (Qnum q) +:+ "/" +:+ pretty (Zpos (Qden q)).

Definition sample_isoformat (t : Z) : string := "t" +:+ pretty t.

Definition sample_wall (n : nat) : Z := (1000 * Z.of_nat n)%Z.

Definition plain_monitor : HealthMonitor := mk_monitor false None None None ∅.

Definition text_reading : reading := <["heart_rate" := PStr "fast"]> ∅.

Definition low_heart_rate_alert : alert :=
  mk_alert "critical_low" "heart_rate" (PNum 35) 40 "critical"
    "heart_rate critically low: 35".

(** ** Further definitions used to state properties of the fusion *)

(** A classification signal that does not trigger rule 2: absent,
    predicting normal, or with a confidence of at most 0.7. *)
Definition classification_silent (emergency : option emergency_result) : Prop :=
  match emergency with
  | None => True
  | Some r =>
      default "normal" (er_predicted_emergency r) = "normal"
      ∨ (default 0 (er_confidence r) <= 0.7)%Q
  end.

(** An anomaly signal that does not trigger rule 3: absent, not flagged,
    or with a risk level other than high and critical. *)
Definition anomaly_silent (anomaly : option anomaly_result) : Prop :=
  match anomaly with
  | None => True
  | Some r =>
      default false (ar_is_anomaly r) = false
      ∨ default "normal" (ar_risk_level r) ∉ ["high"; "critical"]
  end.

(** A sample anomaly signal and a sample risk signal. *)
Definition flagged_anomaly : anomaly_result :=
  mk_anomaly_result (Some true) (Some 85%Q) (Some "high") (Some 0.6%Q)
    (Some ["Contact healthcare provider immediately"]) true.

Definition elevated_risk : risk_result :=
  mk_risk_result (Some 0.65%Q) (Some "high") (Some 0.9%Q) None None
    (Some ["Contact healthcare provider today"]) true.

(** The four vitals of [analyze_health_trends], in its order. *)
Definition trend_vitals : list string :=
  ["heartRate"; "temperature"; "bloodPressureSystolic"; "oxygenSaturation"].

(** Six values that start at zero. *)
Definition from_zero_series : list pyval :=
  [PNum 0; PNum 0; PNum 0; PNum 4; PNum 5; PNum 6].

(** The average of a vital that the statistics hold lies in its normal
    range. *)
Definition within_normal_range (statistics : list (string * vital_statistics))
    (entry : string * (Q * Q)) : Prop :=
  ∀ st, assoc_get entry.1 statistics = Some st →
        (entry.2.1 <= vs_average st)%Q ∧ (vs_average st <= entry.2.2)%Q.

(** Sample statistics: a heart rate of 130 on average, a temperature in
    range. *)
Definition sample_statistics : list (string * vital_statistics) :=
  [ ("heart_rate", mk_vital_statistics 130 120 140 4);
    ("temperature", mk_vital_statistics 36.6 36.4 36.9 4) ]%Q.

(** A reading of the monitor with a fast pulse inside the critical
    bounds, and a window of three such readings. *)
Definition fast_reading : reading :=
  <["heart_rate" := PNum 120]> (<["temperature" := PNum 37.0]> (<["spo2" := PNum 97]> ∅)).

Definition fast_window : list reading := replicate 3 fast_reading.

(** The severities of the classifier, from the least to the most
    severe. *)
Definition severity_rank (severity : string) : nat :=
  if bool_decide (severity = "critical") then 4
  else if bool_decide (severity = "high") then 3
  else if bool_decide (severity = "medium") then 2
  else if bool_decide (severity = "low") then 1
  else 0.

(** The four blood-pressure entries of the feature vector; they are
    the entries 5 to 8 of [all_features]. *)
Definition blood_pressure_features : list string :=
  ["bp_systolic_avg"; "bp_systolic_trend"; "bp_diastolic_avg"; "bp_diastolic_trend"].

(** The keys that the loop of [calculate_health_trends] can set for a
    vital. *)
Definition trend_keys (vital : string) : list string :=
  [vital +:+ "_avg"; vital +:+ "_trend"; "heart_rate_variability"].

(** The risk levels, from the lowest to the highest. *)
Definition risk_level_rank (risk_level : string) : nat :=
  if bool_decide (risk_level = "critical") then 4
  else if bool_decide (risk_level = "high") then 3
  else if bool_decide (risk_level = "medium") then 2
  else if bool_decide (risk_level = "low") then 1
  else 0.

(** The features for which [_is_concerning_value] has a threshold. *)
Definition concerning_features : list string :=
  ["heart_rate_avg"; "temperature_avg"; "bp_systolic_avg"; "bp_diastolic_avg";
   "spo2_avg"; "stress_level_avg"; "medication_adherence"].

(** Factors in the order of the report: never a more important factor
    after a less important one. *)
Definition by_importance (a b : risk_factor) : Prop :=
  (rf_importance b <= rf_importance a)%Q.

(** The patient and the reading of a request that has both fields. *)
Definition request_fields (data : option request_json) : option (string * reading) :=
  d ← data;
  patient_id ← rq_patientId d;
  health_data ← rq_healthData d;
  Some (patient_id, health_data).

(** The state of the world after one reading of the clock. *)
Definition after_clock_read (w : world) : world :=
  mk_world (w_monitor w) (S (w_clock_reads w)).

(** The service as the module creates it, around a monitor that has
    stored nothing yet. *)
Definition initial_service (monitor : HealthMonitor) : service :=
  mk_service ∅ [] (mk_world monitor 0).

(** The state of the service after a run of posts to
    [/analyze/health-data]. *)
Definition post_all (requests : list (option request_json)) (s : service) : service :=
  fold_left (λ s data, (analyze_route data s).2) requests s.

(** The readings that a run of posts brought for a patient, in order. *)
Definition posted (patient_id : string) (requests : list (option request_json))
    : list reading :=
  omap (λ data,
          match request_fields data with
          | Some (p, health_data) =>
              if bool_decide (p = patient_id) then Some health_data else None
          | None => None
          end) requests.

(** A reading without its timestamp. *)
Definition without_timestamp (d : reading) : reading := delete "timestamp" d.

(** The readings that the service holds for a patient. *)
Definition recent_of (s : service) (patient_id : string) : list reading :=
  default [] (recent_health_data s !! patient_id).

(** Stand-ins for the numerical libraries in the examples: [np.exp] on
    a negative score, the forest on a reading it flags, pandas and
    numpy on the constant columns of a history that repeats one
    reading, and a fitted regressor with equal importances. *)
Definition sample_exp (x : Q) : Q := (1 / (1 - x + x * x / 2))%Q.

Definition sample_forest (health_data : reading) : result (Z * Q) :=
  Ok ((-1)%Z, (-2)%Q).

Definition sample_slope (values : list pyval) : result Q := Ok 0%Q.

Definition sample_std (values : list pyval) : result Q := Ok 0%Q.

Definition sample_risk_model (features : list pyval) : result Q := Ok 0.7%Q.

Definition sample_importance : list Q := replicate 23 0.1%Q.

Definition sample_history : list reading := replicate 5 fast_reading.

(** A post to the analyze route for patient [p1]. *)
Definition sample_post : option request_json :=
  Some (mk_request_json (Some "p1") (Some fast_reading)).

(** * Properties *)

(** Membership of a string in a list literal. *)
Ltac elem_of_literal :=
  solve [repeat first [apply list_elem_of_here | apply list_elem_of_further]].

(** ** Comparisons *)

Lemma Qltb_lt a b : Qltb a b = true ↔ (a < b)%Q.
Proof.
  unfold Qltb. rewrite negb_true_iff, <- not_true_iff_false, Qle_bool_iff.
  split; [apply Qnot_le_lt | apply Qlt_not_le].
Qed.

Lemma Qltb_ge a b : Qltb a b = false ↔ (b <= a)%Q.
Proof. unfold Qltb. rewrite negb_false_iff. apply Qle_bool_iff. Qed.

Lemma Qgtb_gt a b : Qgtb a b = true ↔ (b < a)%Q.
Proof. apply Qltb_lt. Qed.

Lemma Qgeb_ge a b : Qgeb a b = true ↔ (b <= a)%Q.
Proof. apply Qle_bool_iff. Qed.

(** ** The bounded history *)

Lemma slice_from_neg_most_recent {A} (n : nat) (l : list A) :
  (0 < n)%nat → slice_from (- Z.of_nat n) l = most_recent n l.
Proof.
  intros Hn. unfold slice_from, most_recent.
  replace (- Z.of_nat n <? 0)%Z with true by (symmetry; apply Z.ltb_lt; lia).
  f_equal. lia.
Qed.

Lemma most_recent_length {A} (n : nat) (l : list A) :
  length (most_recent n l) = Nat.min n (length l).
Proof. unfold most_recent. rewrite length_drop. lia. Qed.

(** Appending to the retained suffix of a log and cutting again gives
    the retained suffix of the longer log. *)
Lemma most_recent_snoc {A} (n : nat) (l : list A) (x : A) :
  most_recent n (most_recent n l ++ [x]) = most_recent n (l ++ [x]).
Proof.
  destruct (decide (n = 0%nat)) as [-> | Hn].
  { unfold most_recent. rewrite !Nat.sub_0_r. by rewrite !drop_all. }
  unfold most_recent. rewrite !length_app, length_drop. simpl.
  destruct (decide (length l ≤ n)) as [Hle | Hgt].
  - replace (length l - n)%nat with 0%nat by lia. rewrite drop_0.
    f_equal. lia.
  - rewrite drop_app_le by (rewrite length_drop; lia).
    rewrite drop_drop.
    rewrite (drop_app_le l) by lia.
    f_equal. f_equal. lia.
Qed.

Lemma append_capped_most_recent {A} (l : list A) (x : A) :
  (length l ≤ 100)%nat → append_capped l x = most_recent 100 (l ++ [x]).
Proof.
  intros Hl. unfold append_capped.
  destruct (100 <? length (l ++ [x]))%nat eqn:E.
  - apply (slice_from_neg_most_recent 100). lia.
  - apply Nat.ltb_ge in E. unfold most_recent.
    replace (length (l ++ [x]) - 100)%nat with 0%nat by lia. done.
Qed.

(** [_store_health_data] acts on the list of its device as
    [append_capped] and leaves every other device alone. *)
Lemma store_in_history_lookup d hd ts (h : gmap string (list reading)) d' :
  default [] (store_in_history d hd ts h !! d')
  = if bool_decide (d = d')
    then append_capped (default [] (h !! d)) (timestamped hd ts)
    else default [] (h !! d').
Proof.
  unfold store_in_history, append_capped.
  set (h1 := match h !! d with None => <[d:=[]]> h | Some _ => h end).
  assert (H1 : ∀ k, default [] (h1 !! k) = default [] (h !! k)).
  { intros k. subst h1. destruct (h !! d) eqn:E; [done |].
    destruct (decide (d = k)) as [<- | Hne].
    - by rewrite lookup_insert_eq, E.
    - by rewrite lookup_insert_ne. }
  rewrite lookup_insert_eq. simpl. rewrite H1.
  case_bool_decide as Hd.
  - subst d'. destruct (100 <? _)%nat; by rewrite lookup_insert_eq.
  - destruct (100 <? _)%nat; rewrite ?lookup_insert_ne by done;
      rewrite ?lookup_insert_ne by done; apply H1.
Qed.

(** The same for the [recent_health_data] store of the service. *)
Lemma store_recent_lookup p hd ts (h : gmap string (list reading)) p' :
  default [] (store_recent p hd ts h !! p')
  = if bool_decide (p = p')
    then append_capped (default [] (h !! p)) (timestamped_first hd ts)
    else default [] (h !! p').
Proof.
  unfold store_recent, append_capped.
  set (h1 := match h !! p with None => <[p:=[]]> h | Some _ => h end).
  assert (H1 : ∀ k, default [] (h1 !! k) = default [] (h !! k)).
  { intros k. subst h1. destruct (h !! p) eqn:E; [done |].
    destruct (decide (p = k)) as [<- | Hne].
    - by rewrite lookup_insert_eq, E.
    - by rewrite lookup_insert_ne. }
  rewrite lookup_insert_eq. simpl. rewrite H1.
  case_bool_decide as Hd.
  - subst p'. destruct (100 <? _)%nat; by rewrite lookup_insert_eq.
  - destruct (100 <? _)%nat; rewrite ?lookup_insert_ne by done;
      rewrite ?lookup_insert_ne by done; apply H1.
Qed.

Lemma store_health_data_run d hd (w : world) :
  _store_health_data d hd w
  = (Ok tt,
     mk_world
       (mk_monitor (enable_ai_models (w_monitor w)) (anomaly_detector (w_monitor w))
          (emergency_classifier (w_monitor w)) (risk_predictor (w_monitor w))
          (store_in_history d hd (isoformat (wall (w_clock_reads w)))
             (health_history (w_monitor w))))
       (S (w_clock_reads w))).
Proof. reflexivity. Qed.

(** The invariant of a run: each device's list is the retained suffix
    of a log [L] of everything ever appended for it. *)
Lemma store_many_invariant ops :
  ∀ (w : world) (L : string → list reading),
    (∀ d, history_of w d = most_recent 100 (L d)) →
    ∃ w', store_many ops w = (Ok tt, w')
          ∧ ∀ d, history_of w' d
                 = most_recent 100 (L d ++ appended_log d ops (w_clock_reads w)).
Proof.
  induction ops as [| [d0 hd] rest IH]; intros w L Hinv.
  - exists w. split; [done |]. intros d. simpl. by rewrite app_nil_r.
  - set (x := timestamped hd (isoformat (wall (w_clock_reads w)))).
    set (L' := λ d, L d ++ (if bool_decide (d0 = d) then [x] else [])).
    cbn [store_many]. unfold mbind, M_bind. rewrite store_health_data_run.
    match goal with |- context [store_many rest ?w1] => set (w1' := w1) end.
    destruct (IH w1' L') as (w' & Hrun & Hhist).
    { intros d. unfold history_of, w1'. cbn [w_monitor health_history].
      rewrite store_in_history_lookup. fold (history_of w d0). fold (history_of w d).
      fold x. unfold L'. case_bool_decide as Hd.
      - subst d. rewrite append_capped_most_recent.
        + rewrite Hinv. apply most_recent_snoc.
        + rewrite Hinv, most_recent_length. lia.
      - by rewrite app_nil_r. }
    exists w'. split; [exact Hrun |].
    intros d. rewrite Hhist. unfold L', w1'. cbn [w_clock_reads appended_log].
    fold x. by rewrite <- app_assoc.
Qed.

(** C3. After any run of appends on a freshly built monitor (empty
    [health_history]) every append succeeds, the list of each device
    holds at most 100 readings, and it is exactly the most recent (at
    most 100) of the readings appended for that device, oldest first:
    the entries dropped are the oldest ones. *)
Theorem history_capped_fifo (ops : list (string * reading)) (enabled : bool)
    (ad : option AnomalyDetector) (ec : option EmergencyClassifierObj)
    (rp : option RiskPredictorObj) (clock : nat) (device_id : string) :
  ∃ w', store_many ops (mk_world (mk_monitor enabled ad ec rp ∅) clock) = (Ok tt, w')
        ∧ (length (history_of w' device_id) ≤ 100)%nat
        ∧ history_of w' device_id
          = drop (length (appended_log device_id ops clock) - 100)
              (appended_log device_id ops clock).
Proof.
  destruct (store_many_invariant ops (mk_world (mk_monitor enabled ad ec rp ∅) clock)
              (λ _, [])) as (w' & Hrun & Hhist).
  { intros d. unfold history_of. cbn. by rewrite lookup_empty. }
  exists w'. split; [exact Hrun |].
  specialize (Hhist device_id). cbn [w_clock_reads app] in Hhist.
  split.
  - rewrite Hhist, most_recent_length. lia.
  - exact Hhist.
Qed.

(** ** Fusion: rule 1 *)

Lemma rule_alerts_critical alerts a rest :
  critical_alerts alerts = a :: rest →
  rule_alerts alerts
  = Some (mk_status "emergency" "critical" 0.95 (Some (al_message a))
            "Critical vital signs detected - immediate medical attention required").
Proof.
  intros H. unfold rule_alerts. destruct alerts as [| a0 alerts].
  - discriminate H.
  - by rewrite H.
Qed.

Lemma rule_alerts_none alerts :
  critical_alerts alerts = [] → rule_alerts alerts = None.
Proof. intros H. unfold rule_alerts. rewrite H. by destruct alerts. Qed.

(** C1. If the alerts handed to the fusion hold at least one alert of
    severity critical ([a] being the first of them), the verdict is
    level emergency, severity critical, confidence 0.95 and its primary
    concern is the message of [a], whatever the anomaly, classification
    and risk signals are. *)
Theorem critical_alert_short_circuits (alerts : list alert)
    (anomaly : option anomaly_result) (emergency : option emergency_result)
    (risk : option risk_result) (a : alert) (rest : list alert) :
  critical_alerts alerts = a :: rest →
  let s := _determine_overall_status alerts anomaly emergency risk in
  st_level s = "emergency"
  ∧ st_severity s = "critical"
  ∧ st_confidence s = 0.95%Q
  ∧ st_primary_concern s = Some (al_message a).
Proof.
  intros H s. subst s. unfold _determine_overall_status.
  by rewrite (rule_alerts_critical _ _ _ H).
Qed.

(** Every alert of the threshold check has severity critical, so the
    check and the filter of rule 1 agree. *)
Lemma check_alerts_loop_critical table hd :
  ∀ acc alerts,
    Forall (λ a, al_severity a = "critical") acc →
    check_alerts_loop table hd acc = Ok alerts →
    Forall (λ a, al_severity a = "critical") alerts.
Proof.
  induction table as [| [vital [lo hi]] rest IH]; intros acc alerts Hacc Hrun.
  - simpl in Hrun. by injection Hrun as <-.
  - simpl in Hrun. destruct (hd !! vital) as [value |]; [| by eapply IH].
    destruct (py_lt value lo) as [[] |] eqn:Elt; simpl in Hrun; [| | done].
    + eapply IH; [| exact Hrun]. apply Forall_app. split; [done |]. by constructor.
    + destruct (py_gt value hi) as [[] |] eqn:Egt; simpl in Hrun; [| | done].
      * eapply IH; [| exact Hrun]. apply Forall_app. split; [done |]. by constructor.
      * by eapply IH.
Qed.

Lemma check_immediate_alerts_critical hd alerts :
  _check_immediate_alerts hd = Ok alerts → critical_alerts alerts = alerts.
Proof.
  intros H. apply check_alerts_loop_critical in H; [| by constructor].
  unfold critical_alerts. induction H as [| a l Ha _ IH]; [done |].
  rewrite filter_cons_True by done. by rewrite IH.
Qed.

(** ** Fusion: rule 2 *)

(** What rule 2 returns for any classification dict that passes its test. *)
Lemma rule_emergency_fires (r : emergency_result) :
  emergency_truthy r = true →
  default "normal" (er_predicted_emergency r) ≠ "normal" →
  (0.7 < default 0 (er_confidence r))%Q →
  rule_emergency (Some r)
  = Some (mk_status
            (if bool_decide (default "medium" (er_severity r) = "critical")
             then "emergency" else "warning")
            (severity_map_get (default "medium" (er_severity r)))
            (default 0%Q (er_confidence r))
            (Some ("Potential "
                     +:+ replace_underscores (default "normal" (er_predicted_emergency r))
                     +:+ " detected"))
            ("Emergency classification: " +:+ default "normal" (er_predicted_emergency r)
               +:+ " (confidence: " +:+ fmt_2f (default 0%Q (er_confidence r)) +:+ ")")).
Proof.
  intros Ht Hty Hc. unfold rule_emergency, truthy. rewrite Ht.
  cbv zeta. rewrite bool_decide_eq_true_2 by done.
  apply Qgtb_gt in Hc. by rewrite Hc.
Qed.

(** The severities the classifier gives to a class other than normal
    are the four keys of [severity_map]. *)
Lemma determine_severity_known (emergency_type : string) (confidence : Q) :
  emergency_type ≠ "normal" →
  EmergencyClassifier._determine_severity emergency_type confidence
    ∈ ["critical"; "high"; "medium"; "low"].
Proof.
  intros Hty. unfold EmergencyClassifier._determine_severity.
  rewrite (bool_decide_eq_true_2 (emergency_type ≠ "normal")) by done.
  repeat (match goal with |- context [if ?b then _ else _] => destruct b end;
          [elem_of_literal |]).
  elem_of_literal.
Qed.

Lemma severity_map_get_known (sev : string) :
  sev ∈ ["critical"; "high"; "medium"; "low"] → severity_map_get sev = sev.
Proof.
  intros H. unfold severity_map_get.
  repeat (apply elem_of_cons in H as [-> | H]; [done |]).
  by apply elem_of_nil in H.
Qed.

(** A classification signal reaches the fusion only as the dict that
    [predict_emergency] builds. *)
Lemma run_emergency_classifier (self : HealthMonitor) (is_trained : bool)
    (ensemble : reading → result EmergencyClassifier.ensemble_output)
    (health_data : reading) (r : emergency_result) :
  emergency_classifier self = Some (classifier_object is_trained ensemble) →
  run_emergency self health_data = Ok (Some r) →
  ∃ o, ensemble health_data = Ok o ∧ r = EmergencyClassifier.emergency_dict o.
Proof.
  intros Hc. unfold run_emergency. rewrite Hc.
  cbn [classifier_object ec_is_trained ec_predict_emergency].
  destruct is_trained; [| done].
  unfold EmergencyClassifier.predict_emergency. cbn [negb].
  destruct (ensemble health_data) as [o |]; [| done].
  cbn [mbind result_bind]. intros [= <-]. by exists o.
Qed.


(** ** Recommendations *)

Lemma unique_loop_dedup (all : list string) :
  ∀ acc, unique_loop all acc = acc ++ filter (λ y, y ∉ acc) (dedup_first all).
Proof.
  induction all as [| x l IH]; intros acc.
  - simpl. by rewrite app_nil_r.
  - unfold unique_loop in *. cbn [fold_left dedup_first]. rewrite IH.
    case_bool_decide as Hx.
    + rewrite filter_cons_False by (intros H; by apply H).
      f_equal. rewrite list_filter_filter. apply list_filter_iff.
      intros y. split; [| tauto]. intros Hy. split; [done |]. by intros ->.
    + rewrite filter_cons_True by done.
      rewrite <- app_assoc. cbn [app]. do 2 f_equal.
      rewrite list_filter_filter. apply list_filter_iff.
      intros y. rewrite not_elem_of_app, list_elem_of_singleton. tauto.
Qed.

Lemma unique_recommendations_dedup (all : list string) :
  unique_recommendations all = dedup_first all.
Proof.
  unfold unique_recommendations. rewrite unique_loop_dedup. cbn [app].
  induction (dedup_first all) as [| y l IH]; [done |].
  rewrite filter_cons_True by apply not_elem_of_nil. by rewrite IH.
Qed.

Lemma dedup_first_elem_of (l : list string) (x : string) :
  x ∈ dedup_first l ↔ x ∈ l.
Proof.
  induction l as [| y l IH]; [done |].
  cbn [dedup_first]. rewrite !elem_of_cons, list_elem_of_filter, IH.
  destruct (decide (x = y)); tauto.
Qed.

Lemma dedup_first_NoDup (l : list string) : NoDup (dedup_first l).
Proof.
  induction l as [| y l IH]; [constructor |].
  cbn [dedup_first]. constructor.
  - rewrite list_elem_of_filter. tauto.
  - by apply NoDup_filter.
Qed.

Lemma anomaly_recs_truthy (anomaly : option anomaly_result) :
  match truthy anomaly_truthy anomaly with
  | Some r => default [] (ar_recommendations r)
  | None => []
  end = anomaly_recs anomaly.
Proof.
  destruct anomaly as [r |]; [| done]. unfold truthy, anomaly_recs. simpl.
  destruct (anomaly_truthy r) eqn:E; [done |].
  unfold anomaly_truthy in E. destruct (ar_recommendations r); [| done].
  rewrite (bool_decide_eq_true_2 (is_Some (Some l))) in E by eauto.
  rewrite !orb_true_r in E. discriminate E.
Qed.

Lemma emergency_recs_truthy (emergency : option emergency_result) :
  match truthy emergency_truthy emergency with
  | Some r => default [] (er_recommended_actions r)
  | None => []
  end = emergency_recs emergency.
Proof.
  destruct emergency as [r |]; [| done]. unfold truthy, emergency_recs. simpl.
  destruct (emergency_truthy r) eqn:E; [done |].
  unfold emergency_truthy in E. destruct (er_recommended_actions r); [| done].
  rewrite (bool_decide_eq_true_2 (is_Some (Some l))) in E by eauto.
  rewrite !orb_true_r in E. discriminate E.
Qed.

Lemma risk_recs_truthy (risk : option risk_result) :
  match truthy risk_truthy risk with
  | Some r => default [] (rr_recommendations r)
  | None => []
  end = risk_recs risk.
Proof.
  destruct risk as [r |]; [| done]. unfold truthy, risk_recs. simpl.
  destruct (risk_truthy r) eqn:E; [done |].
  unfold risk_truthy in E. destruct (rr_recommendations r); [| done].
  rewrite (bool_decide_eq_true_2 (is_Some (Some l))) in E by eauto.
  rewrite !orb_true_r in E. discriminate E.
Qed.

(** C5. The recommendations of an analysis are: the fixed
    immediate-attention line when (and only when) the alert list is not
    empty, then the recommendation lists of the anomaly, classification
    and risk signals in that order; duplicates removed keeping the first
    occurrence; cut to the first 10. So the list has at most 10 entries
    and no string twice. *)
Theorem recommendations_merged (health_data : reading) (alerts : list alert)
    (anomaly : option anomaly_result) (emergency : option emergency_result)
    (risk : option risk_result) :
  let recs :=
    an_recommendations
      (_combine_analysis_results health_data alerts anomaly emergency risk) in
  recs = take 10
           (dedup_first
              ((if bool_decide (alerts = []) then [] else [immediate_attention_line])
               ++ anomaly_recs anomaly ++ emergency_recs emergency ++ risk_recs risk))
  ∧ (length recs ≤ 10)%nat
  ∧ NoDup recs.
Proof.
  intros recs.
  assert (Hrecs : recs = take 10
           (dedup_first
              ((if bool_decide (alerts = []) then [] else [immediate_attention_line])
               ++ anomaly_recs anomaly ++ emergency_recs emergency ++ risk_recs risk))).
  { subst recs. cbn [_combine_analysis_results an_recommendations].
    rewrite unique_recommendations_dedup. unfold all_recommendations.
    rewrite anomaly_recs_truthy, emergency_recs_truthy, risk_recs_truthy.
    unfold slice_to. cbn [Z.ltb Z.compare Z.to_nat Pos.to_nat Pos.iter_op Init.Nat.add].
    by destruct alerts. }
  split; [exact Hrecs |]. rewrite Hrecs. split.
  - rewrite length_take. lia.
  - eapply sublist_NoDup; [apply dedup_first_NoDup | apply sublist_take].
Qed.

(** ** The analysis as a whole *)

(** The state in which the [try] block of [analyze_health_data] starts. *)
Lemma analyze_health_data_unfold d hd (w : world) :
  analyze_health_data d hd w
  = match analyze_body (wall (w_clock_reads w)) d hd
            (mk_world (w_monitor w) (S (w_clock_reads w))) with
    | (Ok a, w') => (Ok a, w')
    | (Raise e, w') => _create_error_response d (exn_str e) w'
    end.
Proof. reflexivity. Qed.

Lemma create_error_response_run d msg (w : world) :
  _create_error_response d msg w
  = (Ok {| an_current_vitals := None;
           an_overall_status :=
             mk_status "error" "unknown" 0.0 (Some "Analysis failed")
               ("Health analysis error: " +:+ msg);
           an_immediate_alerts := [];
           an_recommendations := ["Contact technical support"; "Retry health monitoring"];
           an_requires_emergency_response := false;
           an_confidence_score := 0.0;
           an_anomaly_detection := None;
           an_emergency_classification := None;
           an_risk_prediction := None;
           an_device_id := Some d;
           an_analysis_timestamp := Some (isoformat (wall (w_clock_reads w)));
           an_processing_time_ms := None;
           an_ai_models_enabled := Some (enable_ai_models (w_monitor w));
           an_error := Some msg |},
     mk_world (w_monitor w) (S (w_clock_reads w))).
Proof. reflexivity. Qed.

(** A result of the [try] block is a combined analysis with its
    metadata. *)
Lemma analyze_body_ok start d hd (w w' : world) (a : analysis) :
  analyze_body start d hd w = (Ok a, w') →
  ∃ alerts anomaly emergency risk finish enabled,
    a = with_metadata (_combine_analysis_results hd alerts anomaly emergency risk)
          d start finish enabled.
Proof.
  unfold analyze_body, mbind, M_bind, lift_result.
  rewrite store_health_data_run.
  destruct (_check_immediate_alerts hd) as [alerts |]; [| done].
  cbn [get_monitor w_monitor].
  match goal with |- context [if ?b then ?x else ?y] =>
    destruct (if b then x else y) as [[[anomaly emergency] risk] |]; [| done] end.
  unfold now, mret, M_ret. intros [= <- <-]. eauto 10.
Qed.

Lemma combine_emergency_flag hd alerts anomaly emergency risk :
  let a := _combine_analysis_results hd alerts anomaly emergency risk in
  an_requires_emergency_response a = true
  ↔ st_severity (an_overall_status a) = "critical"
    ∨ st_severity (an_overall_status a) = "high".
Proof.
  cbn [_combine_analysis_results an_requires_emergency_response an_overall_status].
  rewrite bool_decide_eq_true, !elem_of_cons, elem_of_nil. tauto.
Qed.

(** C10. Every call of [analyze_health_data] returns an analysis whose
    [requires_emergency_response] is true exactly when the severity of
    its verdict is critical or high; and the error response, for any
    device and message, has the flag false and no immediate alerts. *)
Theorem emergency_response_flag :
  (∀ (device_id : string) (health_data : reading) (w : world),
     ∃ a w', analyze_health_data device_id health_data w = (Ok a, w')
             ∧ (an_requires_emergency_response a = true
                ↔ st_severity (an_overall_status a) = "critical"
                  ∨ st_severity (an_overall_status a) = "high"))
  ∧ (∀ (device_id error_message : string) (w : world),
       ∃ a w', _create_error_response device_id error_message w = (Ok a, w')
               ∧ an_requires_emergency_response a = false
               ∧ an_immediate_alerts a = []).
Proof.
  split.
  - intros d hd w. rewrite analyze_health_data_unfold.
    destruct (analyze_body _ d hd _) as [[a | e] w'] eqn:E.
    + exists a, w'. split; [done |].
      apply analyze_body_ok in E as (alerts & an & em & ri & fin & en & ->).
      apply combine_emergency_flag.
    + rewrite create_error_response_run. eexists _, _. split; [done |].
      cbn. split; [done |]. intros [H | H]; discriminate H.
  - intros d msg w. rewrite create_error_response_run. eexists _, _. by split.
Qed.

(** C2. [analyze_health_data] returns an analysis for every device,
    reading and state, and when its [try] block raises [e] the analysis
    is the error verdict: level error, confidence 0.0, primary concern
    "Analysis failed", a summary that carries [str(e)], the error text
    itself, and the time of the failure as timestamp. *)
Theorem analysis_failure_contained (device_id : string) (health_data : reading)
    (w : world) :
  ∃ a w',
    analyze_health_data device_id health_data w = (Ok a, w')
    ∧ ∀ e w1,
        analyze_body (wall (w_clock_reads w)) device_id health_data
          (mk_world (w_monitor w) (S (w_clock_reads w))) = (Raise e, w1) →
        st_level (an_overall_status a) = "error"
        ∧ st_confidence (an_overall_status a) = 0.0%Q
        ∧ st_primary_concern (an_overall_status a) = Some "Analysis failed"
        ∧ st_summary (an_overall_status a) = "Health analysis error: " +:+ exn_str e
        ∧ an_error a = Some (exn_str e)
        ∧ an_analysis_timestamp a = Some (isoformat (wall (w_clock_reads w1))).
Proof.
  rewrite analyze_health_data_unfold.
  destruct (analyze_body _ device_id health_data _) as [[a | e] w'] eqn:E.
  - exists a, w'. split; [done |]. intros e w1 [=].
  - rewrite create_error_response_run. eexists _, _. split; [done |].
    intros e' w1 [= <- <-]. by cbn.
Qed.

(** ** Risk windows *)

Lemma Qgeb_lt a b : Qgeb a b = false ↔ (a < b)%Q.
Proof.
  unfold Qgeb. rewrite <- not_true_iff_false, Qle_bool_iff.
  split; [apply Qnot_le_lt | apply Qlt_not_le].
Qed.

Lemma determine_risk_level_in_band (score : Q) :
  in_band score (RiskPredictor._determine_risk_level score).
Proof.
  unfold in_band, RiskPredictor._determine_risk_level.
  destruct (Qgeb score 0.8) eqn:E8;
    [apply Qgeb_ge in E8 | apply Qgeb_lt in E8];
  (destruct (Qgeb score 0.6) eqn:E6;
    [apply Qgeb_ge in E6 | apply Qgeb_lt in E6]);
  (destruct (Qgeb score 0.4) eqn:E4;
    [apply Qgeb_ge in E4 | apply Qgeb_lt in E4]);
  (destruct (Qgeb score 0.2) eqn:E2;
    [apply Qgeb_ge in E2 | apply Qgeb_lt in E2]);
  repeat split; intros; try reflexivity; exfalso;
  unfold Qle, Qlt in *; cbn [Qnum Qden] in *; lia.
Qed.




(** ** Threshold evaluation *)

Lemma check_alerts_loop_vitals table hd :
  ∀ acc alerts,
    check_alerts_loop table hd acc = Ok alerts →
    al_vital_sign <$> alerts
    = (al_vital_sign <$> acc) ++ (filter (λ e, breaches hd e = true) table).*1.
Proof.
  induction table as [| [vital [lo hi]] rest IH]; intros acc alerts Hrun.
  - simpl in Hrun. injection Hrun as <-. by rewrite app_nil_r.
  - cbn [check_alerts_loop] in Hrun.
    assert (Hb : ∀ b, breaches hd (vital, (lo, hi)) = b →
                 (filter (λ e, breaches hd e = true) ((vital, (lo, hi)) :: rest)).*1
                 = (if b then [vital] else [])
                   ++ (filter (λ e, breaches hd e = true) rest).*1).
    { intros [] Hb; [by rewrite filter_cons_True | rewrite filter_cons_False; [done |]].
      by rewrite Hb. }
    assert (Hbr : breaches hd (vital, (lo, hi))
                  = match hd !! vital with
                    | Some (PNum q) => Qltb q lo || Qgtb q hi
                    | _ => false
                    end) by reflexivity.
    destruct (hd !! vital) as [[q | s |] |].
    + cbn [py_lt py_gt mbind result_bind] in Hrun.
      destruct (Qltb q lo) eqn:Elo.
      * rewrite (IH _ _ Hrun), (Hb true) by done.
        by rewrite fmap_app, <- app_assoc.
      * destruct (Qgtb q hi) eqn:Ehi.
        -- rewrite (IH _ _ Hrun), (Hb true) by done.
           by rewrite fmap_app, <- app_assoc.
        -- by rewrite (IH _ _ Hrun), (Hb false).
    + discriminate Hrun.
    + discriminate Hrun.
    + by rewrite (IH _ _ Hrun), (Hb false).
Qed.

Lemma scenario_alerts :
  _check_immediate_alerts scenario_reading
  = Ok [ mk_alert "critical_high" "heart_rate" (PNum 155) 150 "critical"
           ("heart_rate critically high: " +:+ fmt_num 155);
         mk_alert "critical_high" "temperature" (PNum 39.2) 39.0 "critical"
           ("temperature critically high: " +:+ fmt_num 39.2);
         mk_alert "critical_low" "spo2" (PNum 89) 90 "critical"
           ("spo2 critically low: " +:+ fmt_num 89) ].
Proof. reflexivity. Qed.

Lemma scenario_alerts_three_bounds :
  check_alerts_loop scenario_thresholds scenario_reading []
  = _check_immediate_alerts scenario_reading.
Proof. reflexivity. Qed.

(** A heart rate below the minimum makes the verdict an emergency
    whatever the scorers say, once the threshold check has returned. *)
Lemma low_heart_rate_is_emergency (health_data : reading) (q : Q)
    (alerts : list alert) (anomaly : option anomaly_result)
    (emergency : option emergency_result) (risk : option risk_result) :
  health_data !! "heart_rate" = Some (PNum q) →
  (q < 40)%Q →
  _check_immediate_alerts health_data = Ok alerts →
  st_level (_determine_overall_status alerts anomaly emergency risk) = "emergency".
Proof.
  intros Hhr Hq Hrun.
  pose proof (check_immediate_alerts_critical _ _ Hrun) as Hcrit.
  pose proof (check_alerts_loop_vitals _ _ _ _ Hrun) as Hv.
  unfold critical_thresholds in Hv. rewrite filter_cons_True in Hv.
  - destruct alerts as [| a rest]; [discriminate Hv |].
    unfold _determine_overall_status. by rewrite (rule_alerts_critical _ a rest).
  - unfold breaches. cbn [fst snd]. rewrite Hhr. apply Qltb_lt in Hq. by rewrite Hq.
Qed.

(** C9, amended. When the threshold check returns, its alerts are, in
    the order of the bounds table, one alert per vital that the reading
    holds and whose value is below the minimum or above the maximum, and
    no other; all of them have severity critical. The reading with heart
    rate 155, temperature 39.2 and oxygen saturation 89 yields exactly
    three alerts (heart rate high, temperature high, oxygen saturation
    low) and the verdict of the fusion is level emergency. *)
Theorem threshold_alerts_exact :
  (∀ (health_data : reading) (alerts : list alert),
     _check_immediate_alerts health_data = Ok alerts →
     al_vital_sign <$> alerts
       = (filter (λ e, breaches health_data e = true) critical_thresholds).*1
     ∧ Forall (λ a, al_severity a = "critical") alerts)
  ∧ (∃ alerts,
       _check_immediate_alerts scenario_reading = Ok alerts
       ∧ check_alerts_loop scenario_thresholds scenario_reading [] = Ok alerts
       ∧ length alerts = 3%nat
       ∧ (λ a, (al_vital_sign a, al_type a)) <$> alerts
         = [("heart_rate", "critical_high"); ("temperature", "critical_high");
            ("spo2", "critical_low")]
       ∧ ∀ anomaly emergency risk,
           st_level (_determine_overall_status alerts anomaly emergency risk)
           = "emergency").
Proof.
  split.
  - intros hd alerts Hrun. split.
    + by rewrite (check_alerts_loop_vitals _ _ _ _ Hrun).
    + eapply check_alerts_loop_critical; [| exact Hrun]. constructor.
  - eexists. split; [apply scenario_alerts |].
    split; [reflexivity |]. split; [done |]. split; [done |].
    intros anomaly emergency risk. reflexivity.
Qed.

(** ** Risk summary and trend report on short histories *)

Lemma any_gt_numeric (values : list pyval) (bound : Q) :
  Forall (λ v, ∃ q, v = PNum q) values → ∃ b, any_gt values bound = Ok b.
Proof.
  induction 1 as [| v l [q ->] _ [b IH]]; [by eexists |].
  cbn [any_gt py_gt mbind result_bind]. destruct (Qgtb q bound); eauto.
Qed.

Lemma any_lt_numeric (values : list pyval) (bound : Q) :
  Forall (λ v, ∃ q, v = PNum q) values → ∃ b, any_lt values bound = Ok b.
Proof.
  induction 1 as [| v l [q ->] _ [b IH]]; [by eexists |].
  cbn [any_lt py_lt mbind result_bind]. destruct (Qltb q bound); eauto.
Qed.

Lemma recent_values_numeric (key : string) (dflt : Q) (patient_data : list reading) :
  Forall (numeric_at key) patient_data →
  Forall (λ v, ∃ q, v = PNum q) (recent_values key dflt patient_data).
Proof.
  intros H. unfold recent_values. apply Forall_fmap.
  assert (Hs : Forall (numeric_at key) (slice_from (-10) patient_data)).
  { unfold slice_from. cbn [Z.ltb Z.compare]. by apply Forall_drop. }
  eapply Forall_impl; [exact Hs |]. intros d Hd. unfold numeric_at in Hd. simpl.
  destruct (d !! key) as [[q | s |] |]; simpl; by eauto.
Qed.

(** The four levels a completed risk prediction can name. *)
Lemma predict_risks_body_levels (patient_data : list reading) (r : risk_summary) :
  (5 ≤ length patient_data)%nat →
  predict_risks_body patient_data = Ok r →
  rs_overall_risk r ∈ ["high"; "medium"; "low"; "minimal"]
  ∧ rs_data_points_analyzed r = Some (length patient_data)
  ∧ rs_message r = None.
Proof.
  intros Hlen. unfold predict_risks_body.
  replace (length patient_data <? 5)%nat with false by (symmetry; apply Nat.ltb_ge; lia).
  destruct (any_gt (recent_values "heartRate" 0 patient_data) 120) as [hr |]; [| done].
  destruct (any_gt (recent_values "temperature" 36.5 patient_data) 38.0) as [temp |];
    [| done].
  destruct (any_gt (recent_values "bloodPressureSystolic" 120 patient_data) 160)
    as [sys |]; [| done].
  destruct (any_lt (recent_values "oxygenSaturation" 98 patient_data) 94) as [spo2 |];
    [| done].
  cbn [mbind result_bind]. intros [= <-]. cbn [rs_overall_risk rs_data_points_analyzed
    rs_message].
  split; [| done].
  repeat match goal with |- context [if Qgeb ?a ?b then _ else _] =>
    destruct (Qgeb a b) end; elem_of_literal.
Qed.

Lemma predict_risks_body_numeric (patient_data : list reading) :
  Forall numeric_vitals patient_data → ∃ r, predict_risks_body patient_data = Ok r.
Proof.
  intros H. unfold predict_risks_body.
  destruct (length patient_data <? 5)%nat; [by eexists |].
  destruct (any_gt_numeric (recent_values "heartRate" 0 patient_data) 120) as [hr ->].
  { apply recent_values_numeric. eapply Forall_impl; [exact H |]. by intros d (? & ? & ? & ?). }
  destruct (any_gt_numeric (recent_values "temperature" 36.5 patient_data) 38.0)
    as [temp ->].
  { apply recent_values_numeric. eapply Forall_impl; [exact H |]. by intros d (? & ? & ? & ?). }
  destruct (any_gt_numeric (recent_values "bloodPressureSystolic" 120 patient_data) 160)
    as [sys ->].
  { apply recent_values_numeric. eapply Forall_impl; [exact H |]. by intros d (? & ? & ? & ?). }
  destruct (any_lt_numeric (recent_values "oxygenSaturation" 98 patient_data) 94)
    as [spo2 ->].
  { apply recent_values_numeric. eapply Forall_impl; [exact H |]. by intros d (? & ? & ? & ?). }
  by eexists.
Qed.

(** C7. A risk prediction over fewer than 5 readings is the
    insufficient-data result (overall risk insufficient_data, score
    0.0); over 5 or more readings it is never that result, and when the
    vitals of the readings are numbers it names one of the levels high,
    medium, low or minimal and counts the readings. A trend analysis
    over fewer than 10 readings is its insufficient-data result, and it
    returns a report for every history: neither operation raises. *)
Theorem insufficient_data_is_a_result :
  (∀ patient_data : list reading,
     (length patient_data < 5)%nat →
     predict_health_risks patient_data = insufficient_risk
     ∧ rs_overall_risk (predict_health_risks patient_data) = "insufficient_data"
     ∧ rs_risk_score (predict_health_risks patient_data) = 0.0%Q)
  ∧ (∀ patient_data : list reading,
       (5 ≤ length patient_data)%nat →
       rs_overall_risk (predict_health_risks patient_data) ≠ "insufficient_data"
       ∧ (Forall numeric_vitals patient_data →
          rs_overall_risk (predict_health_risks patient_data)
            ∈ ["high"; "medium"; "low"; "minimal"]
          ∧ rs_data_points_analyzed (predict_health_risks patient_data)
            = Some (length patient_data)))
  ∧ (∀ (patient_data : list reading) (w : world),
       (length patient_data < 10)%nat →
       analyze_health_trends patient_data w = (Ok insufficient_trend, w))
  ∧ (∀ (patient_data : list reading) (w : world),
       ∃ report w', analyze_health_trends patient_data w = (Ok report, w')).
Proof.
  split; [| split; [| split]].
  - intros pd Hlen. unfold predict_health_risks, predict_risks_body.
    by replace (length pd <? 5)%nat with true by (symmetry; apply Nat.ltb_lt; lia).
  - intros pd Hlen. split.
    + unfold predict_health_risks.
      destruct (predict_risks_body pd) as [r | e] eqn:E; [| done].
      destruct (predict_risks_body_levels pd r Hlen E) as (Hl & _ & _).
      intros Heq. rewrite Heq in Hl.
      repeat (apply elem_of_cons in Hl as [Hl | Hl]; [discriminate Hl |]).
      by apply elem_of_nil in Hl.
    + intros Hnum. unfold predict_health_risks.
      destruct (predict_risks_body_numeric pd Hnum) as [r E]. rewrite E.
      destruct (predict_risks_body_levels pd r Hlen E) as (Hl & Hn & _). by split.
  - intros pd w Hlen. unfold analyze_health_trends, try_except, analyze_trends_body.
    by replace (length pd <? 10)%nat with true by (symmetry; apply Nat.ltb_lt; lia).
  - intros pd w. unfold analyze_health_trends, try_except.
    destruct (analyze_trends_body pd w) as [[r | e] w']; by eexists _, _.
Qed.

(** ** Direction of a vital *)

Lemma first_quarter_take (values : list Q) :
  (4 ≤ length values)%nat →
  first_quarter values = take (length values / 4) values.
Proof.
  intros H. unfold first_quarter, slice_to.
  replace (4 <=? length values)%nat with true by (symmetry; apply Nat.leb_le; lia).
  replace (Z.of_nat (length values) / 4 <? 0)%Z with false
    by (symmetry; apply Z.ltb_ge; apply Z.div_pos; lia).
  f_equal. rewrite <- (Nat2Z.id (length values / 4)). f_equal.
  by rewrite Nat2Z.inj_div.
Qed.

(** The last "quarter" of the code holds [len/4] rounded up, not down:
    [-len(values)//4] floors the negated length. *)
Lemma last_quarter_drop (values : list Q) :
  (4 ≤ length values)%nat →
  last_quarter values = drop (length values - (length values + 3) / 4) values.
Proof.
  intros H. unfold last_quarter, slice_from.
  replace (4 <=? length values)%nat with true by (symmetry; apply Nat.leb_le; lia).
  assert (Hdiv : (- Z.of_nat (length values) / 4
                  = - Z.of_nat ((length values + 3) / 4))%Z).
  { rewrite Nat2Z.inj_div, Nat2Z.inj_add. cbn [Z.of_nat Pos.of_succ_nat Pos.succ].
    generalize (Z.of_nat (length values)). intros n.
    pose proof (Z.div_mod (- n) 4). pose proof (Z.mod_pos_bound (- n) 4).
    pose proof (Z.div_mod (n + 3) 4). pose proof (Z.mod_pos_bound (n + 3) 4).
    lia. }
  rewrite Hdiv.
  replace (- Z.of_nat ((length values + 3) / 4) <? 0)%Z with true.
  - f_equal.
    assert ((length values + 3) / 4 ≤ length values)%nat
      by (apply Nat.Div0.div_le_upper_bound; lia).
    lia.
  - symmetry. apply Z.ltb_lt.
    assert (1 ≤ (length values + 3) / 4)%nat by (apply Nat.div_le_lower_bound; lia).
    lia.
Qed.

Lemma mean_nonempty (xs : list Q) : xs ≠ [] → mean xs = Ok (mean_of xs).
Proof. by destruct xs. Qed.

(** The direction is always computed: both quarters hold a sample. *)
Lemma trend_of_directions (values : list Q) :
  (5 ≤ length values)%nat →
  trend_of values
  = Ok (let avg_first := mean_of (take (length values / 4) values) in
        let avg_last :=
          mean_of (drop (length values - (length values + 3) / 4) values) in
        if Qgtb avg_last (avg_first * 1.05) then "increasing"
        else if Qltb avg_last (avg_first * 0.95) then "decreasing"
        else "stable").
Proof.
  intros H. unfold trend_of.
  replace (5 <=? length values)%nat with true by (symmetry; apply Nat.leb_le; lia).
  rewrite first_quarter_take, last_quarter_drop by lia.
  assert (1 ≤ length values / 4)%nat by (apply Nat.div_le_lower_bound; lia).
  assert (1 ≤ (length values + 3) / 4)%nat by (apply Nat.div_le_lower_bound; lia).
  assert ((length values + 3) / 4 ≤ length values)%nat
    by (apply Nat.Div0.div_le_upper_bound; lia).
  rewrite !mean_nonempty.
  - cbn [mbind result_bind]. cbv zeta.
    repeat match goal with |- context [if ?b then _ else _] => destruct b end; done.
  - intros E. apply (f_equal length) in E.
    rewrite ?length_drop, ?length_take in E. cbn [length] in E. lia.
  - intros E. apply (f_equal length) in E.
    rewrite ?length_drop, ?length_take in E. cbn [length] in E. lia.
Qed.

Lemma trend_of_short (values : list Q) :
  (length values < 5)%nat → trend_of values = Ok "insufficient_data".
Proof.
  intros H. unfold trend_of.
  by replace (5 <=? length values)%nat with false by (symmetry; apply Nat.leb_gt; lia).
Qed.

(** When the length is a multiple of four the two quarters have the
    same size and the code gives the direction of the specification. *)
Lemma trend_of_multiple_of_four (values : list Q) :
  (length values mod 4 = 0)%nat →
  trend_of values = Ok (trend_direction_spec values).
Proof.
  intros Hmod. unfold trend_direction_spec.
  destruct (length values <? 5)%nat eqn:E.
  - apply Nat.ltb_lt in E. by apply trend_of_short.
  - apply Nat.ltb_ge in E. rewrite trend_of_directions by done.
    assert (Hq : (length values / 4 = (length values + 3) / 4)%nat).
    { pose proof (Nat.div_mod_eq (length values) 4) as Hd.
      pose proof (Nat.div_mod_eq (length values + 3) 4) as Hd3.
      pose proof (Nat.mod_upper_bound (length values + 3) 4). lia. }
    assert (1 ≤ length values / 4)%nat by (apply Nat.div_le_lower_bound; lia).
    unfold quarter_size. rewrite Nat.max_r by done. by rewrite <- Hq.
Qed.

(** C8, the failing input. On the five values 70, 72, 71, 60, 80 the
    first quarter is the one sample 70 and the last sample is 80, more
    than 5% above it, so the direction of the specification is
    increasing; the code averages the last two samples (60 and 80) and
    answers stable. *)
Theorem trend_last_quarter_divergence :
  _analyze_trends [("heart_rate", rising_series)] = Ok [("heart_rate", "stable")]
  ∧ trend_direction_spec rising_series = "increasing"
  ∧ first_quarter rising_series = [70%Q]
  ∧ last_quarter rising_series = [60%Q; 80%Q].
Proof. repeat split. Qed.

(** ** Fusion: the rules after the first two *)

Lemma rule_alerts_Some alerts s :
  rule_alerts alerts = Some s →
  ∃ a, s = mk_status "emergency" "critical" 0.95 (Some (al_message a))
             "Critical vital signs detected - immediate medical attention required".
Proof.
  unfold rule_alerts. destruct alerts as [| a0 l0]; [done |].
  destruct (critical_alerts _) as [| a rest]; [done |]. intros [= <-]. by exists a.
Qed.

Lemma rule_emergency_Some emergency s :
  rule_emergency emergency = Some s →
  st_level s = "emergency" → st_severity s = "critical".
Proof.
  unfold rule_emergency. destruct (truthy emergency_truthy emergency) as [r |]; [| done].
  cbv zeta. destruct (_ && _); [| done]. intros [= <-]. cbn [st_level st_severity].
  case_bool_decide as Hsev; [| done]. by rewrite Hsev.
Qed.

Lemma rule_anomaly_Some anomaly s :
  rule_anomaly anomaly = Some s →
  st_level s = "warning" ∧ st_severity s ∈ ["high"; "critical"].
Proof.
  unfold rule_anomaly. destruct (truthy anomaly_truthy anomaly) as [r |]; [| done].
  cbv zeta. destruct (default false (ar_is_anomaly r)); [| done]. cbn [andb].
  case_bool_decide as Hl; [| done]. intros [= <-]. by split.
Qed.

Lemma rule_risk_Some risk s : rule_risk risk = Some s → st_level s = "caution".
Proof.
  unfold rule_risk. destruct (truthy risk_truthy risk) as [r |]; [| done].
  cbv zeta. destruct (Qgtb _ _); [| done]. by intros [= <-].
Qed.

Lemma classification_silent_rule emergency :
  classification_silent emergency → rule_emergency emergency = None.
Proof.
  destruct emergency as [r |]; [| done]. cbn [classification_silent]. intros H.
  unfold rule_emergency, truthy. destruct (emergency_truthy r); [| done]. cbv zeta.
  destruct H as [H | H].
  - by rewrite bool_decide_eq_false_2 by (by intros Hne).
  - apply Qltb_ge in H. unfold Qgtb. rewrite H. by rewrite andb_false_r.
Qed.

Lemma anomaly_silent_rule anomaly :
  anomaly_silent anomaly → rule_anomaly anomaly = None.
Proof.
  destruct anomaly as [r |]; [| done]. cbn [anomaly_silent]. intros H.
  unfold rule_anomaly, truthy. destruct (anomaly_truthy r); [| done]. cbv zeta.
  destruct H as [-> | H]; [done |].
  rewrite bool_decide_eq_false_2 by done. by rewrite andb_false_r.
Qed.

(** X1. A verdict of level emergency always has severity critical, so
    the analysis built on it asks for an emergency response. *)
Theorem emergency_level_is_critical (health_data : reading) (alerts : list alert)
    (anomaly : option anomaly_result) (emergency : option emergency_result)
    (risk : option risk_result) :
  st_level (_determine_overall_status alerts anomaly emergency risk) = "emergency" →
  st_severity (_determine_overall_status alerts anomaly emergency risk) = "critical"
  ∧ an_requires_emergency_response
      (_combine_analysis_results health_data alerts anomaly emergency risk) = true.
Proof.
  intros Hlevel.
  assert (Hsev : st_severity (_determine_overall_status alerts anomaly emergency risk)
                 = "critical").
  { revert Hlevel. unfold _determine_overall_status.
    destruct (rule_alerts alerts) as [s |] eqn:E1.
    { apply rule_alerts_Some in E1 as [a ->]. done. }
    destruct (rule_emergency emergency) as [s |] eqn:E2.
    { exact (rule_emergency_Some _ _ E2). }
    destruct (rule_anomaly anomaly) as [s |] eqn:E3.
    { apply rule_anomaly_Some in E3 as [-> _]. done. }
    destruct (rule_risk risk) as [s |] eqn:E4.
    { apply rule_risk_Some in E4 as ->. done. }
    done. }
  split; [exact Hsev |].
  cbn [_combine_analysis_results an_requires_emergency_response]. rewrite Hsev.
  apply bool_decide_eq_true_2. apply list_elem_of_here.
Qed.

(** X2. With no critical alert and a classification that stays silent,
    an anomaly signal that is flagged with risk level high or critical
    decides the verdict, whatever the risk signal says: level warning,
    severity that risk level, confidence that of the signal (0.7 when
    it has none). *)
Theorem anomaly_rule (alerts : list alert) (emergency : option emergency_result)
    (risk : option risk_result) (r : anomaly_result) (risk_level : string) :
  critical_alerts alerts = [] →
  classification_silent emergency →
  ar_is_anomaly r = Some true →
  ar_risk_level r = Some risk_level →
  risk_level = "high" ∨ risk_level = "critical" →
  let s := _determine_overall_status alerts (Some r) emergency risk in
  st_level s = "warning"
  ∧ st_severity s = risk_level
  ∧ st_confidence s = default 0.7%Q (ar_confidence r)
  ∧ st_primary_concern s = Some "Abnormal vital sign patterns detected".
Proof.
  intros Hal Hem Han Hrl Hlvl s. subst s. unfold _determine_overall_status.
  rewrite (rule_alerts_none _ Hal), (classification_silent_rule _ Hem).
  unfold rule_anomaly, truthy, anomaly_truthy. rewrite Han.
  rewrite (bool_decide_eq_true_2 (is_Some (Some true))) by eauto.
  cbn [orb]. cbv zeta. rewrite Han, Hrl. cbn [default id andb].
  rewrite bool_decide_eq_true_2; [done |].
  destruct Hlvl as [-> | ->]; elem_of_literal.
Qed.

(** X3. With no critical alert and silent classification and anomaly
    signals, a risk signal with a score above 0.6 gives level caution
    with the signal's risk level as severity; with a score of at most
    0.6, or no risk signal, the verdict is the normal one (confidence
    0.8, no primary concern). *)
Theorem risk_rule_or_normal (alerts : list alert) (anomaly : option anomaly_result)
    (emergency : option emergency_result) :
  critical_alerts alerts = [] →
  classification_silent emergency →
  anomaly_silent anomaly →
  (∀ (r : risk_result) (score : Q),
     rr_overall_risk_score r = Some score →
     let s := _determine_overall_status alerts anomaly emergency (Some r) in
     ((0.6 < score)%Q →
      st_level s = "caution"
      ∧ st_severity s = default "minimal" (rr_risk_level r)
      ∧ st_confidence s = default 0.7%Q (rr_confidence r))
     ∧ ((score <= 0.6)%Q → s = normal_status))
  ∧ _determine_overall_status alerts anomaly emergency None = normal_status
  ∧ st_level normal_status = "normal"
  ∧ st_confidence normal_status = 0.8%Q
  ∧ st_primary_concern normal_status = None.
Proof.
  intros Hal Hem Han. split; [| split; [| done]].
  - intros r score Hsc s. subst s. unfold _determine_overall_status.
    rewrite (rule_alerts_none _ Hal), (classification_silent_rule _ Hem),
      (anomaly_silent_rule _ Han).
    unfold rule_risk, truthy, risk_truthy. rewrite Hsc.
    rewrite (bool_decide_eq_true_2 (is_Some (Some score))) by eauto.
    cbn [orb]. cbv zeta. rewrite Hsc. cbn [default id]. split.
    + intros Hgt. apply Qgtb_gt in Hgt. by rewrite Hgt.
    + intros Hle. apply Qltb_ge in Hle. unfold Qgtb. by rewrite Hle.
  - unfold _determine_overall_status.
    by rewrite (rule_alerts_none _ Hal), (classification_silent_rule _ Hem),
      (anomaly_silent_rule _ Han).
Qed.

(** ** The analysis and the state of the monitor *)

(** Whatever the [try] block does after storing the reading, it leaves
    the attributes of the monitor as the store left them. *)
Lemma analyze_body_monitor start d hd (w w' : world) (res : result analysis) :
  analyze_body start d hd w = (res, w') →
  w_monitor w' = w_monitor (_store_health_data d hd w).2.
Proof.
  unfold analyze_body, mbind, M_bind, lift_result.
  rewrite store_health_data_run. cbn [snd w_monitor].
  destruct (_check_immediate_alerts hd) as [alerts |]; [| by intros [= _ <-]].
  cbn [get_monitor w_monitor].
  match goal with |- context [if ?b then ?x else ?y] =>
    destruct (if b then x else y) as [[[anomaly emergency] risk] |];
      [| by intros [= _ <-]] end.
  unfold now, mret, M_ret. by intros [= _ <-].
Qed.

(** X4. Every call of [analyze_health_data], failed or not, appends the
    reading (with the time of the store as its timestamp) to the
    history of its device, cut to the last 100 entries, and leaves the
    histories of the other devices alone. *)
Theorem analysis_always_stores_reading (device_id : string) (health_data : reading)
    (w : world) :
  ∃ a w',
    analyze_health_data device_id health_data w = (Ok a, w')
    ∧ history_of w' device_id
      = append_capped (history_of w device_id)
          (timestamped health_data (isoformat (wall (S (w_clock_reads w)))))
    ∧ ∀ d, d ≠ device_id → history_of w' d = history_of w d.
Proof.
  rewrite analyze_health_data_unfold.
  destruct (analyze_body _ device_id health_data _) as [res w1] eqn:E.
  pose proof (analyze_body_monitor _ _ _ _ _ _ E) as Hm.
  rewrite store_health_data_run in Hm. cbn [snd w_monitor w_clock_reads] in Hm.
  assert (Hh : ∀ d (w2 : world), w_monitor w2 = w_monitor w1 →
               history_of w2 d
               = if bool_decide (device_id = d)
                 then append_capped (history_of w device_id)
                        (timestamped health_data (isoformat (wall (S (w_clock_reads w)))))
                 else history_of w d).
  { intros d w2 Hw2. unfold history_of. rewrite Hw2, Hm. cbn [health_history].
    apply store_in_history_lookup. }
  destruct res as [a | e].
  - exists a, w1. split; [done |]. split.
    + rewrite Hh by done. by rewrite bool_decide_eq_true_2.
    + intros d Hd. rewrite Hh by done. by rewrite bool_decide_eq_false_2.
  - rewrite create_error_response_run. eexists _, _. split; [done |]. split.
    + rewrite Hh by done. by rewrite bool_decide_eq_true_2.
    + intros d Hd. rewrite Hh by done. by rewrite bool_decide_eq_false_2.
Qed.

Lemma filter_true_nil {A} (f : A → bool) (l : list A) :
  filter (λ x, f x = true) l = [] ↔ Forall (λ x, f x = false) l.
Proof.
  induction l as [| e l IH]; [done |].
  rewrite Forall_cons. destruct (f e) eqn:Eb.
  - rewrite filter_cons_True by done. split; [done |]. by intros [? _].
  - rewrite filter_cons_False by (by rewrite Eb). rewrite IH. tauto.
Qed.

Lemma check_alerts_empty_iff hd alerts :
  _check_immediate_alerts hd = Ok alerts →
  alerts = [] ↔ Forall (λ e, breaches hd e = false) critical_thresholds.
Proof.
  intros Hrun. pose proof (check_alerts_loop_vitals _ _ _ _ Hrun) as Hv.
  cbn [fmap list_fmap app] in Hv.
  rewrite <- filter_true_nil. split.
  - intros ->. symmetry in Hv. by apply fmap_nil_inv in Hv.
  - intros Hnil. rewrite Hnil in Hv. by apply fmap_nil_inv in Hv.
Qed.

(** X5. With the AI models disabled, a reading that the threshold check
    can compare is analysed without error: the verdict is normal, with
    no recommendation, exactly when no vital of the bounds table
    breaches, and otherwise it is an emergency with the
    immediate-attention line as only recommendation. *)
Theorem analyze_without_models (device_id : string) (health_data : reading)
    (w : world) (alerts : list alert) :
  enable_ai_models (w_monitor w) = false →
  _check_immediate_alerts health_data = Ok alerts →
  ∃ a w',
    analyze_health_data device_id health_data w = (Ok a, w')
    ∧ an_error a = None
    ∧ an_immediate_alerts a = alerts
    ∧ (alerts = [] ↔ Forall (λ e, breaches health_data e = false) critical_thresholds)
    ∧ st_level (an_overall_status a)
      = (if bool_decide (alerts = []) then "normal" else "emergency")
    ∧ an_recommendations a
      = (if bool_decide (alerts = []) then [] else [immediate_attention_line])
    ∧ an_requires_emergency_response a = negb (bool_decide (alerts = [])).
Proof.
  intros Hen Hrun. rewrite analyze_health_data_unfold.
  unfold analyze_body, mbind, M_bind, lift_result.
  rewrite store_health_data_run, Hrun. cbn [get_monitor w_monitor enable_ai_models].
  rewrite Hen. unfold now, mret, M_ret. eexists _, _. split; [done |].
  cbn [with_metadata _combine_analysis_results an_error an_immediate_alerts
         an_overall_status an_recommendations an_requires_emergency_response].
  split; [done |]. split; [done |].
  split; [by apply check_alerts_empty_iff |].
  destruct alerts as [| a0 rest].
  - rewrite bool_decide_eq_true_2 by done. done.
  - rewrite bool_decide_eq_false_2 by done.
    pose proof (check_immediate_alerts_critical _ _ Hrun) as Hcrit.
    unfold _determine_overall_status.
    rewrite (rule_alerts_critical _ a0 rest Hcrit). done.
Qed.

(** ** Timestamps of stored readings *)

Lemma append_capped_last {A} (l : list A) (x : A) :
  last (append_capped l x) = Some x.
Proof.
  unfold append_capped. destruct (100 <? length (l ++ [x]))%nat eqn:E.
  - rewrite (slice_from_neg_most_recent 100) by lia. unfold most_recent.
    rewrite length_app. cbn [length].
    rewrite drop_app_le by lia. apply last_snoc.
  - apply last_snoc.
Qed.

(** X6. The entry that [_store_health_data] appends is the last of the
    device's history; its timestamp is the time of the store even when
    the reading brought a timestamp of its own, and its other keys are
    those of the reading. The store of the service route does the
    opposite: there a timestamp of the posted reading is kept. *)
Theorem stored_entry_timestamp (device_id : string) (health_data : reading)
    (ts : string) (h : gmap string (list reading)) :
  (∃ entry,
     last (default [] (store_in_history device_id health_data ts h !! device_id))
       = Some entry
     ∧ entry !! "timestamp" = Some (PStr ts)
     ∧ ∀ k, k ≠ "timestamp" → entry !! k = health_data !! k)
  ∧ (∃ entry,
       last (default [] (store_recent device_id health_data ts h !! device_id))
         = Some entry
       ∧ entry !! "timestamp" = Some (default (PStr ts) (health_data !! "timestamp"))
       ∧ ∀ k, k ≠ "timestamp" → entry !! k = health_data !! k).
Proof.
  split.
  - exists (timestamped health_data ts). split; [| split].
    + rewrite store_in_history_lookup, bool_decide_eq_true_2 by done.
      apply append_capped_last.
    + unfold timestamped. apply lookup_insert_eq.
    + intros k Hk. unfold timestamped. by rewrite lookup_insert_ne.
  - exists (timestamped_first health_data ts). split; [| split].
    + rewrite store_recent_lookup, bool_decide_eq_true_2 by done.
      apply append_capped_last.
    + unfold timestamped_first. destruct (health_data !! "timestamp") eqn:E.
      * by rewrite E.
      * cbn [default]. apply lookup_insert_eq.
    + intros k Hk. unfold timestamped_first.
      destruct (health_data !! "timestamp"); [done |]. by rewrite lookup_insert_ne.
Qed.

(** ** Simulation mode *)

Lemma simulation_store_then_check d hd (w : world) (alerts : list alert)
    (sim : simulated) :
  _check_immediate_alerts hd = Ok alerts →
  _simulate_ai_analysis hd = Ok sim →
  simulation_analyze_health_data d hd w
  = (Ok (mk_simulation_analysis
           (with_metadata
              (_combine_analysis_results hd alerts (Some (sim_anomaly sim))
                 (Some (sim_emergency sim)) (Some (sim_risk sim)))
              d (wall (w_clock_reads w)) (wall (S (S (w_clock_reads w)))) false)
           true),
     mk_world (w_monitor (_store_health_data d hd
                            (mk_world (w_monitor w) (S (w_clock_reads w)))).2)
       (S (S (S (w_clock_reads w))))).
Proof.
  intros Hal Hsim. unfold simulation_analyze_health_data, mbind, M_bind, lift_result.
  cbn [now]. rewrite store_health_data_run, Hal, Hsim. reflexivity.
Qed.

(** X7. In simulation mode, for a reading whose heart rate, temperature
    and oxygen saturation are numbers (or missing) and that the
    threshold check can compare: the result is marked as simulated with
    the AI models off; it is an emergency when a threshold alert fired;
    without alert it is a warning of severity high and confidence 0.8
    that asks for an emergency response when the reading is concerning
    (heart rate above 100 or below 50, temperature above 38 or below 35,
    oxygen saturation below 95), and normal otherwise. *)
Theorem simulation_verdict (device_id : string) (health_data : reading) (w : world)
    (alerts : list alert) (hr temp spo2 : Q) :
  get_num "heart_rate" 70 health_data = PNum hr →
  get_num "temperature" 36.8 health_data = PNum temp →
  get_num "spo2" 98 health_data = PNum spo2 →
  _check_immediate_alerts health_data = Ok alerts →
  ∃ sa w',
    simulation_analyze_health_data device_id health_data w = (Ok sa, w')
    ∧ sa_simulation_mode sa = true
    ∧ an_ai_models_enabled (sa_analysis sa) = Some false
    ∧ an_immediate_alerts (sa_analysis sa) = alerts
    ∧ (alerts ≠ [] → st_level (an_overall_status (sa_analysis sa)) = "emergency")
    ∧ (alerts = [] →
       if concerning hr temp spo2
       then st_level (an_overall_status (sa_analysis sa)) = "warning"
            ∧ st_severity (an_overall_status (sa_analysis sa)) = "high"
            ∧ st_confidence (an_overall_status (sa_analysis sa)) = 0.8%Q
            ∧ an_requires_emergency_response (sa_analysis sa) = true
            ∧ an_recommendations (sa_analysis sa)
              = ["Monitor closely"; "Seek medical attention";
                 "Contact healthcare provider"]
       else an_overall_status (sa_analysis sa) = normal_status
            ∧ an_requires_emergency_response (sa_analysis sa) = false
            ∧ an_recommendations (sa_analysis sa)
              = ["Continue normal monitoring"; "Continue monitoring";
                 "Maintain healthy habits"]).
Proof.
  intros Hhr Htemp Hspo2 Hal.
  assert (Hsim : ∃ sim, _simulate_ai_analysis health_data = Ok sim
                        ∧ (alerts = [] →
                           let a := _combine_analysis_results health_data []
                                      (Some (sim_anomaly sim)) (Some (sim_emergency sim))
                                      (Some (sim_risk sim)) in
                           if concerning hr temp spo2
                           then st_level (an_overall_status a) = "warning"
                                ∧ st_severity (an_overall_status a) = "high"
                                ∧ st_confidence (an_overall_status a) = 0.8%Q
                                ∧ an_requires_emergency_response a = true
                                ∧ an_recommendations a
                                  = ["Monitor closely"; "Seek medical attention";
                                     "Contact healthcare provider"]
                           else an_overall_status a = normal_status
                                ∧ an_requires_emergency_response a = false
                                ∧ an_recommendations a
                                  = ["Continue normal monitoring"; "Continue monitoring";
                                     "Maintain healthy habits"])).
  { unfold _simulate_ai_analysis, concerning. rewrite Hhr, Htemp, Hspo2.
    cbn [py_or py_gt py_lt mbind result_bind].
    destruct (Qgtb hr 100), (Qltb hr 50), (Qgtb temp 38), (Qltb temp 35),
      (Qltb spo2 95); cbn [orb mbind result_bind];
      (eexists; split; [reflexivity |]); intros _; repeat split. }
  destruct Hsim as (sim & Hsim & Hverdict).
  rewrite (simulation_store_then_check _ _ _ _ _ Hal Hsim).
  eexists _, _. split; [reflexivity |].
  cbn [sa_simulation_mode sa_analysis with_metadata an_ai_models_enabled
         an_immediate_alerts an_overall_status an_requires_emergency_response
         an_recommendations].
  split; [done |]. split; [done |]. split; [done |]. split.
  - intros Hne. destruct alerts as [| a0 rest]; [done |].
    pose proof (check_immediate_alerts_critical _ _ Hal) as Hcrit.
    cbn [_combine_analysis_results an_overall_status].
    unfold _determine_overall_status. by rewrite (rule_alerts_critical _ a0 rest Hcrit).
  - intros ->. by apply Hverdict.
Qed.

(** X8. The simulation has no handler: when the threshold check raises
    on a reading, [analyze_health_data] of the simulation raises the
    same exception, and the reading has been stored by then. *)
Theorem simulation_propagates (device_id : string) (health_data : reading)
    (w : world) (e : exn) :
  _check_immediate_alerts health_data = Raise e →
  ∃ w',
    simulation_analyze_health_data device_id health_data w = (Raise e, w')
    ∧ history_of w' device_id
      = append_capped (history_of w device_id)
          (timestamped health_data (isoformat (wall (S (w_clock_reads w))))).
Proof.
  intros Hal. unfold simulation_analyze_health_data, mbind, M_bind, lift_result.
  cbn [now]. rewrite store_health_data_run, Hal. eexists. split; [reflexivity |].
  unfold history_of. cbn [w_monitor health_history w_clock_reads].
  rewrite store_in_history_lookup. by rewrite bool_decide_eq_true_2.
Qed.

(** ** Risk summary: what it looks at and what it returns *)

Lemma slice_from_neg_idemp {A} (n : nat) (l : list A) :
  (0 < n)%nat →
  slice_from (- Z.of_nat n) (slice_from (- Z.of_nat n) l) = slice_from (- Z.of_nat n) l.
Proof.
  intros Hn. rewrite !slice_from_neg_most_recent by done.
  unfold most_recent. rewrite length_drop.
  replace (length l - (length l - n) - n)%nat with 0%nat by lia. done.
Qed.

Lemma recent_values_last_ten key dflt (patient_data : list reading) :
  recent_values key dflt (slice_from (-10) patient_data)
  = recent_values key dflt patient_data.
Proof. unfold recent_values. by rewrite (slice_from_neg_idemp 10) by lia. Qed.

(** X9. A risk prediction looks at the last ten readings only: over a
    history of ten or more readings, the risk level, score, factors,
    recommendations and message are those of the prediction over its
    last ten readings. *)
Theorem risk_prediction_last_ten (patient_data : list reading) :
  (10 ≤ length patient_data)%nat →
  let r := predict_health_risks patient_data in
  let r10 := predict_health_risks (slice_from (-10) patient_data) in
  length (slice_from (-10) patient_data) = 10%nat
  ∧ rs_overall_risk r = rs_overall_risk r10
  ∧ rs_risk_score r = rs_risk_score r10
  ∧ rs_risk_factors r = rs_risk_factors r10
  ∧ rs_recommendations r = rs_recommendations r10
  ∧ rs_message r = rs_message r10.
Proof.
  intros Hlen r r10.
  assert (Hl : length (slice_from (-10) patient_data) = 10%nat).
  { rewrite (slice_from_neg_most_recent 10) by lia. rewrite most_recent_length. lia. }
  split; [exact Hl |].
  subst r r10. unfold predict_health_risks, predict_risks_body.
  rewrite !recent_values_last_ten, Hl.
  replace (length patient_data <? 5)%nat with false by (symmetry; apply Nat.ltb_ge; lia).
  cbn [Nat.ltb Nat.leb].
  destruct (any_gt (recent_values "heartRate" 0 patient_data) 120) as [hr |];
    [| done].
  destruct (any_gt (recent_values "temperature" 36.5 patient_data) 38.0) as [temp |];
    [| done].
  destruct (any_gt (recent_values "bloodPressureSystolic" 120 patient_data) 160)
    as [sys |]; [| done].
  destruct (any_lt (recent_values "oxygenSaturation" 98 patient_data) 94) as [spo2 |];
    [| done].
  done.
Qed.

(** X10. The risk score of any prediction lies between 0 and 1. When the
    prediction lists its risk factors, no factor is listed twice; no
    factor at all is the same as overall risk minimal and the same as
    an empty recommendation list; and two or more factors give overall
    risk medium or high. *)
Theorem risk_summary_consistent (patient_data : list reading) :
  let r := predict_health_risks patient_data in
  (0 <= rs_risk_score r)%Q
  ∧ (rs_risk_score r <= 1)%Q
  ∧ ∀ factors,
      rs_risk_factors r = Some factors →
      NoDup factors
      ∧ (factors = [] ↔ rs_overall_risk r = "minimal")
      ∧ (factors = [] ↔ rs_recommendations r = Some [])
      ∧ ((2 ≤ length factors)%nat →
         rs_overall_risk r = "medium" ∨ rs_overall_risk r = "high").
Proof.
  intros r. subst r. unfold predict_health_risks, predict_risks_body.
  destruct (length patient_data <? 5)%nat.
  { split; [done |]. split; [done |]. intros factors [=]. }
  destruct (any_gt (recent_values "heartRate" 0 patient_data) 120) as [hr |];
    [| split; [done |]; split; [done |]; intros factors [=]].
  destruct (any_gt (recent_values "temperature" 36.5 patient_data) 38.0) as [temp |];
    [| split; [done |]; split; [done |]; intros factors [=]].
  destruct (any_gt (recent_values "bloodPressureSystolic" 120 patient_data) 160)
    as [sys |]; [| split; [done |]; split; [done |]; intros factors [=]].
  destruct (any_lt (recent_values "oxygenSaturation" 98 patient_data) 94) as [spo2 |];
    [| split; [done |]; split; [done |]; intros factors [=]].
  cbn [mbind result_bind].
  destruct hr, temp, sys, spo2;
    (split; [done |]); (split; [done |]);
    intros factors [= <-];
    (split; [repeat constructor; rewrite ?elem_of_cons, elem_of_nil; intuition discriminate |]);
    (split; [split; intros H; discriminate H || reflexivity |]);
    (split; [split; intros H; discriminate H || reflexivity |]);
    cbn [length]; intros Hlen; (lia || (left; reflexivity) || (right; reflexivity)).
Qed.

(** ** Trend report *)

Lemma calculate_trend_direction (values : list pyval) (t : vital_trend) :
  (2 ≤ length values)%nat →
  _calculate_trend values = Ok t →
  vt_direction t ∈ ["concerning"; "improving"; "stable"].
Proof.
  intros Hlen. unfold _calculate_trend.
  replace (length values <? 2)%nat with false by (symmetry; apply Nat.ltb_ge; lia).
  destruct (py_mean (slice_from (-3) values)) as [recent_avg |]; [| done].
  destruct (py_mean (slice_to 3 values)) as [older_avg |]; [| done].
  cbn [mbind result_bind]. cbv zeta. intros [= <-]. cbn [vt_direction].
  destruct (Qltb _ 5); [elem_of_literal |].
  destruct (Qgtb _ 0); elem_of_literal.
Qed.

Lemma trends_loop_spec (vitals : list string) (patient_data : list reading) :
  ∀ acc trends,
    Forall (λ vt : string * vital_trend,
              vt_direction vt.2 ∈ ["concerning"; "improving"; "stable"]) acc →
    trends_loop vitals patient_data acc = Ok trends →
    Forall (λ vt : string * vital_trend,
              vt_direction vt.2 ∈ ["concerning"; "improving"; "stable"]) trends
    ∧ trends.*1
      = acc.*1 ++ filter (λ v, (5 ≤ length (vital_values v patient_data))%nat) vitals.
Proof.
  induction vitals as [| vital rest IH]; intros acc trends Hacc Hrun.
  - cbn in Hrun. injection Hrun as <-. by rewrite app_nil_r.
  - cbn [trends_loop] in Hrun. cbv zeta in Hrun.
    destruct (5 <=? length (vital_values vital patient_data))%nat eqn:E.
    + apply Nat.leb_le in E. rewrite filter_cons_True by done.
      destruct (_calculate_trend (vital_values vital patient_data)) as [t |] eqn:Et;
        [| done].
      cbn [mbind result_bind] in Hrun.
      apply IH in Hrun as [Hall Hkeys].
      * split; [done |]. rewrite Hkeys, fmap_app. cbn. by rewrite <- app_assoc.
      * apply Forall_app. split; [done |]. constructor; [| done].
        cbn [snd]. eapply calculate_trend_direction; [| exact Et]. lia.
    + apply Nat.leb_gt in E. rewrite filter_cons_False by lia. by apply IH.
Qed.

Lemma count_direction_absent (d : string) (trends : list (string * vital_trend)) :
  Forall (λ vt : string * vital_trend, vt_direction vt.2 ≠ d) trends →
  count_direction d trends = 0%nat.
Proof.
  intros H. unfold count_direction. induction H as [| vt l Hvt _ IH]; [done |].
  by rewrite filter_cons_False.
Qed.

Lemma count_direction_pos (d : string) (trends : list (string * vital_trend)) :
  (0 < count_direction d trends)%nat
  ↔ Exists (λ vt : string * vital_trend, vt_direction vt.2 = d) trends.
Proof.
  unfold count_direction. induction trends as [| vt l IH].
  - cbn. rewrite Exists_nil. lia.
  - rewrite Exists_cons. destruct (decide (vt_direction vt.2 = d)) as [Hd | Hd].
    + rewrite filter_cons_True by done. cbn [length]. split; [by left | lia].
    + rewrite filter_cons_False by done. rewrite IH. tauto.
Qed.

(** What the report holds when it lists trends. *)
Lemma analyze_trends_body_report (patient_data : list reading) (w w' : world)
    (rep : trend_report) (trends : list (string * vital_trend)) :
  analyze_health_trends patient_data w = (Ok rep, w') →
  tr_vital_trends rep = Some trends →
  trends_loop trend_vitals patient_data [] = Ok trends
  ∧ tr_trend_summary rep
    = Some (count_direction "improving" trends, count_direction "stable" trends,
            count_direction "declining" trends)
  ∧ tr_overall_trajectory rep
    = Some (if (count_direction "declining" trends
                <? count_direction "improving" trends)%nat then "improving"
            else if (count_direction "improving" trends
                     <? count_direction "declining" trends)%nat then "declining"
            else "stable").
Proof.
  unfold analyze_health_trends, try_except, analyze_trends_body.
  destruct (length patient_data <? 10)%nat.
  { cbn. intros [= <- _] [=]. }
  unfold mbind, M_bind, lift_result. fold trend_vitals.
  destruct (trends_loop trend_vitals patient_data []) as [ts |].
  - cbn. intros [= <- _]. cbn [tr_vital_trends]. by intros [= <-].
  - cbn. intros [= <- _] [=].
Qed.

(** X11. A trend report never says declining: every vital trend it lists
    is concerning, improving or stable, the declining count of its
    summary is 0, and its overall trajectory is improving when some
    vital is improving and stable otherwise. *)
Theorem trajectory_never_declining (patient_data : list reading) (w : world) :
  ∃ rep w',
    analyze_health_trends patient_data w = (Ok rep, w')
    ∧ tr_overall_trajectory rep ≠ Some "declining"
    ∧ ∀ trends,
        tr_vital_trends rep = Some trends →
        Forall (λ vt : string * vital_trend,
                  vt_direction vt.2 ∈ ["concerning"; "improving"; "stable"]) trends
        ∧ tr_trend_summary rep
          = Some (count_direction "improving" trends,
                  count_direction "stable" trends, 0%nat)
        ∧ tr_overall_trajectory rep
          = Some (if bool_decide
                       (Exists (λ vt : string * vital_trend,
                                  vt_direction vt.2 = "improving") trends)
                  then "improving" else "stable").
Proof.
  destruct (analyze_health_trends patient_data w) as [[rep | e] w'] eqn:Erun.
  2: { revert Erun. unfold analyze_health_trends, try_except.
       destruct (analyze_trends_body patient_data w) as [[r | e'] w1]; done. }
  exists rep, w'. split; [done |].
  assert (Hrep : ∀ trends,
            tr_vital_trends rep = Some trends →
            Forall (λ vt : string * vital_trend,
                      vt_direction vt.2 ∈ ["concerning"; "improving"; "stable"]) trends
            ∧ tr_trend_summary rep
              = Some (count_direction "improving" trends,
                      count_direction "stable" trends, 0%nat)
            ∧ tr_overall_trajectory rep
              = Some (if bool_decide
                           (Exists (λ vt : string * vital_trend,
                                      vt_direction vt.2 = "improving") trends)
                      then "improving" else "stable")).
  { intros trends Htr.
    destruct (analyze_trends_body_report _ _ _ _ _ Erun Htr) as (Hloop & Hsum & Htraj).
    apply trends_loop_spec in Hloop as [Hall _]; [| constructor].
    assert (Hdecl : count_direction "declining" trends = 0%nat).
    { apply count_direction_absent. eapply Forall_impl; [exact Hall |].
      intros vt Hvt Heq. cbv beta in Hvt. rewrite Heq in Hvt.
      repeat (apply elem_of_cons in Hvt as [Hvt | Hvt]; [discriminate Hvt |]).
      by apply elem_of_nil in Hvt. }
    rewrite Hdecl in Hsum, Htraj. split; [done |]. split; [done |].
    rewrite Htraj. f_equal. case_bool_decide as Hex.
    - apply count_direction_pos in Hex.
      by replace (0 <? count_direction "improving" trends)%nat with true
        by (symmetry; apply Nat.ltb_lt; lia).
    - rewrite <- count_direction_pos in Hex.
      by replace (0 <? count_direction "improving" trends)%nat with false
        by (symmetry; apply Nat.ltb_ge; lia). }
  split; [| exact Hrep].
  destruct (tr_vital_trends rep) as [trends |] eqn:Htr.
  - destruct (Hrep trends eq_refl) as (_ & _ & ->). by case_bool_decide.
  - revert Erun Htr. unfold analyze_health_trends, try_except, analyze_trends_body.
    destruct (length patient_data <? 10)%nat; [by intros [= <- _] |].
    unfold mbind, M_bind, lift_result.
    destruct (trends_loop _ patient_data []) as [ts |]; cbn; by intros [= <- _].
Qed.

(** X12. A report that lists vital trends lists, in the order heart
    rate, temperature, systolic pressure, oxygen saturation, exactly
    the vitals that at least five readings of the history carry. *)
Theorem vital_trends_need_five_values (patient_data : list reading) (w w' : world)
    (rep : trend_report) (trends : list (string * vital_trend)) :
  analyze_health_trends patient_data w = (Ok rep, w') →
  tr_vital_trends rep = Some trends →
  trends.*1
  = filter (λ v, (5 ≤ length (vital_values v patient_data))%nat) trend_vitals.
Proof.
  intros Hrun Htr.
  destruct (analyze_trends_body_report _ _ _ _ _ Hrun Htr) as (Hloop & _ & _).
  apply trends_loop_spec in Hloop as [_ Hkeys]; [| constructor]. exact Hkeys.
Qed.

(** X13. When the first three values of a series average to zero,
    [_calculate_trend] does not divide: the change is reported as
    [round(0, 2)] and the trend as stable, whatever the recent values. *)
Theorem trend_from_zero_baseline (values : list pyval) (t : vital_trend) (older : Q) :
  (2 ≤ length values)%nat →
  py_mean (slice_to 3 values) = Ok older →
  (older == 0)%Q →
  _calculate_trend values = Ok t →
  vt_direction t = "stable" ∧ vt_change_percent t = Some (round2 0).
Proof.
  intros Hlen Hold Hzero. unfold _calculate_trend.
  replace (length values <? 2)%nat with false by (symmetry; apply Nat.ltb_ge; lia).
  destruct (py_mean (slice_from (-3) values)) as [recent_avg |]; [| done].
  rewrite Hold. cbn [mbind result_bind]. cbv zeta.
  apply Qeq_bool_iff in Hzero. rewrite Hzero. by intros [= <-].
Qed.

(** ** Statistics over a window *)

Lemma sum_bounds (a b : Q) (xs : list Q) :
  Forall (λ x, (a <= x)%Q ∧ (x <= b)%Q) xs →
  ∀ acc,
    (acc + inject_Z (Z.of_nat (length xs)) * a <= fold_left Qplus xs acc)%Q
    ∧ (fold_left Qplus xs acc <= acc + inject_Z (Z.of_nat (length xs)) * b)%Q.
Proof.
  induction 1 as [| x xs [Hax Hxb] _ IH]; intros acc.
  - change (inject_Z (Z.of_nat (length (@nil Q)))) with 0%Q. cbn [fold_left].
    split; lra.
  - cbn [fold_left length]. destruct (IH (acc + x)%Q) as [Hlo Hhi].
    rewrite Nat2Z.inj_succ, <- Z.add_1_r, inject_Z_plus.
    change (inject_Z 1) with 1%Q. split; lra.
Qed.

Lemma mean_of_bounds (a b : Q) (xs : list Q) :
  xs ≠ [] →
  Forall (λ x, (a <= x)%Q ∧ (x <= b)%Q) xs →
  (a <= mean_of xs)%Q ∧ (mean_of xs <= b)%Q.
Proof.
  intros Hne Hall. destruct (sum_bounds a b xs Hall 0) as [Hlo Hhi].
  assert (Hn : (0 < inject_Z (Z.of_nat (length xs)))%Q).
  { change 0%Q with (inject_Z 0). rewrite <- Zlt_Qlt. destruct xs; [done | cbn; lia]. }
  unfold mean_of. split.
  - apply Qle_shift_div_l; [done |]. lra.
  - apply Qle_shift_div_r; [done |]. lra.
Qed.






Lemma to_numbers_spec (values : list pyval) (qs : list Q) :
  to_numbers values = Ok qs → values = PNum <$> qs.
Proof.
  revert qs. induction values as [| v rest IH]; intros qs.
  - by intros [= <-].
  - destruct v as [q | s |]; cbn [to_numbers]; [| done | done].
    destruct (to_numbers rest) as [qs' |]; [| done].
    cbn [mbind result_bind]. intros [= <-]. cbn. f_equal. by apply IH.
Qed.

Lemma numbers_of_vitals_spec (vitals : list string) (health_data : list reading) :
  ∀ nums,
    numbers_of_vitals vitals health_data = Ok nums →
    nums.*1 = vitals
    ∧ Forall (λ vq : string * list Q, collect_vital vq.1 health_data = PNum <$> vq.2)
        nums.
Proof.
  induction vitals as [| vital rest IH]; intros nums.
  - by intros [= <-].
  - cbn [numbers_of_vitals].
    destruct (to_numbers (collect_vital vital health_data)) as [qs |] eqn:Eq; [| done].
    destruct (numbers_of_vitals rest health_data) as [others |]; [| done].
    cbn [mbind result_bind]. intros [= <-].
    destruct (IH others eq_refl) as [Hk Hall]. split.
    + cbn. by rewrite Hk.
    + constructor; [| done]. cbn [fst snd]. by apply to_numbers_spec.
Qed.


Lemma vital_score_bounds (avg lo hi : Q) :
  (0 < lo)%Q → (0 < hi)%Q →
  (0 <= vital_score avg lo hi)%Q ∧ (vital_score avg lo hi <= 100)%Q.
Proof.
  intros Hlo Hhi. unfold vital_score.
  destruct (Qle_bool lo avg) eqn:E1; cbn [andb].
  - destruct (Qle_bool avg hi) eqn:E2; [split; lra |].
    apply Qle_bool_iff in E1.
    assert (Hgt : (hi < avg)%Q).
    { apply Qnot_le_lt. intros H. apply Qle_bool_iff in H. congruence. }
    replace (Qltb avg lo) with false by (symmetry; by apply Qltb_ge).
    cbv zeta.
    assert (Hd : (0 < (avg - hi) / hi)%Q) by (apply Qlt_shift_div_l; lra).
    destruct (Qgtb _ 0) eqn:E3; [apply Qgtb_gt in E3 |]; split; lra.
  - assert (Hlt : (avg < lo)%Q).
    { apply Qnot_le_lt. intros H. apply Qle_bool_iff in H. congruence. }
    replace (Qltb avg lo) with true by (symmetry; by apply Qltb_lt).
    cbv zeta.
    assert (Hd : (0 < (lo - avg) / lo)%Q) by (apply Qlt_shift_div_l; lra).
    destruct (Qgtb _ 0) eqn:E3; [apply Qgtb_gt in E3 |]; split; lra.
Qed.

Lemma vital_score_in_range (avg lo hi : Q) :
  (lo <= avg)%Q → (avg <= hi)%Q → vital_score avg lo hi = 100%Q.
Proof.
  intros H1 H2. unfold vital_score.
  apply Qle_bool_iff in H1, H2. by rewrite H1, H2.
Qed.

Lemma scores_loop_bounds (ranges : bounds_table)
    (statistics : list (string * vital_statistics)) :
  Forall (λ e : string * (Q * Q), (0 < e.2.1)%Q ∧ (0 < e.2.2)%Q) ranges →
  Forall (λ x, (0 <= x)%Q ∧ (x <= 100)%Q) (scores_loop ranges statistics).
Proof.
  induction 1 as [| [vital [lo hi]] rest [Hlo Hhi] _ IH]; [constructor |].
  cbn [scores_loop]. destruct (assoc_get vital statistics); [| done].
  constructor; [| done]. by apply vital_score_bounds.
Qed.

Lemma scores_loop_in_range (ranges : bounds_table)
    (statistics : list (string * vital_statistics)) :
  Forall (within_normal_range statistics) ranges →
  Forall (λ x, (100 <= x)%Q ∧ (x <= 100)%Q) (scores_loop ranges statistics).
Proof.
  induction 1 as [| [vital [lo hi]] rest Hin _ IH]; [constructor |].
  cbn [scores_loop]. destruct (assoc_get vital statistics) as [st |] eqn:E; [| done].
  constructor; [| done]. destruct (Hin st E) as [H1 H2]. cbn [fst snd] in H1, H2.
  rewrite vital_score_in_range by done. split; lra.
Qed.

Lemma normal_ranges_positive :
  Forall (λ e : string * (Q * Q), (0 < e.2.1)%Q ∧ (0 < e.2.2)%Q) normal_ranges.
Proof. repeat constructor. Qed.

(** X15. The overall health score always lies between 0 and 100. It is
    50 when the statistics hold none of the six vitals, and it is 100
    (as a rational) when they hold some and every average they hold
    lies in its normal range. *)
Theorem health_score_bounds (statistics : list (string * vital_statistics)) :
  let score := _calculate_overall_health_score statistics in
  (0 <= score)%Q
  ∧ (score <= 100)%Q
  ∧ (scores_loop normal_ranges statistics = [] → score = 50.0%Q)
  ∧ (scores_loop normal_ranges statistics ≠ [] →
     Forall (within_normal_range statistics) normal_ranges →
     (score == 100)%Q).
Proof.
  intros score. subst score. unfold _calculate_overall_health_score.
  destruct statistics as [| s0 rest].
  { split; [done |]. split; [done |]. split; [done |]. by intros Hne. }
  set (statistics := s0 :: rest).
  pose proof (scores_loop_bounds normal_ranges statistics normal_ranges_positive)
    as Hall.
  destruct (scores_loop normal_ranges statistics) as [| x xs] eqn:E.
  { split; [done |]. split; [done |]. split; [done |]. by intros Hne. }
  destruct (mean_of_bounds 0 100 (x :: xs)) as [Hlo Hhi]; [done | done |].
  unfold mean_of in Hlo, Hhi.
  split; [exact Hlo |]. split; [exact Hhi |]. split; [done |].
  intros _ Hin. apply scores_loop_in_range in Hin. rewrite E in Hin.
  destruct (mean_of_bounds 100 100 (x :: xs)) as [Hlo' Hhi']; [done | done |].
  unfold mean_of in Hlo', Hhi'. by apply Qle_antisym.
Qed.

Lemma analyze_trends_spec (vitals : list (string * list Q)) :
  ∀ trends,
    _analyze_trends vitals = Ok trends →
    Forall2 (λ (vq : string * list Q) (vt : string * string),
               vt.1 = vq.1 ∧ trend_of vq.2 = Ok vt.2) vitals trends.
Proof.
  induction vitals as [| [vital values] rest IH]; intros trends.
  - intros [= <-]. constructor.
  - cbn [_analyze_trends]. destruct (trend_of values) as [t |] eqn:Et; [| done].
    cbn [mbind result_bind].
    destruct (_analyze_trends rest) as [ts |]; [| done].
    cbn [mbind result_bind]. intros [= <-]. constructor; [done |]. by apply IH.
Qed.

Lemma trend_of_insufficient (values : list Q) (direction : string) :
  trend_of values = Ok direction →
  (direction = "insufficient_data" ↔ (length values < 5)%nat)
  ∧ direction ∈ ["increasing"; "decreasing"; "stable"; "insufficient_data"].
Proof.
  destruct (decide (length values < 5)%nat) as [Hlt | Hge].
  - rewrite trend_of_short by done. intros [= <-]. split; [done | elem_of_literal].
  - rewrite trend_of_directions by lia. cbv zeta. intros [= <-].
    repeat match goal with |- context [if ?b then _ else _] => destruct b end;
      (split; [split; [discriminate | lia] | elem_of_literal]).
Qed.

(** X16. The statistics of a non-empty window report a direction for
    each of the six vitals, in their order, and the direction is
    insufficient_data exactly for the vitals with fewer than five
    values; the summary has an entry exactly for the vitals with at
    least one value; the alert frequency counts the readings of the
    window and estimates one alert per twenty readings. *)
Theorem statistics_cover_vitals (health_data : list reading) (hs : health_statistics) :
  _calculate_health_statistics health_data = Ok (Some hs) →
  (hs_health_trends hs).*1 = statistics_vitals
  ∧ (hs_vital_signs_summary hs).*1
    = filter (λ v, collect_vital v health_data ≠ []) statistics_vitals
  ∧ (∀ vital direction,
       (vital, direction) ∈ hs_health_trends hs →
       (direction = "insufficient_data"
        ↔ (length (collect_vital vital health_data) < 5)%nat)
       ∧ direction ∈ ["increasing"; "decreasing"; "stable"; "insufficient_data"])
  ∧ hs_alert_frequency hs
    = (length health_data, (length health_data / 20)%nat, 5.0%Q).
Proof.
  unfold _calculate_health_statistics. destruct health_data as [| r0 rs]; [done |].
  set (hd := r0 :: rs).
  destruct (numbers_of_vitals statistics_vitals hd) as [nums |] eqn:En; [| done].
  cbn [mbind result_bind]. cbv zeta.
  destruct (_analyze_trends nums) as [trends |] eqn:Et; [| done].
  cbn [mbind result_bind]. intros [= <-].
  cbn [hs_health_trends hs_vital_signs_summary hs_alert_frequency].
  destruct (numbers_of_vitals_spec _ _ _ En) as [Hkeys Hall].
  pose proof (analyze_trends_spec _ _ Et) as Hspec.
  split; [| split; [| split; [| done]]].
  - rewrite <- Hkeys. clear -Hspec.
    induction Hspec as [| vq vt l k [Hk _] _ IH]; [done |]. cbn. by rewrite Hk, IH.
  - rewrite <- Hkeys. unfold statistics_of. clear -Hall.
    induction Hall as [| [v qs] l Hv _ IH]; [done |].
    cbn [fst snd] in Hv. rewrite fmap_cons. cbn [fst].
    destruct qs as [| q qs'].
    + rewrite filter_cons_False by (rewrite Hv; intros H; by apply H).
      rewrite <- IH. reflexivity.
    + rewrite filter_cons_True by (by rewrite Hv).
      rewrite <- IH. reflexivity.
  - intros vital direction Hin. clear -Hspec Hall Hin.
    rewrite Forall_forall in Hall.
    apply list_elem_of_lookup in Hin as [i Hi].
    destruct (Forall2_lookup_r _ _ _ _ _ Hspec Hi) as ([v qs] & Hnum & Hv & Htr).
    cbn [fst snd] in Hv, Htr. subst v.
    assert (Hc : collect_vital vital hd = PNum <$> qs).
    { apply (Hall (vital, qs)). by eapply list_elem_of_lookup_2. }
    rewrite Hc, length_fmap. by apply trend_of_insufficient.
Qed.

(** ** The anomaly detector and the threshold check *)

Lemma py_or_true a b :
  py_or a b = Ok true → a = Ok true ∨ (a = Ok false ∧ b = Ok true).
Proof.
  unfold py_or. destruct a as [[] |]; cbn [mbind result_bind]; intros H;
    [by left | by right | done].
Qed.

Lemma py_or_false a b :
  py_or a b = Ok false → a = Ok false ∧ b = Ok false.
Proof.
  unfold py_or. destruct a as [[] |]; cbn [mbind result_bind]; intros H; done.
Qed.

Lemma get_num_gt key dflt hd bound :
  py_gt (get_num key dflt hd) bound = Ok true →
  (dflt <= bound)%Q →
  ∃ q, hd !! key = Some (PNum q) ∧ (bound < q)%Q.
Proof.
  unfold get_num. destruct (hd !! key) as [[q | s |] |]; cbn [default py_gt];
    intros [= H] Hd; apply Qgtb_gt in H.
  - by exists q.
  - exfalso. apply (Qlt_not_le _ _ H Hd).
Qed.

Lemma get_num_lt key dflt hd bound :
  py_lt (get_num key dflt hd) bound = Ok true →
  (bound <= dflt)%Q →
  ∃ q, hd !! key = Some (PNum q) ∧ (q < bound)%Q.
Proof.
  unfold get_num. destruct (hd !! key) as [[q | s |] |]; cbn [default py_lt];
    intros [= H] Hd; apply Qltb_lt in H.
  - by exists q.
  - exfalso. apply (Qlt_not_le _ _ H Hd).
Qed.

Lemma assess_risk_level_critical hd prob :
  assess_risk_level hd prob = Ok "critical" →
  py_or (py_or (py_or (py_gt (get_num "heart_rate" 70 hd) 150)
                      (py_lt (get_num "heart_rate" 70 hd) 40))
               (py_gt (get_num "temperature" 36.8 hd) 39))
        (py_lt (get_num "spo2" 98 hd) 90) = Ok true.
Proof.
  unfold assess_risk_level. cbv zeta.
  destruct (py_or _ _) as [[] |]; cbn [mbind result_bind]; [done | | done].
  by repeat case_match.
Qed.

Lemma breaches_above hd key lo hi q :
  hd !! key = Some (PNum q) → (hi < q)%Q → breaches hd (key, (lo, hi)) = true.
Proof.
  intros Hk Hq. unfold breaches. cbn [fst snd]. rewrite Hk.
  apply orb_true_iff. right. by apply Qgtb_gt.
Qed.

Lemma breaches_below hd key lo hi q :
  hd !! key = Some (PNum q) → (q < lo)%Q → breaches hd (key, (lo, hi)) = true.
Proof.
  intros Hk Hq. unfold breaches. cbn [fst snd]. rewrite Hk.
  apply orb_true_iff. left. by apply Qltb_lt.
Qed.

Lemma assess_critical_breach hd prob :
  assess_risk_level hd prob = Ok "critical" →
  ∃ e, e ∈ scenario_thresholds ∧ breaches hd e = true.
Proof.
  intros H. apply assess_risk_level_critical in H.
  apply py_or_true in H as [H | [_ H]];
    [apply py_or_true in H as [H | [_ H]];
       [apply py_or_true in H as [H | [_ H]] |] |].
  - apply get_num_gt in H as (q & Hk & Hq); [| done].
    exists ("heart_rate", (40, 150))%Q. split; [elem_of_literal |].
    by apply (breaches_above _ _ _ _ q).
  - apply get_num_lt in H as (q & Hk & Hq); [| done].
    exists ("heart_rate", (40, 150))%Q. split; [elem_of_literal |].
    by apply (breaches_below _ _ _ _ q).
  - apply get_num_gt in H as (q & Hk & Hq); [| done].
    exists ("temperature", (35.0, 39.0))%Q. split; [elem_of_literal |].
    apply (breaches_above _ _ _ _ q); [done |].
    unfold Qlt in *; cbn [Qnum Qden] in *; lia.
  - apply get_num_lt in H as (q & Hk & Hq); [| done].
    exists ("spo2", (90, 100))%Q. split; [elem_of_literal |].
    by apply (breaches_below _ _ _ _ q).
Qed.

Lemma scenario_thresholds_critical e :
  e ∈ scenario_thresholds → e ∈ critical_thresholds.
Proof.
  unfold scenario_thresholds, critical_thresholds. intros H.
  rewrite !elem_of_cons, elem_of_nil in H.
  destruct H as [-> | [-> | [-> | []]]]; elem_of_literal.
Qed.

Lemma breach_has_alert hd alerts e :
  _check_immediate_alerts hd = Ok alerts →
  e ∈ critical_thresholds → breaches hd e = true →
  ∃ a, a ∈ alerts ∧ al_vital_sign a = e.1.
Proof.
  intros Hrun He Hb. pose proof (check_alerts_loop_vitals _ _ _ _ Hrun) as Hv.
  cbn [fmap list_fmap app] in Hv.
  assert (Hin : e.1 ∈ al_vital_sign <$> alerts).
  { rewrite Hv. apply list_elem_of_fmap. exists e. split; [done |].
    by apply list_elem_of_filter. }
  apply list_elem_of_fmap in Hin as (a & Ha & Hin). by exists a.
Qed.

Lemma threshold_alert_verdict hd alerts anomaly emergency risk :
  _check_immediate_alerts hd = Ok alerts → alerts ≠ [] →
  ∃ a, _determine_overall_status alerts anomaly emergency risk
       = mk_status "emergency" "critical" 0.95 (Some (al_message a))
           "Critical vital signs detected - immediate medical attention required".
Proof.
  intros Hrun Hne. pose proof (check_immediate_alerts_critical _ _ Hrun) as Hc.
  destruct alerts as [| a rest]; [done |]. exists a.
  unfold _determine_overall_status. by rewrite (rule_alerts_critical _ a rest).
Qed.

(** X17. When the anomaly detector rates a reading critical, the
    threshold check of the monitor, if it can compare the reading, has
    raised an alert for its heart rate, temperature or oxygen
    saturation: the fused verdict is then the emergency of the
    threshold rule, whatever the scorers say. *)
Theorem detector_critical_has_alert (health_data : reading) (anomaly_prob : Q)
    (alerts : list alert) (anomaly : option anomaly_result)
    (emergency : option emergency_result) (risk : option risk_result) :
  assess_risk_level health_data anomaly_prob = Ok "critical" →
  _check_immediate_alerts health_data = Ok alerts →
  (∃ a, a ∈ alerts ∧ al_vital_sign a ∈ ["heart_rate"; "temperature"; "spo2"])
  ∧ st_level (_determine_overall_status alerts anomaly emergency risk) = "emergency"
  ∧ st_severity (_determine_overall_status alerts anomaly emergency risk) = "critical".
Proof.
  intros Hcrit Hrun.
  destruct (assess_critical_breach _ _ Hcrit) as (e & He & Hb).
  destruct (breach_has_alert _ _ e Hrun (scenario_thresholds_critical _ He) Hb)
    as (a & Ha & Hvital).
  split.
  - exists a. split; [done |]. rewrite Hvital.
    unfold scenario_thresholds in He. rewrite !elem_of_cons, elem_of_nil in He.
    destruct He as [-> | [-> | [-> | []]]]; cbn [fst]; elem_of_literal.
  - assert (Hne : alerts ≠ []) by (intros ->; by apply elem_of_nil in Ha).
    destruct (threshold_alert_verdict _ _ anomaly emergency risk Hrun Hne) as (a0 & ->).
    done.
Qed.

Lemma assess_risk_level_cases hd prob lvl :
  assess_risk_level hd prob = Ok lvl →
  lvl = "critical"
  ∨ lvl = (if Qgtb prob 0.8 then "high"
           else if Qgtb prob 0.6 then "medium"
           else if Qgtb prob 0.3 then "low" else "normal").
Proof.
  unfold assess_risk_level. cbv zeta.
  destruct (py_or _ _) as [[] |]; cbn [mbind result_bind]; [| | done].
  - intros [= <-]. by left.
  - intros H. right. by repeat case_match; injection H as <-.
Qed.

Lemma no_alert_not_critical hd prob :
  _check_immediate_alerts hd = Ok [] →
  assess_risk_level hd prob ≠ Ok "critical".
Proof.
  intros Hrun Hcrit.
  destruct (assess_critical_breach _ _ Hcrit) as (e & He & Hb).
  destruct (breach_has_alert _ _ e Hrun (scenario_thresholds_critical _ He) Hb)
    as (a & Ha & _).
  by apply elem_of_nil in Ha.
Qed.

Lemma status_without_anomaly_rule emergency risk anomaly :
  rule_emergency emergency = None → rule_anomaly anomaly = None →
  st_level (_determine_overall_status [] anomaly emergency risk) ≠ "warning".
Proof.
  intros He Ha. unfold _determine_overall_status. cbn [rule_alerts].
  rewrite He, Ha. destruct (rule_risk risk) as [s |] eqn:Hr.
  - by rewrite (rule_risk_Some _ _ Hr).
  - done.
Qed.

(** X18. For a reading without threshold alert and a classification
    that stays silent, the signal of the anomaly detector turns the
    verdict into a warning exactly when the forest predicts an anomaly
    (-1) with an anomaly probability above 0.8. The warning then has
    severity high, never critical, the absolute value of the forest's
    decision function as confidence, and the detector's three
    recommendations for a high risk. *)
Theorem detector_warning_is_high (health_data : reading)
    (isolation_forest : reading → result (Z * Q)) (r : anomaly_result)
    (emergency : option emergency_result) (risk : option risk_result) :
  _check_immediate_alerts health_data = Ok [] →
  classification_silent emergency →
  predict_anomaly true isolation_forest health_data = Ok r →
  ∃ if_prediction if_score,
    isolation_forest health_data = Ok (if_prediction, if_score)
    ∧ ar_risk_level r ≠ Some "critical"
    ∧ let s := _determine_overall_status [] (Some r) emergency risk in
      let anomaly_prob := (1 / (1 + np_exp if_score))%Q in
      (st_level s = "warning" ↔ if_prediction = (-1)%Z ∧ (0.8 < anomaly_prob)%Q)
      ∧ (st_level s = "warning" →
         st_severity s = "high"
         ∧ st_confidence s = Qabs if_score
         ∧ ar_recommendations r
           = Some ["Contact healthcare provider immediately";
                   "Monitor symptoms closely";
                   "Avoid strenuous activities"]).
Proof.
  intros Hrun Hsilent. unfold predict_anomaly. cbn [negb].
  destruct (isolation_forest health_data) as [[p sc] |]; [| done].
  cbn [mbind result_bind]. cbv zeta.
  destruct (assess_risk_level health_data (1 / (1 + np_exp sc))) as [lvl |] eqn:Hass;
    [| done].
  cbn [mbind result_bind]. intros [= <-]. exists p, sc. split; [done |].
  assert (Hnc : lvl ≠ "critical").
  { intros ->. by apply (no_alert_not_critical _ _ Hrun) in Hass. }
  split; [cbn [ar_risk_level]; congruence |].
  pose proof (classification_silent_rule _ Hsilent) as He.
  destruct (assess_risk_level_cases _ _ _ Hass) as [-> | Hlvl]; [done |].
  set (r := mk_anomaly_result _ _ _ _ _ _).
  destruct (Qgtb (1 / (1 + np_exp sc)) 0.8) eqn:Hp.
  - subst lvl. destruct (decide (p = (-1)%Z)) as [-> | Hp1].
    + assert (Hs : _determine_overall_status [] (Some r) emergency risk
                   = mk_status "warning" "high" (Qabs sc)
                       (Some "Abnormal vital sign patterns detected")
                       ("Health anomaly detected - risk level: " +:+ "high")).
      { unfold _determine_overall_status. cbn [rule_alerts]. by rewrite He. }
      rewrite Hs. cbn [st_level st_severity st_confidence]. split; [| done].
      split; [| done]. intros _. split; [done |]. by apply Qgtb_gt.
    + assert (Ha : rule_anomaly (Some r) = None).
      { unfold rule_anomaly. subst r. cbn. by rewrite bool_decide_false. }
      pose proof (status_without_anomaly_rule emergency risk _ He Ha) as Hw.
      split; [| done]. split; [done |]. by intros [? _].
  - assert (Ha : rule_anomaly (Some r) = None).
    { unfold rule_anomaly. subst r lvl. cbn.
      match goal with
      | |- context [bool_decide (?x ∈ ?l)] =>
          assert (Hb : bool_decide (x ∈ l) = false)
      end.
      { clear Hnc Hass.
        destruct (Qgtb (1 / (1 + np_exp sc)) 0.6);
          [| destruct (Qgtb (1 / (1 + np_exp sc)) 0.3)];
          (apply bool_decide_eq_false; intros Hin;
           rewrite !elem_of_cons, elem_of_nil in Hin;
           destruct Hin as [? | [? | []]]; discriminate). }
      by rewrite Hb, andb_false_r. }
    pose proof (status_without_anomaly_rule emergency risk _ He Ha) as Hw.
    split; [| done]. split; [done |]. intros [_ Hlt].
    apply Qgtb_gt in Hlt. congruence.
Qed.

(** ** The emergency classifier in the fusion *)

(** [_determine_severity] as a decision tree over the three lists. *)
Lemma determine_severity_cases (t : string) (c : Q) :
  EmergencyClassifier._determine_severity t c
  = if bool_decide (t ∈ EmergencyClassifier.critical_emergencies)
    then (if Qgtb c 0.7 then "critical" else "high")
    else if bool_decide (t ∈ EmergencyClassifier.high_emergencies)
    then (if Qgtb c 0.8 then "high" else "medium")
    else if bool_decide (t ∈ EmergencyClassifier.medium_emergencies) && Qgtb c 0.7
    then "medium"
    else if bool_decide (t ≠ "normal") then "low" else "normal".
Proof.
  unfold EmergencyClassifier._determine_severity.
  destruct (bool_decide (t ∈ EmergencyClassifier.critical_emergencies));
    destruct (bool_decide (t ∈ EmergencyClassifier.high_emergencies));
    destruct (bool_decide (t ∈ EmergencyClassifier.medium_emergencies));
    destruct (Qgtb c 0.7); destruct (Qgtb c 0.8); reflexivity.
Qed.

Lemma Qgtb_mono (c1 c2 bound : Q) :
  (c1 <= c2)%Q → Qgtb c1 bound = true → Qgtb c2 bound = true.
Proof.
  rewrite !Qgtb_gt. intros Hle Hlt. by apply (Qlt_le_trans _ c1).
Qed.

Lemma classifier_rule_status alerts anomaly risk (o : EmergencyClassifier.ensemble_output) :
  critical_alerts alerts = [] →
  EmergencyClassifier.eo_emergency_type o ≠ "normal" →
  (0.7 < EmergencyClassifier.eo_confidence o)%Q →
  let sev := EmergencyClassifier._determine_severity
               (EmergencyClassifier.eo_emergency_type o)
               (EmergencyClassifier.eo_confidence o) in
  let s := _determine_overall_status alerts anomaly
             (Some (EmergencyClassifier.emergency_dict o)) risk in
  st_level s = (if bool_decide (sev = "critical") then "emergency" else "warning")
  ∧ st_severity s = sev.
Proof.
  intros Hal Hty Hc sev s. subst s. unfold _determine_overall_status.
  rewrite (rule_alerts_none _ Hal).
  rewrite (rule_emergency_fires (EmergencyClassifier.emergency_dict o)); [| done ..].
  cbn [EmergencyClassifier.emergency_dict er_severity default st_level st_severity].
  split; [done |].
  apply severity_map_get_known. by apply determine_severity_known.
Qed.

(** X19. With no critical threshold alert, a classification built by
    the classifier for a class other than normal with a confidence
    above 0.7 makes the verdict an emergency exactly for the four
    classes of the critical list; the analysis asks for an emergency
    response exactly for those and for the classes of the high list
    with a confidence above 0.8; and a class outside the three severity
    lists only gives a warning of severity low that asks for no
    emergency response, however confident the classifier is. *)
Theorem classifier_emergency_response (health_data : reading) (alerts : list alert)
    (anomaly : option anomaly_result) (risk : option risk_result)
    (o : EmergencyClassifier.ensemble_output) :
  critical_alerts alerts = [] →
  EmergencyClassifier.eo_emergency_type o ≠ "normal" →
  (0.7 < EmergencyClassifier.eo_confidence o)%Q →
  let category := EmergencyClassifier.eo_emergency_type o in
  let a := _combine_analysis_results health_data alerts anomaly
             (Some (EmergencyClassifier.emergency_dict o)) risk in
  (st_level (an_overall_status a) = "emergency"
   ↔ category ∈ EmergencyClassifier.critical_emergencies)
  ∧ (an_requires_emergency_response a = true
     ↔ category ∈ EmergencyClassifier.critical_emergencies
       ∨ (category ∈ EmergencyClassifier.high_emergencies
          ∧ (0.8 < EmergencyClassifier.eo_confidence o)%Q))
  ∧ (category ∉ EmergencyClassifier.critical_emergencies
     → category ∉ EmergencyClassifier.high_emergencies
     → category ∉ EmergencyClassifier.medium_emergencies
     → st_level (an_overall_status a) = "warning"
       ∧ st_severity (an_overall_status a) = "low"
       ∧ an_requires_emergency_response a = false).
Proof.
  intros Hal Hty Hc category a.
  destruct (classifier_rule_status alerts anomaly risk o Hal Hty Hc) as [Hl Hs].
  pose proof (combine_emergency_flag health_data alerts anomaly
                (Some (EmergencyClassifier.emergency_dict o)) risk) as Hflag.
  cbv zeta in Hflag. fold a in Hflag.
  change (an_overall_status a)
    with (_determine_overall_status alerts anomaly
            (Some (EmergencyClassifier.emergency_dict o)) risk) in *.
  cbv zeta in Hl, Hs. rewrite Hs in Hflag. rewrite Hl, Hs. clear Hl Hs.
  apply Qgtb_gt in Hc. fold category in Hty, Hflag |- *.
  rewrite determine_severity_cases in Hflag |- *. fold category in Hflag |- *.
  rewrite Hc in Hflag |- *.
  rewrite (bool_decide_eq_true_2 (category ≠ "normal")) in Hflag |- * by done.
  rewrite <- (Qgtb_gt (EmergencyClassifier.eo_confidence o) 0.8).
  assert (Hnf : an_requires_emergency_response a ≠ true
                → an_requires_emergency_response a = false)
    by (destruct (an_requires_emergency_response a); congruence).
  destruct (bool_decide (category ∈ EmergencyClassifier.critical_emergencies)) eqn:Hcr;
    destruct (bool_decide (category ∈ EmergencyClassifier.high_emergencies)) eqn:Hhi;
    destruct (bool_decide (category ∈ EmergencyClassifier.medium_emergencies)) eqn:Hme;
    destruct (Qgtb (EmergencyClassifier.eo_confidence o) 0.8) eqn:H8;
    cbn [andb orb] in Hflag |- *;
    try apply bool_decide_eq_true in Hcr; try apply bool_decide_eq_false in Hcr;
    try apply bool_decide_eq_true in Hhi; try apply bool_decide_eq_false in Hhi;
    try apply bool_decide_eq_true in Hme; try apply bool_decide_eq_false in Hme;
    (split; [| split]).
  all: try (rewrite Hflag; clear Hflag).
  all: try (split; [intros _; first [by left | by right; split | done] | done]).
  all: try (split; [by intros [? | ?] | intros [? | [? ?]]; done]).
  all: try (split; [done | intros ?; done]).
  all: try (intros ? ? ?; done).
  all: try (intros _ _ _; split; [done |]; split; [done |]; apply Hnf; rewrite Hflag;
            clear; by intros [? | ?]).
  all: split; intros _; first [by left | by right | right; by split].
Qed.

Lemma severity_rank_tree_mono (b : bool) (lo hi : string) (c1 c2 bound : Q) :
  (c1 <= c2)%Q → (severity_rank lo ≤ severity_rank hi)%nat →
  (severity_rank (if b && Qgtb c1 bound then hi else lo)
   ≤ severity_rank (if b && Qgtb c2 bound then hi else lo))%nat.
Proof.
  intros Hle Hrank. destruct b; cbn [andb]; [| done].
  destruct (Qgtb c1 bound) eqn:H1.
  - by rewrite (Qgtb_mono c1 c2 bound Hle H1).
  - by destruct (Qgtb c2 bound).
Qed.

(** X20. The severity that the classifier gives to a class never drops
    when the confidence rises (normal below low below medium below high
    below critical). It is normal only for the class normal, and
    critical only for a class of the critical list with a confidence
    above 0.7. *)
Theorem severity_monotone_in_confidence (emergency_type : string) (c1 c2 : Q) :
  (c1 <= c2)%Q →
  (severity_rank (EmergencyClassifier._determine_severity emergency_type c1)
   ≤ severity_rank (EmergencyClassifier._determine_severity emergency_type c2))%nat
  ∧ (EmergencyClassifier._determine_severity emergency_type c1 = "normal"
     ↔ emergency_type = "normal")
  ∧ (EmergencyClassifier._determine_severity emergency_type c1 = "critical"
     ↔ emergency_type ∈ EmergencyClassifier.critical_emergencies ∧ (0.7 < c1)%Q).
Proof.
  intros Hle. rewrite !determine_severity_cases.
  rewrite <- (Qgtb_gt c1 0.7).
  split; [| split].
  - destruct (bool_decide (emergency_type ∈ EmergencyClassifier.critical_emergencies)).
    { apply (severity_rank_tree_mono true "high" "critical" c1 c2 0.7 Hle).
      vm_compute. lia. }
    destruct (bool_decide (emergency_type ∈ EmergencyClassifier.high_emergencies)).
    { apply (severity_rank_tree_mono true "medium" "high" c1 c2 0.8 Hle).
      vm_compute. lia. }
    apply severity_rank_tree_mono; [done |].
    destruct (bool_decide (emergency_type ≠ "normal")); vm_compute; lia.
  - destruct (decide (emergency_type = "normal")) as [-> | Hne].
    + split; [done | intros _]. reflexivity.
    + rewrite (bool_decide_eq_true_2 (emergency_type ≠ "normal")) by done.
      split; [| done]. by repeat case_match.
  - case_bool_decide as Hcr.
    + destruct (Qgtb c1 0.7); split; [done | done | done | by intros [_ ?]].
    + split; [by repeat case_match | by intros [? _]].
Qed.

(** ** The classifier's actions among the recommendations *)

Lemma assoc_get_elem_of {V} (k : string) (d : list (string * V)) (v : V) :
  assoc_get k d = Some v → (k, v) ∈ d.
Proof.
  induction d as [| [k' v'] d IH]; [done |]. cbn [assoc_get].
  case_bool_decide as Hk.
  - intros [= <-]. subst k'. apply list_elem_of_here.
  - intros H. apply list_elem_of_further. by apply IH.
Qed.

Lemma get_emergency_actions_shape (emergency_type : string) :
  let actions := EmergencyClassifier._get_emergency_actions emergency_type in
  NoDup actions ∧ actions ≠ [] ∧ (length actions ≤ 4)%nat.
Proof.
  unfold EmergencyClassifier._get_emergency_actions. cbv zeta.
  match goal with |- context [assoc_get _ ?d] => set (table := d) end.
  assert (Htable : Forall (λ p : string * list string,
                             NoDup p.2 ∧ p.2 ≠ [] ∧ (length p.2 ≤ 4)%nat) table)
    by (apply (bool_decide_unpack _); vm_compute; exact I).
  destruct (assoc_get emergency_type table) as [l |] eqn:Hget; cbn [default].
  - apply assoc_get_elem_of in Hget.
    rewrite Forall_forall in Htable. apply (Htable _ Hget).
  - split; [apply (bool_decide_unpack _); vm_compute; exact I | split; [done |]].
    cbn [length]. lia.
Qed.

Lemma filter_all {A} (P : A → Prop) `{!∀ x, Decision (P x)} (l : list A) :
  Forall P l → filter P l = l.
Proof.
  induction 1 as [| x l Hx _ IH]; [done |]. by rewrite filter_cons_True, IH.
Qed.

Lemma dedup_first_NoDup_id (l : list string) : NoDup l → dedup_first l = l.
Proof.
  induction 1 as [| x l Hx _ IH]; [done |].
  cbn [dedup_first]. rewrite IH. f_equal.
  apply filter_all. apply Forall_forall. by intros y Hy ->.
Qed.

Lemma dedup_first_app (l1 l2 : list string) :
  dedup_first (l1 ++ l2)
  = dedup_first l1 ++ filter (λ y, y ∉ l1) (dedup_first l2).
Proof.
  induction l1 as [| x l1 IH].
  - cbn [app dedup_first]. symmetry. apply filter_all.
    apply Forall_forall. intros y _. apply not_elem_of_nil.
  - cbn [app dedup_first]. rewrite IH, filter_app. f_equal. f_equal.
    rewrite list_filter_filter. apply list_filter_iff.
    intros y. rewrite not_elem_of_cons. tauto.
Qed.

Lemma combine_recommendations hd alerts anomaly emergency risk :
  an_recommendations (_combine_analysis_results hd alerts anomaly emergency risk)
  = take 10
      (dedup_first
         ((if bool_decide (alerts = []) then [] else [immediate_attention_line])
          ++ anomaly_recs anomaly ++ emergency_recs emergency ++ risk_recs risk)).
Proof.
  cbn [_combine_analysis_results an_recommendations].
  rewrite unique_recommendations_dedup. unfold all_recommendations.
  rewrite anomaly_recs_truthy, emergency_recs_truthy, risk_recs_truthy.
  unfold slice_to. cbn [Z.ltb Z.compare Z.to_nat Pos.to_nat Pos.iter_op Init.Nat.add].
  by destruct alerts.
Qed.

(** X21. The classifier has between one and four actions for every
    class, known or not, none of them twice. Whenever a classification
    built by the classifier reaches the fusion, the analysis carries at
    least one recommendation; and when no alert fired and the anomaly
    detector gave no signal, the recommendations begin with the actions
    of the predicted class, in their order. *)
Theorem classifier_actions_recommended (health_data : reading) (alerts : list alert)
    (anomaly : option anomaly_result) (risk : option risk_result)
    (o : EmergencyClassifier.ensemble_output) :
  let actions :=
    EmergencyClassifier._get_emergency_actions (EmergencyClassifier.eo_emergency_type o) in
  let recs anomaly alerts :=
    an_recommendations
      (_combine_analysis_results health_data alerts anomaly
         (Some (EmergencyClassifier.emergency_dict o)) risk) in
  (1 ≤ length actions ≤ 4)%nat
  ∧ NoDup actions
  ∧ recs anomaly alerts ≠ []
  ∧ actions `prefix_of` recs None [].
Proof.
  intros actions recs.
  destruct (get_emergency_actions_shape (EmergencyClassifier.eo_emergency_type o))
    as (Hnd & Hne & Hlen).
  fold actions in Hnd, Hne, Hlen.
  assert (Hrecs : emergency_recs (Some (EmergencyClassifier.emergency_dict o)) = actions)
    by reflexivity.
  split; [| split; [done | split]].
  - destruct actions; [done | cbn [length] in *; lia].
  - subst recs. cbv beta. rewrite combine_recommendations, Hrecs.
    destruct actions as [| x rest]; [done |].
    intros Hnil. apply (f_equal length) in Hnil. rewrite length_take in Hnil.
    cbn [length] in Hnil.
    assert (Hx : x ∈ dedup_first
                   ((if bool_decide (alerts = []) then [] else [immediate_attention_line])
                    ++ anomaly_recs anomaly ++ (x :: rest) ++ risk_recs risk)).
    { apply dedup_first_elem_of. rewrite !elem_of_app, elem_of_cons. tauto. }
    destruct (dedup_first _); [by apply elem_of_nil in Hx | cbn [length] in Hnil; lia].
  - subst recs. cbv beta. rewrite combine_recommendations, Hrecs.
    rewrite bool_decide_eq_true_2 by done. cbn [anomaly_recs mbind option_bind default app].
    rewrite dedup_first_app, (dedup_first_NoDup_id _ Hnd).
    rewrite take_app_ge by lia. by apply prefix_app_r.
Qed.

(** ** The risk predictor: the feature vector *)

Lemma trends_of_vitals_keys vitals history :
  ∀ trends key v,
    trends_of_vitals vitals history = Ok trends →
    (key, v) ∈ trends →
    ∃ vital, vital ∈ vitals ∧ key ∈ trend_keys vital.
Proof.
  induction vitals as [| vital rest IH]; intros trends key v Hrun Hin.
  - cbn in Hrun. injection Hrun as <-. by apply elem_of_nil in Hin.
  - cbn [trends_of_vitals] in Hrun.
    destruct (trends_of_vitals rest history) as [more |] eqn:Hmore.
    2:{ by destruct (if in_columns vital history then _ else _). }
    assert (Hentries : ∀ entries,
              (key, v) ∈ entries ++ more →
              (∀ k x, (k, x) ∈ entries → k ∈ trend_keys vital) →
              ∃ vital0, vital0 ∈ vital :: rest ∧ key ∈ trend_keys vital0).
    { intros entries Hk Hent. apply elem_of_app in Hk as [Hk | Hk].
      - exists vital. split; [apply list_elem_of_here | by eapply Hent].
      - destruct (IH more key v eq_refl Hk) as (vital0 & Hv & Hkey).
        exists vital0. split; [by apply list_elem_of_further | done]. }
    destruct (in_columns vital history).
    2:{ cbn [mbind result_bind] in Hrun. injection Hrun as <-.
        apply (Hentries [] Hin). intros k x Hk. by apply elem_of_nil in Hk. }
    cbv zeta in Hrun.
    destruct (3 <=? length (collect_vital vital history))%nat.
    2:{ cbn [mbind result_bind] in Hrun. injection Hrun as <-.
        apply (Hentries [] Hin). intros k x Hk. by apply elem_of_nil in Hk. }
    destruct (np_polyfit_slope _) as [trend |]; [| done].
    destruct (pd_mean _) as [avg |]; [| done].
    cbn [mbind result_bind] in Hrun.
    case_bool_decide.
    + destruct (pd_std _) as [s |]; [| done].
      cbn [mbind result_bind app] in Hrun. injection Hrun as <-.
      apply (Hentries [(vital +:+ "_avg", avg); (vital +:+ "_trend", trend);
                       ("heart_rate_variability", s)] Hin).
      intros k x Hk. unfold trend_keys.
      rewrite !elem_of_cons, elem_of_nil in Hk.
      destruct Hk as [[= -> _] | [[= -> _] | [[= -> _] | []]]]; elem_of_literal.
    + cbn [mbind result_bind app] in Hrun. injection Hrun as <-.
      apply (Hentries [(vital +:+ "_avg", avg); (vital +:+ "_trend", trend)] Hin).
      intros k x Hk. unfold trend_keys.
      rewrite !elem_of_cons, elem_of_nil in Hk.
      destruct Hk as [[= -> _] | [[= -> _] | []]]; elem_of_literal.
Qed.

Lemma blood_pressure_not_trend_key feature vital :
  feature ∈ blood_pressure_features → vital ∈ health_trend_vitals →
  feature ∉ trend_keys vital.
Proof.
  unfold blood_pressure_features, health_trend_vitals, trend_keys.
  intros Hf Hv. rewrite !elem_of_cons, elem_of_nil in Hf.
  rewrite !elem_of_cons, elem_of_nil in Hv.
  rewrite !not_elem_of_cons.
  destruct Hf as [-> | [-> | [-> | [-> | []]]]];
    destruct Hv as [-> | [-> | [-> | [-> | [-> | [-> | []]]]]]];
    (split; [| split; [| split]]; [discriminate .. | apply not_elem_of_nil]).
Qed.

Lemma assoc_get_None {V} (k : string) (d : list (string * V)) :
  (∀ v, (k, v) ∉ d) → assoc_get k d = None.
Proof.
  intros H. destruct (assoc_get k d) as [v |] eqn:Hget; [| done].
  apply assoc_get_elem_of in Hget. by apply H in Hget.
Qed.

Lemma blood_pressure_feature_zero history trends current hour weekday feature :
  (5 ≤ length history)%nat →
  calculate_health_trends history = Ok trends →
  feature ∈ blood_pressure_features →
  match assoc_get feature trends with
  | Some v => PNum v
  | None =>
      match assoc_get feature (behavioral_data current) with
      | Some v => v
      | None =>
          match assoc_get feature (environmental_data current hour weekday) with
          | Some v => v
          | None => PNum 0.0
          end
      end
  end = PNum 0.0.
Proof.
  intros Hlen Hrun Hf. unfold calculate_health_trends in Hrun.
  destruct (Nat.ltb_spec (length history) 5) as [Hlt | _]; [lia |].
  rewrite assoc_get_None.
  - unfold blood_pressure_features in Hf. rewrite !elem_of_cons, elem_of_nil in Hf.
    by destruct Hf as [-> | [-> | [-> | [-> | []]]]].
  - intros v Hin.
    destruct (trends_of_vitals_keys _ _ _ _ _ Hrun Hin) as (vital & Hv & Hkey).
    by apply (blood_pressure_not_trend_key feature vital).
Qed.

Lemma feature_vector_split trends behavioral environmental :
  ∃ f : string → pyval,
    feature_vector trends behavioral environmental
    = (f <$> take 5 all_features)
      ++ (f <$> blood_pressure_features)
      ++ (f <$> drop 9 all_features)
    ∧ ∀ feature,
        f feature
        = match assoc_get feature trends with
          | Some v => PNum v
          | None =>
              match assoc_get feature behavioral with
              | Some v => v
              | None =>
                  match assoc_get feature environmental with
                  | Some v => v
                  | None => PNum 0.0
                  end
              end
          end.
Proof.
  eexists. split; [| intros feature; reflexivity]. reflexivity.
Qed.

Lemma confidence_upper_bound (features : list pyval) (c : Q) (n : nat) :
  (n ≤ length (filter (λ f, py_eq_zero f = true) features))%nat →
  _calculate_prediction_confidence features = Ok c →
  (0.5 <= c)%Q ∧ (c <= 1)%Q
  ∧ (c <= Qmax 0.5 (1 - inject_Z (Z.of_nat n) * 0.05))%Q.
Proof.
  intros Hn. unfold _calculate_prediction_confidence.
  destruct (count_extreme features) as [e |]; [| done].
  cbn [mbind result_bind]. cbv zeta. intros [= <-].
  set (m := length (filter _ features)) in *.
  assert (Hm : (inject_Z (Z.of_nat n) <= inject_Z (Z.of_nat m))%Q).
  { unfold Qle. cbn [inject_Z Qnum Qden]. lia. }
  assert (He : (0 <= inject_Z (Z.of_nat e))%Q).
  { unfold Qle. cbn [inject_Z Qnum Qden]. lia. }
  set (x := (1.0 - inject_Z (Z.of_nat m) * 0.05 - inject_Z (Z.of_nat e) * 0.03)%Q).
  assert (Hx : (x <= 1 - inject_Z (Z.of_nat n) * 0.05)%Q) by (subst x; lra).
  split; [apply Q.le_max_l |]. split.
  - apply Q.max_lub; [lra |].
    eapply Qle_trans; [apply Q.le_min_l | lra].
  - apply Q.max_le_compat_l.
    eapply Qle_trans; [apply Q.le_min_r | exact Hx].
Qed.

(** X22. The trends that [calculate_health_trends] computes from a
    history of five or more readings are keyed by the names of the
    readings' vitals ([systolic_bp_avg], ...), and the feature list
    asks for [bp_systolic_avg], [bp_systolic_trend], [bp_diastolic_avg]
    and [bp_diastolic_trend]: with such a history the four
    blood-pressure entries of the feature vector are 0.0 whatever the
    readings hold, so the confidence of the prediction is at most 0.8.
    With the default trends the four entries are 120, 0, 80 and 0. *)
Theorem blood_pressure_features_dropped (current_health_data : reading)
    (health_history : list reading) (trends : list (string * Q)) (hour weekday : Z) :
  (5 ≤ length health_history)%nat →
  calculate_health_trends health_history = Ok trends →
  let features trends :=
    feature_vector trends (behavioral_data current_health_data)
      (environmental_data current_health_data hour weekday) in
  length (features trends) = 23%nat
  ∧ take 4 (drop 5 all_features) = blood_pressure_features
  ∧ take 4 (drop 5 (features trends)) = replicate 4 (PNum 0.0)
  ∧ (∀ confidence,
       _calculate_prediction_confidence (features trends) = Ok confidence →
       (0.5 <= confidence)%Q ∧ (confidence <= 0.8)%Q)
  ∧ take 4 (drop 5 (features _get_default_trends))
    = [PNum 120.0; PNum 0.0; PNum 80.0; PNum 0.0].
Proof.
  intros Hlen Hrun features.
  destruct (feature_vector_split trends (behavioral_data current_health_data)
              (environmental_data current_health_data hour weekday))
    as (f & Hsplit & Hf).
  assert (Hbp : f <$> blood_pressure_features = replicate 4 (PNum 0.0)).
  { cbn [blood_pressure_features fmap list_fmap replicate].
    rewrite !Hf.
    rewrite !(blood_pressure_feature_zero health_history trends) by
      (first [done | unfold blood_pressure_features; elem_of_literal]).
    done. }
  split; [| split; [| split; [| split]]].
  - subst features. cbv beta. unfold feature_vector. by rewrite length_fmap.
  - reflexivity.
  - subst features. cbv beta. rewrite Hsplit, Hbp.
    rewrite drop_app_length' by (by rewrite length_fmap).
    by rewrite take_app_length' by done.
  - intros confidence Hc. subst features. cbv beta in Hc.
    assert (Hzero : (4 ≤ length (filter (λ f, py_eq_zero f = true)
                                   (feature_vector trends
                                      (behavioral_data current_health_data)
                                      (environmental_data current_health_data
                                         hour weekday))))%nat).
    { rewrite Hsplit, Hbp, !filter_app, !length_app.
      cbn [replicate]. rewrite !filter_cons_True by reflexivity.
      rewrite filter_nil. cbn [length]. lia. }
    destruct (confidence_upper_bound _ confidence 4 Hzero Hc) as (Hlo & _ & Hhi).
    split; [done |]. eapply Qle_trans; [exact Hhi |].
    apply Q.max_lub; unfold Qle; cbn; lia.
  - reflexivity.
Qed.

(** ** The risk predictor: its signal *)

Lemma predict_risk_inv risk_model importance hour weekday current history r :
  predict_risk true risk_model importance hour weekday current history = Ok r →
  ∃ features predicted confidence factors,
    risk_model features = Ok predicted
    ∧ _calculate_prediction_confidence features = Ok confidence
    ∧ _identify_risk_factors true importance features = Ok factors
    ∧ r = {| rr_overall_risk_score := Some (Qmax 0 (Qmin 1 predicted));
             rr_risk_level :=
               Some (RiskPredictor._determine_risk_level (Qmax 0 (Qmin 1 predicted)));
             rr_confidence := Some confidence;
             rr_time_predictions :=
               Some (RiskPredictor._calculate_time_predictions
                       (Qmax 0 (Qmin 1 predicted)));
             rr_key_risk_factors := Some factors;
             rr_recommendations :=
               Some (_generate_risk_recommendations (Qmax 0 (Qmin 1 predicted)));
             rr_other_keys := true |}.
Proof.
  unfold predict_risk. cbn [negb].
  destruct (match history with [] => _ | _ => _ end) as [trends |]; [| done].
  cbn [mbind result_bind]. cbv zeta.
  set (features := feature_vector _ _ _).
  destruct (risk_model features) as [predicted |] eqn:Hm; [| done].
  cbn [mbind result_bind].
  destruct (_calculate_prediction_confidence features) as [confidence |] eqn:Hc;
    [| done].
  cbn [mbind result_bind].
  destruct (_identify_risk_factors true importance features) as [factors |] eqn:Hf;
    [| done].
  cbn [mbind result_bind]. intros [= <-].
  by exists features, predicted, confidence, factors.
Qed.

Lemma clamp_bounds (x : Q) : (0 <= Qmax 0 (Qmin 1 x))%Q ∧ (Qmax 0 (Qmin 1 x) <= 1)%Q.
Proof.
  split; [apply Q.le_max_l |].
  apply Q.max_lub; [done | apply Q.le_min_l].
Qed.

Lemma Qgeb_mono (s1 s2 bound : Q) :
  (s1 <= s2)%Q → Qgeb s1 bound = true → Qgeb s2 bound = true.
Proof.
  rewrite !Qgeb_ge. intros Hle Hb. by apply (Qle_trans _ s1).
Qed.

Lemma determine_risk_level_mono (s1 s2 : Q) :
  (s1 <= s2)%Q →
  (risk_level_rank (RiskPredictor._determine_risk_level s1)
   ≤ risk_level_rank (RiskPredictor._determine_risk_level s2))%nat.
Proof.
  intros Hle. unfold RiskPredictor._determine_risk_level.
  pose proof (Qgeb_mono s1 s2 0.8 Hle) as H8.
  pose proof (Qgeb_mono s1 s2 0.6 Hle) as H6.
  pose proof (Qgeb_mono s1 s2 0.4 Hle) as H4.
  pose proof (Qgeb_mono s1 s2 0.2 Hle) as H2.
  destruct (Qgeb s1 0.8); [by rewrite H8 |].
  destruct (Qgeb s1 0.6);
    [rewrite H6 by done; destruct (Qgeb s2 0.8); vm_compute; lia |].
  destruct (Qgeb s1 0.4);
    [rewrite H4 by done; destruct (Qgeb s2 0.8), (Qgeb s2 0.6); vm_compute; lia |].
  destruct (Qgeb s1 0.2);
    [rewrite H2 by done;
     destruct (Qgeb s2 0.8), (Qgeb s2 0.6), (Qgeb s2 0.4); vm_compute; lia |].
  destruct (Qgeb s2 0.8), (Qgeb s2 0.6), (Qgeb s2 0.4), (Qgeb s2 0.2); vm_compute; lia.
Qed.

Lemma windowed_risk_at_least (score : Q) (window : Z) :
  (0 <= score)%Q → window ∈ RiskPredictor.prediction_windows →
  (Qmin 0.95 score <= RiskPredictor.windowed_risk score window)%Q
  ∧ (RiskPredictor.windowed_risk score window <= 0.95)%Q.
Proof.
  intros Hs Hw. unfold RiskPredictor.windowed_risk. split; [| apply Q.le_min_l].
  apply Q.min_le_compat_l.
  unfold RiskPredictor.prediction_windows in Hw.
  rewrite !elem_of_cons, elem_of_nil in Hw.
  assert (Hfactor : (1 <= RiskPredictor.time_factor window)%Q).
  { destruct Hw as [-> | [-> | [-> | [-> | []]]]]; vm_compute; discriminate. }
  apply Qle_trans with (1 * score)%Q; [rewrite Qmult_1_l; apply Qle_refl |].
  rewrite (Qmult_comm score). by apply Qmult_le_compat_r.
Qed.

Lemma windowed_level_at_least (score : Q) (window : Z) :
  (0 <= score)%Q → window ∈ RiskPredictor.prediction_windows →
  (risk_level_rank (RiskPredictor._determine_risk_level score)
   ≤ risk_level_rank
       (RiskPredictor._determine_risk_level
          (RiskPredictor.windowed_risk score window)))%nat.
Proof.
  intros Hs Hw. destruct (windowed_risk_at_least score window Hs Hw) as [Hlo _].
  destruct (Qlt_le_dec score 0.95) as [Hlt | Hge].
  - apply determine_risk_level_mono.
    eapply Qle_trans; [| exact Hlo]. apply Q.min_glb; [by apply Qlt_le_weak | lra].
  - assert (Hw8 : Qgeb (RiskPredictor.windowed_risk score window) 0.8 = true).
    { apply Qgeb_ge. eapply Qle_trans; [| exact Hlo]. apply Q.min_glb; lra. }
    unfold RiskPredictor._determine_risk_level at 2. rewrite Hw8.
    assert (Hs8 : Qgeb score 0.8 = true) by (apply Qgeb_ge; lra).
    unfold RiskPredictor._determine_risk_level. by rewrite Hs8.
Qed.

Lemma risk_recommendations_length (score : Q) :
  length (_generate_risk_recommendations score)
  = if bool_decide (RiskPredictor._determine_risk_level score = "minimal")
    then 4%nat else 5%nat.
Proof.
  unfold _generate_risk_recommendations, RiskPredictor._determine_risk_level.
  by repeat (destruct (Qgeb score _); [done |]).
Qed.

Lemma identify_risk_factors_length is_trained importance features factors :
  _identify_risk_factors is_trained importance features = Ok factors →
  (length factors ≤ 5)%nat.
Proof.
  unfold _identify_risk_factors. destruct is_trained; cbn [negb].
  - destruct (risk_factors_loop _ _ _) as [l |]; [| done].
    cbn [mbind result_bind]. intros [= <-]. unfold slice_to.
    cbn [Z.ltb Z.compare Z.to_nat Pos.to_nat Pos.iter_op Init.Nat.add].
    rewrite length_take. lia.
  - intros [= <-]. cbn [length]. lia.
Qed.

(** X23. A prediction of the risk predictor carries a score between 0
    and 1, the risk level of that score's band, and a confidence
    between 0.5 and 1. None of its four horizons has a score above
    0.95 or a risk level below the overall one. It has five
    recommendations, four when the level is minimal, and at most five
    key risk factors. *)
Theorem predict_risk_signal (risk_model : list pyval → result Q) (importance : list Q)
    (hour weekday : Z) (current_health_data : reading)
    (health_history : list reading) (r : risk_result) :
  predict_risk true risk_model importance hour weekday
    current_health_data health_history = Ok r →
  ∃ score risk_level confidence time_predictions key_risk_factors recommendations,
    rr_overall_risk_score r = Some score
    ∧ rr_risk_level r = Some risk_level
    ∧ rr_confidence r = Some confidence
    ∧ rr_time_predictions r = Some time_predictions
    ∧ rr_key_risk_factors r = Some key_risk_factors
    ∧ rr_recommendations r = Some recommendations
    ∧ (0 <= score)%Q ∧ (score <= 1)%Q
    ∧ in_band score risk_level
    ∧ (0.5 <= confidence)%Q ∧ (confidence <= 1)%Q
    ∧ Forall (λ p : string * window_prediction,
                (wp_risk_score p.2 <= 0.95)%Q
                ∧ (risk_level_rank risk_level
                   ≤ risk_level_rank (wp_risk_level p.2))%nat) time_predictions
    ∧ length recommendations
      = (if bool_decide (risk_level = "minimal") then 4%nat else 5%nat)
    ∧ (length key_risk_factors ≤ 5)%nat.
Proof.
  intros Hrun.
  destruct (predict_risk_inv _ _ _ _ _ _ _ Hrun)
    as (features & predicted & confidence & factors & _ & Hc & Hf & ->).
  destruct (clamp_bounds predicted) as [H0 H1].
  destruct (confidence_upper_bound features confidence 0 ltac:(lia) Hc) as (Hc0 & Hc1 & _).
  eexists _, _, _, _, _, _. repeat (split; [reflexivity |]).
  split; [exact H0 |]. split; [exact H1 |].
  split; [apply determine_risk_level_in_band |].
  split; [exact Hc0 |]. split; [exact Hc1 |].
  split; [| split].
  - unfold RiskPredictor._calculate_time_predictions. apply Forall_fmap.
    apply Forall_forall. intros window Hw. cbn [snd wp_risk_score wp_risk_level].
    split.
    + by apply windowed_risk_at_least.
    + by apply windowed_level_at_least.
  - apply risk_recommendations_length.
  - by eapply identify_risk_factors_length.
Qed.

(** ** The risk predictor: key risk factors *)

Lemma high_or_low_level x hi lo level :
  high_or_low x hi lo = Ok (Some level) → level ∈ ["high"; "low"].
Proof.
  unfold high_or_low. destruct (py_gt x hi) as [[] |]; cbn [mbind result_bind];
    [intros [= <-]; elem_of_literal | | done].
  destruct (py_lt x lo) as [[] |]; cbn [mbind result_bind]; [| done ..].
  intros [= <-]. elem_of_literal.
Qed.

Lemma is_concerning_value_Some feature_name value level :
  _is_concerning_value feature_name value = Ok (Some level) →
  feature_name ∈ concerning_features ∧ level ∈ ["high"; "low"].
Proof.
  unfold _is_concerning_value, concerning_features.
  repeat (case_bool_decide as Hn;
          [subst feature_name; intros H; split; [elem_of_literal |];
           first [by eapply high_or_low_level
                 | revert H;
                   match goal with
                   | |- context [mbind _ ?c] => destruct c as [[] |]
                   end; cbn [mbind result_bind]; intros [= <-]; elem_of_literal] |
           clear Hn]).
  done.
Qed.

Lemma zip_fst_sublist {A B} (l : list A) (k : list B) : (zip l k).*1 `sublist_of` l.
Proof.
  revert k. induction l as [| x l IH]; intros k; [done |].
  destruct k as [| y k]; cbn; [apply sublist_nil_l |]. by apply sublist_skip.
Qed.

Lemma risk_factors_loop_spec importance named :
  ∀ i factors,
    risk_factors_loop importance i named = Ok factors →
    Forall (λ f, (0.05 < rf_importance f)%Q
                 ∧ rf_importance f ∈ importance
                 ∧ rf_factor f ∈ concerning_features
                 ∧ rf_concern_level f ∈ ["high"; "low"]) factors
    ∧ (rf_factor <$> factors) `sublist_of` named.*1.
Proof.
  induction named as [| [feature_name feature_value] rest IH]; intros i factors Hrun.
  - cbn in Hrun. injection Hrun as <-. split; [constructor | done].
  - cbn [risk_factors_loop] in Hrun.
    destruct (importance !! i) as [imp |] eqn:Himp; [| done].
    destruct (risk_factors_loop importance (S i) rest) as [more |] eqn:Hmore.
    2:{ by destruct (if Qgtb imp 0.05 then _ else _). }
    destruct (IH _ _ Hmore) as [HP Hsub].
    assert (Hskip : Forall (λ f, (0.05 < rf_importance f)%Q
                                 ∧ rf_importance f ∈ importance
                                 ∧ rf_factor f ∈ concerning_features
                                 ∧ rf_concern_level f ∈ ["high"; "low"]) more
                    ∧ (rf_factor <$> more) `sublist_of` ((feature_name, feature_value) :: rest).*1).
    { split; [done |]. cbn [fmap list_fmap fst]. by apply sublist_cons. }
    destruct (Qgtb imp 0.05) eqn:Hgt.
    2:{ cbn [mbind result_bind app] in Hrun. by injection Hrun as <-. }
    destruct (_is_concerning_value feature_name feature_value) as [[level |] |] eqn:Hc;
      [| cbn [mbind result_bind app] in Hrun; by injection Hrun as <- | done].
    cbn [mbind result_bind] in Hrun.
    destruct (py_float feature_value) as [v |]; [| done].
    cbn [mbind result_bind app] in Hrun. injection Hrun as <-.
    destruct (is_concerning_value_Some _ _ _ Hc) as [Hname Hlevel].
    split.
    + constructor; [| done]. cbn [rf_importance rf_factor rf_concern_level].
      split; [by apply Qgtb_gt |]. split; [by eapply list_elem_of_lookup_2 |]. done.
    + cbn [fmap list_fmap fst rf_factor]. by apply sublist_skip.
Qed.

Lemma insert_by_importance_perm (x : risk_factor) (sorted : list risk_factor) :
  insert_by_importance x sorted ≡ₚ x :: sorted.
Proof.
  induction sorted as [| y rest IH]; [done |]. cbn [insert_by_importance].
  destruct (Qltb (rf_importance x) (rf_importance y)); [| done].
  rewrite IH. apply Permutation_swap.
Qed.

Lemma sort_by_importance_perm (l : list risk_factor) : sort_by_importance l ≡ₚ l.
Proof.
  induction l as [| x l IH]; [done |]. unfold sort_by_importance in *.
  cbn [foldr]. by rewrite insert_by_importance_perm, IH.
Qed.

Lemma insert_by_importance_sorted (x : risk_factor) (sorted : list risk_factor) :
  StronglySorted by_importance sorted →
  StronglySorted by_importance (insert_by_importance x sorted).
Proof.
  induction 1 as [| y rest Hrest IH Hy]; [repeat constructor |].
  cbn [insert_by_importance].
  destruct (Qltb (rf_importance x) (rf_importance y)) eqn:Hlt.
  - constructor; [done |]. rewrite insert_by_importance_perm.
    constructor; [| done]. apply Qltb_lt in Hlt. by apply Qlt_le_weak.
  - apply Qltb_ge in Hlt. constructor; [by constructor |].
    constructor; [done |]. eapply Forall_impl; [exact Hy |].
    intros z Hz. unfold by_importance in *. by apply (Qle_trans _ (rf_importance y)).
Qed.

Lemma sort_by_importance_sorted (l : list risk_factor) :
  StronglySorted by_importance (sort_by_importance l).
Proof.
  induction l as [| x l IH]; [constructor |]. by apply insert_by_importance_sorted.
Qed.

Lemma StronglySorted_take {A} (R : A → A → Prop) (n : nat) (l : list A) :
  StronglySorted R l → StronglySorted R (take n l).
Proof.
  intros H. rewrite <- (take_drop n l) in H.
  by apply StronglySorted_app_1_l in H.
Qed.

(** X24. The key risk factors of a prediction are at most five, ordered
    from the most to the least important, with no feature named twice.
    Each of them names one of the seven features that have a concern
    threshold, with an importance of the model above 0.05 and the
    concern level high or low. *)
Theorem risk_factors_ranked (importance : list Q) (features : list pyval)
    (key_risk_factors : list risk_factor) :
  _identify_risk_factors true importance features = Ok key_risk_factors →
  (length key_risk_factors ≤ 5)%nat
  ∧ StronglySorted by_importance key_risk_factors
  ∧ NoDup (rf_factor <$> key_risk_factors)
  ∧ Forall (λ f, (0.05 < rf_importance f)%Q
                 ∧ rf_importance f ∈ importance
                 ∧ rf_factor f ∈ concerning_features
                 ∧ rf_concern_level f ∈ ["high"; "low"]) key_risk_factors.
Proof.
  intros Hrun. split; [by eapply identify_risk_factors_length |].
  revert Hrun. unfold _identify_risk_factors. cbn [negb].
  destruct (risk_factors_loop importance 0 (zip all_features features))
    as [l |] eqn:Hloop; [| done].
  cbn [mbind result_bind]. intros [= <-].
  unfold slice_to. cbn [Z.ltb Z.compare Z.to_nat Pos.to_nat Pos.iter_op Init.Nat.add].
  destruct (risk_factors_loop_spec _ _ _ _ Hloop) as [HP Hsub].
  split; [| split].
  - apply StronglySorted_take, sort_by_importance_sorted.
  - rewrite fmap_take. eapply sublist_NoDup; [| apply sublist_take].
    rewrite sort_by_importance_perm.
    eapply sublist_NoDup; [| exact Hsub].
    eapply sublist_NoDup; [| apply zip_fst_sublist].
    apply (bool_decide_unpack _). vm_compute. exact I.
  - apply Forall_take. by rewrite sort_by_importance_perm.
Qed.

(** ** The risk predictor in the fusion *)

Lemma predictor_rule_status alerts anomaly emergency (r : risk_result)
    (score : Q) (risk_level : string) (confidence : Q) :
  critical_alerts alerts = [] →
  classification_silent emergency →
  anomaly_silent anomaly →
  rr_overall_risk_score r = Some score →
  rr_risk_level r = Some risk_level →
  rr_confidence r = Some confidence →
  _determine_overall_status alerts anomaly emergency (Some r)
  = if Qgtb score 0.6
    then mk_status "caution" risk_level confidence
           (Some "Elevated risk for future health events")
           ("Increased health risk detected - level: " +:+ risk_level)
    else normal_status.
Proof.
  intros Hal He Ha Hs Hl Hc. unfold _determine_overall_status.
  rewrite (rule_alerts_none _ Hal), (classification_silent_rule _ He),
    (anomaly_silent_rule _ Ha).
  unfold rule_risk, truthy, risk_truthy. rewrite Hs, Hl, Hc.
  rewrite (bool_decide_eq_true_2 (is_Some (Some score))) by (by eexists).
  cbn [orb]. cbv zeta. rewrite Hs, Hl, Hc. cbn [default id].
  by destruct (Qgtb score 0.6).
Qed.

(** X25. With no critical alert and silent classification and anomaly
    signals, a prediction of the risk predictor turns the verdict into
    a caution exactly when its score is above 0.6. The severity of
    that caution is high, or critical from a score of 0.8 on, so the
    analysis asks for an emergency response. With a score of at most
    0.6 the verdict is the normal one and no emergency response is
    asked for. *)
Theorem predictor_caution_asks_response (health_data : reading) (alerts : list alert)
    (anomaly : option anomaly_result) (emergency : option emergency_result)
    (risk_model : list pyval → result Q) (importance : list Q) (hour weekday : Z)
    (current_health_data : reading) (health_history : list reading)
    (r : risk_result) :
  critical_alerts alerts = [] →
  classification_silent emergency →
  anomaly_silent anomaly →
  predict_risk true risk_model importance hour weekday
    current_health_data health_history = Ok r →
  ∃ score,
    rr_overall_risk_score r = Some score
    ∧ let a := _combine_analysis_results health_data alerts anomaly emergency (Some r) in
      (st_level (an_overall_status a) = "caution" ↔ (0.6 < score)%Q)
      ∧ ((0.6 < score)%Q →
         st_severity (an_overall_status a)
         = (if Qgeb score 0.8 then "critical" else "high")
         ∧ an_requires_emergency_response a = true)
      ∧ ((score <= 0.6)%Q →
         an_overall_status a = normal_status
         ∧ an_requires_emergency_response a = false).
Proof.
  intros Hal He Ha Hrun.
  destruct (predict_risk_inv _ _ _ _ _ _ _ Hrun)
    as (features & predicted & confidence & factors & _ & _ & _ & ->).
  set (score := Qmax 0 (Qmin 1 predicted)).
  exists score. split; [reflexivity |].
  cbv zeta. cbn [_combine_analysis_results an_overall_status an_requires_emergency_response].
  erewrite (predictor_rule_status alerts anomaly emergency _ score
              (RiskPredictor._determine_risk_level score) confidence);
    [| done | done | done | reflexivity | reflexivity | reflexivity].
  destruct (Qgtb score 0.6) eqn:Hgt.
  - apply Qgtb_gt in Hgt. cbn [st_level st_severity].
    assert (Hlevel : RiskPredictor._determine_risk_level score
                     = if Qgeb score 0.8 then "critical" else "high").
    { unfold RiskPredictor._determine_risk_level.
      destruct (Qgeb score 0.8); [done |].
      by rewrite (proj2 (Qgeb_ge score 0.6) (Qlt_le_weak _ _ Hgt)). }
    rewrite Hlevel.
    split; [done |]. split.
    + intros _. split; [done |]. by destruct (Qgeb score 0.8).
    + intros Hle. exfalso. by apply (Qlt_not_le _ _ Hgt).
  - apply Qltb_ge in Hgt. split; [| split].
    + split; [done |]. intros Hlt. exfalso. by apply (Qlt_not_le _ _ Hlt).
    + intros Hlt. exfalso. by apply (Qlt_not_le _ _ Hlt).
    + done.
Qed.

(** ** The service *)

Lemma analyze_health_data_history (device_id : string) (health_data : reading)
    (w : world) :
  ∃ a w',
    analyze_health_data device_id health_data w = (Ok a, w')
    ∧ ∀ d, history_of w' d
           = if bool_decide (device_id = d)
             then append_capped (history_of w device_id)
                    (timestamped health_data (isoformat (wall (S (w_clock_reads w)))))
             else history_of w d.
Proof.
  rewrite analyze_health_data_unfold.
  destruct (analyze_body _ device_id health_data _) as [res w1] eqn:E.
  pose proof (analyze_body_monitor _ _ _ _ _ _ E) as Hm.
  rewrite store_health_data_run in Hm. cbn [snd w_monitor w_clock_reads] in Hm.
  assert (Hh : ∀ d (w2 : world), w_monitor w2 = w_monitor w1 →
               history_of w2 d
               = if bool_decide (device_id = d)
                 then append_capped (history_of w device_id)
                        (timestamped health_data (isoformat (wall (S (w_clock_reads w)))))
                 else history_of w d).
  { intros d w2 Hw2. unfold history_of. rewrite Hw2, Hm. cbn [health_history].
    apply store_in_history_lookup. }
  destruct res as [a | e].
  - exists a, w1. split; [done |]. intros d. by apply Hh.
  - rewrite create_error_response_run. eexists _, _. split; [done |].
    intros d. by apply Hh.
Qed.

Lemma analysis_get_emergency_detected (a : analysis) :
  analysis_get "emergency_detected" a = None.
Proof. reflexivity. Qed.

Lemma analyze_route_valid (patient_id : string) (health_data : reading) (s : service) :
  ∃ a w',
    analyze_health_data patient_id health_data (after_clock_read (svc_world s))
    = (Ok a, w')
    ∧ analyze_route (Some (mk_request_json (Some patient_id) (Some health_data))) s
      = (mk_response 200
           (AnalysisBody patient_id a (isoformat (wall (w_clock_reads w')))),
         mk_service
           (store_recent patient_id health_data
              (isoformat (wall (w_clock_reads (svc_world s)))) (recent_health_data s))
           (emergency_alerts s)
           (after_clock_read w')).
Proof.
  destruct (analyze_health_data_history patient_id health_data
              (after_clock_read (svc_world s))) as (a & w' & Hrun & _).
  exists a, w'. split; [exact Hrun |].
  unfold analyze_route, route_try. cbn [rq_patientId rq_healthData].
  unfold mbind, SM_bind, lift_monitor, now, get_recent, set_recent.
  cbn [svc_world recent_health_data emergency_alerts w_monitor w_clock_reads].
  fold (after_clock_read (svc_world s)). rewrite Hrun.
  rewrite analysis_get_emergency_detected.
  cbn [default pyobj_truthy mret SM_ret svc_world recent_health_data emergency_alerts
         w_monitor w_clock_reads].
  reflexivity.
Qed.

Lemma analyze_route_invalid (data : option request_json) (s : service) :
  request_fields data = None →
  analyze_route data s
  = (mk_response 400 (ErrorBody "Missing required fields" None), s).
Proof.
  unfold request_fields, analyze_route, route_try.
  destruct data as [[[patient_id |] [health_data |]] |]; cbn; done.
Qed.


(** ** The two stores of the service *)

Lemma fmap_append_capped {A B} (f : A → B) (l : list A) (x : A) :
  f <$> append_capped l x = append_capped (f <$> l) (f x).
Proof.
  unfold append_capped. cbv zeta.
  rewrite !length_app, !length_fmap. cbn [length].
  destruct (100 <? length l + 1)%nat.
  - unfold slice_from. cbn [Z.ltb Z.compare].
    by rewrite fmap_drop, fmap_app, !length_app, !length_fmap.
  - by rewrite fmap_app.
Qed.

Lemma without_timestamp_timestamped (health_data : reading) (ts : string) :
  without_timestamp (timestamped health_data ts) = without_timestamp health_data.
Proof. unfold without_timestamp, timestamped. apply delete_insert_eq. Qed.

Lemma without_timestamp_timestamped_first (health_data : reading) (ts : string) :
  without_timestamp (timestamped_first health_data ts) = without_timestamp health_data.
Proof.
  unfold without_timestamp, timestamped_first.
  destruct (health_data !! "timestamp"); [done | apply delete_insert_eq].
Qed.

Lemma append_most_recent {A} (L : list A) (x : A) :
  append_capped (most_recent 100 L) x = most_recent 100 (L ++ [x]).
Proof.
  rewrite append_capped_most_recent by (rewrite most_recent_length; lia).
  apply most_recent_snoc.
Qed.

Lemma posted_cons (patient_id : string) (data : option request_json)
    (requests : list (option request_json)) :
  posted patient_id (data :: requests)
  = match request_fields data with
    | Some (p, health_data) =>
        if bool_decide (p = patient_id) then [health_data] else []
    | None => []
    end ++ posted patient_id requests.
Proof.
  unfold posted. cbn [omap list_omap].
  destruct (request_fields data) as [[p health_data] |]; [| done].
  by case_bool_decide.
Qed.

Lemma analyze_route_stores (data : option request_json) (s : service)
    (patient_id : string) :
  let s' := (analyze_route data s).2 in
  let new :=
    match request_fields data with
    | Some (p, health_data) =>
        if bool_decide (p = patient_id) then [health_data] else []
    | None => []
    end in
  ∃ ts1 ts2,
    recent_of s' patient_id
    = match new with
      | health_data :: _ =>
          append_capped (recent_of s patient_id) (timestamped_first health_data ts1)
      | [] => recent_of s patient_id
      end
    ∧ history_of (svc_world s') patient_id
      = match new with
        | health_data :: _ =>
            append_capped (history_of (svc_world s) patient_id)
              (timestamped health_data ts2)
        | [] => history_of (svc_world s) patient_id
        end.
Proof.
  cbv zeta. destruct (request_fields data) as [[p health_data] |] eqn:Hf.
  - assert (Hdata : data = Some (mk_request_json (Some p) (Some health_data))).
    { revert Hf. unfold request_fields.
      destruct data as [[[p' |] [hd |]] |]; cbn; intros [=]; by subst. }
    rewrite Hdata.
    destruct (analyze_route_valid p health_data s) as (a & w' & Hrun & ->).
    destruct (analyze_health_data_history p health_data (after_clock_read (svc_world s)))
      as (a' & w'' & Hrun' & Hhist).
    rewrite Hrun in Hrun'. injection Hrun' as <- <-.
    cbn [snd svc_world]. unfold recent_of. cbn [recent_health_data].
    rewrite store_recent_lookup.
    change (history_of (after_clock_read w') patient_id) with (history_of w' patient_id).
    rewrite Hhist.
    change (history_of (after_clock_read (svc_world s)) p)
      with (history_of (svc_world s) p).
    change (history_of (after_clock_read (svc_world s)) patient_id)
      with (history_of (svc_world s) patient_id).
    eexists _, _. case_bool_decide as Hp; [subst p |]; split; reflexivity.
  - rewrite analyze_route_invalid by done. by exists "", "".
Qed.

Lemma post_all_stores (requests : list (option request_json)) :
  ∀ (s : service) (L : string → list reading),
    (∀ p, without_timestamp <$> recent_of s p = most_recent 100 (L p)) →
    (∀ p, without_timestamp <$> history_of (svc_world s) p = most_recent 100 (L p)) →
    ∀ p,
      without_timestamp <$> recent_of (post_all requests s) p
      = most_recent 100 (L p ++ (without_timestamp <$> posted p requests))
      ∧ without_timestamp <$> history_of (svc_world (post_all requests s)) p
        = most_recent 100 (L p ++ (without_timestamp <$> posted p requests)).
Proof.
  induction requests as [| data requests IH]; intros s L Hrecent Hhistory p.
  - cbn. rewrite app_nil_r. by split.
  - unfold post_all in *. cbn [fold_left].
    set (L' := λ q, L q ++ (without_timestamp <$>
                   match request_fields data with
                   | Some (p0, health_data) =>
                       if bool_decide (p0 = q) then [health_data] else []
                   | None => []
                   end)).
    assert (Hstep : ∀ q,
              without_timestamp <$> recent_of (analyze_route data s).2 q
              = most_recent 100 (L' q)
              ∧ without_timestamp <$> history_of (svc_world (analyze_route data s).2) q
                = most_recent 100 (L' q)).
    { intros q. destruct (analyze_route_stores data s q) as (ts1 & ts2 & Hr & Hh).
      cbv zeta in Hr, Hh. rewrite Hr, Hh. subst L'. cbv beta.
      destruct (request_fields data) as [[p0 health_data] |];
        [case_bool_decide |].
      - rewrite !fmap_append_capped, without_timestamp_timestamped_first,
          without_timestamp_timestamped, Hrecent, Hhistory, !append_most_recent.
        by split.
      - cbn [fmap list_fmap]. rewrite app_nil_r. by split.
      - cbn [fmap list_fmap]. rewrite app_nil_r. by split. }
    destruct (IH (analyze_route data s).2 L' (λ q, proj1 (Hstep q))
                (λ q, proj2 (Hstep q)) p) as [Hr Hh].
    rewrite Hr, Hh. subst L'. cbv beta.
    rewrite posted_cons, fmap_app, <- app_assoc. by split.
Qed.

Lemma post_all_alerts (requests : list (option request_json)) :
  ∀ s, emergency_alerts (post_all requests s) = emergency_alerts s.
Proof.
  induction requests as [| data requests IH]; intros s; [done |].
  unfold post_all in *. cbn [fold_left]. rewrite IH.
  destruct (request_fields data) as [[p health_data] |] eqn:Hf.
  - assert (Hdata : data = Some (mk_request_json (Some p) (Some health_data))).
    { revert Hf. unfold request_fields.
      destruct data as [[[p' |] [hd |]] |]; cbn; intros [=]; by subst. }
    rewrite Hdata.
    by destruct (analyze_route_valid p health_data s) as (a & w' & _ & ->).
  - by rewrite analyze_route_invalid.
Qed.

Lemma initial_service_stores (monitor : HealthMonitor)
    (requests : list (option request_json)) (patient_id : string) :
  health_history monitor = ∅ →
  let s := post_all requests (initial_service monitor) in
  without_timestamp <$> recent_of s patient_id
  = most_recent 100 (without_timestamp <$> posted patient_id requests)
  ∧ without_timestamp <$> history_of (svc_world s) patient_id
    = most_recent 100 (without_timestamp <$> posted patient_id requests).
Proof.
  intros Hempty s. subst s.
  apply (post_all_stores requests (initial_service monitor) (λ _, [])).
  - intros p. unfold recent_of, initial_service. cbn [recent_health_data].
    by rewrite lookup_empty.
  - intros p. unfold history_of, initial_service. cbn [svc_world w_monitor].
    by rewrite Hempty, lookup_empty.
Qed.

Lemma recent_of_length (monitor : HealthMonitor)
    (requests : list (option request_json)) (patient_id : string) :
  health_history monitor = ∅ →
  length (recent_of (post_all requests (initial_service monitor)) patient_id)
  = Nat.min 100 (length (posted patient_id requests)).
Proof.
  intros Hempty.
  destruct (initial_service_stores monitor requests patient_id Hempty) as [Hr _].
  cbv zeta in Hr. apply (f_equal length) in Hr.
  by rewrite length_fmap, most_recent_length, length_fmap in Hr.
Qed.

(** X27. After any run of posts to [/analyze/health-data] on a fresh
    service, the recent readings that the service keeps for a patient
    and the history that the monitor keeps for the same patient hold
    the same readings up to their timestamps: the last 100 readings
    posted for the patient, in the order of the posts. The list of
    emergency alerts is still empty. *)
Theorem service_stores_agree (monitor : HealthMonitor)
    (requests : list (option request_json)) (patient_id : string) :
  health_history monitor = ∅ →
  let s := post_all requests (initial_service monitor) in
  without_timestamp <$> recent_of s patient_id
  = most_recent 100 (without_timestamp <$> posted patient_id requests)
  ∧ without_timestamp <$> history_of (svc_world s) patient_id
    = most_recent 100 (without_timestamp <$> posted patient_id requests)
  ∧ length (recent_of s patient_id)
    = Nat.min 100 (length (posted patient_id requests))
  ∧ emergency_alerts s = [].
Proof.
  intros Hempty s.
  destruct (initial_service_stores monitor requests patient_id Hempty) as [Hr Hh].
  split; [exact Hr |]. split; [exact Hh |]. split.
  - by apply recent_of_length.
  - subst s. by rewrite post_all_alerts.
Qed.

Lemma analyze_health_trends_total (patient_data : list reading) (w : world) :
  ∃ rep w', analyze_health_trends patient_data w = (Ok rep, w').
Proof.
  unfold analyze_health_trends, try_except.
  destruct (analyze_trends_body patient_data w) as [[rep | e] w1]; by eexists _, _.
Qed.

Lemma predict_risk_route_run (patient_id : string) (s : service) :
  patient_id ≠ "" →
  predict_risk_route (Some (mk_request_json (Some patient_id) None)) s
  = if (length (recent_of s patient_id) <? 5)%nat
    then (mk_response 400
            (InsufficientBody "Insufficient data for risk prediction"
               "Need at least 5 health readings"), s)
    else (mk_response 200
            (RiskBody patient_id (predict_health_risks (recent_of s patient_id))
               (isoformat (wall (w_clock_reads (svc_world s))))
               (length (recent_of s patient_id))),
          mk_service (recent_health_data s) (emergency_alerts s)
            (after_clock_read (svc_world s))).
Proof.
  intros Hid. unfold predict_risk_route, route_try, recent_of.
  cbn [rq_patientId default id]. rewrite bool_decide_eq_false_2 by done.
  unfold mbind, SM_bind, get_recent.
  by destruct (length (default [] (recent_health_data s !! patient_id)) <? 5)%nat.
Qed.

Lemma get_health_trends_route_run (patient_id : string) (s : service) :
  ∃ trends w',
    analyze_health_trends (recent_of s patient_id) (svc_world s) = (Ok trends, w')
    ∧ get_health_trends_route patient_id s
      = if (length (recent_of s patient_id) <? 10)%nat
        then (mk_response 400
                (InsufficientBody "Insufficient data for trend analysis"
                   "Need at least 10 health readings"), s)
        else (mk_response 200
                (TrendsBody patient_id trends (length (recent_of s patient_id))
                   (isoformat (wall (w_clock_reads w')))),
              mk_service (recent_health_data s) (emergency_alerts s)
                (after_clock_read w')).
Proof.
  destruct (analyze_health_trends_total (recent_of s patient_id) (svc_world s))
    as (trends & w' & Hrun).
  exists trends, w'. split; [exact Hrun |].
  unfold get_health_trends_route, route_try.
  unfold mbind, SM_bind, get_recent. fold (recent_of s patient_id).
  destruct (length (recent_of s patient_id) <? 10)%nat; [done |].
  unfold lift_monitor. by rewrite Hrun.
Qed.

(** X28. On a fresh service, after any run of posts to
    [/analyze/health-data], the route [/predict/risk] answers a request
    for a patient with 400 and leaves the service unchanged as long as
    fewer than five readings were posted for that patient, and from
    five on with 200, the prediction of the monitor over the recent
    readings and their number (at most 100). The trends route does the
    same with ten readings. A request without body is answered with
    500 by the risk route. *)
Theorem risk_route_after_posts (monitor : HealthMonitor)
    (requests : list (option request_json)) (patient_id : string) :
  health_history monitor = ∅ →
  patient_id ≠ "" →
  let s := post_all requests (initial_service monitor) in
  let n := length (posted patient_id requests) in
  let data := Some (mk_request_json (Some patient_id) None) in
  ((n < 5)%nat →
   predict_risk_route data s
   = (mk_response 400
        (InsufficientBody "Insufficient data for risk prediction"
           "Need at least 5 health readings"), s))
  ∧ ((5 ≤ n)%nat →
     (predict_risk_route data s).1
     = mk_response 200
         (RiskBody patient_id (predict_health_risks (recent_of s patient_id))
            (isoformat (wall (w_clock_reads (svc_world s)))) (Nat.min 100 n))
     ∧ recent_health_data (predict_risk_route data s).2 = recent_health_data s)
  ∧ ((n < 10)%nat →
     get_health_trends_route patient_id s
     = (mk_response 400
          (InsufficientBody "Insufficient data for trend analysis"
             "Need at least 10 health readings"), s))
  ∧ ((10 ≤ n)%nat →
     ∃ trends ts,
       (get_health_trends_route patient_id s).1
       = mk_response 200 (TrendsBody patient_id trends (Nat.min 100 n) ts))
  ∧ predict_risk_route None s
    = (mk_response 500
         (ErrorBody "Risk prediction failed"
            (Some "'NoneType' object has no attribute 'get'")), s).
Proof.
  intros Hempty Hid s n data.
  pose proof (recent_of_length monitor requests patient_id Hempty) as Hlen.
  fold s in Hlen. fold n in Hlen. subst data.
  rewrite (predict_risk_route_run patient_id s Hid).
  destruct (get_health_trends_route_run patient_id s) as (trends & w' & _ & ->).
  rewrite Hlen.
  split; [| split; [| split; [| split]]].
  - intros Hn. by destruct (Nat.ltb_spec (Nat.min 100 n) 5) as [_ | Hge]; [| lia].
  - intros Hn. by destruct (Nat.ltb_spec (Nat.min 100 n) 5) as [Hlt | _]; [lia |].
  - intros Hn. by destruct (Nat.ltb_spec (Nat.min 100 n) 10) as [_ | Hge]; [| lia].
  - intros Hn. destruct (Nat.ltb_spec (Nat.min 100 n) 10) as [Hlt | _]; [lia |].
    by eexists _, _.
  - reflexivity.
Qed.

End Monitor.

(** * The properties on sample inputs *)

Lemma critical_alert_short_circuits_witness :
  critical_alerts [low_heart_rate_alert] = [low_heart_rate_alert]
  ∧ (let s := _determine_overall_status sample_fmt [low_heart_rate_alert] None
                (Some (EmergencyClassifier.emergency_dict cardiac_arrest_output)) None in
     st_level s = "emergency"
     ∧ st_severity s = "critical"
     ∧ st_confidence s = 0.95%Q
     ∧ st_primary_concern s = Some "heart_rate critically low: 35").
Proof.
  split; [reflexivity |].
  apply (critical_alert_short_circuits sample_fmt [low_heart_rate_alert] None
           (Some (EmergencyClassifier.emergency_dict cardiac_arrest_output)) None
           low_heart_rate_alert []).
  reflexivity.
Defined.



Lemma analysis_failure_contained_witness :
  ∃ e w1,
    analyze_body sample_fmt sample_fmt sample_isoformat sample_wall (sample_wall 0)
      "dev-1" text_reading (mk_world plain_monitor 1) = (Raise e, w1)
    ∧ ∃ a w',
        analyze_health_data sample_fmt sample_fmt sample_isoformat sample_wall
          "dev-1" text_reading (mk_world plain_monitor 0) = (Ok a, w')
        ∧ st_level (an_overall_status a) = "error"
        ∧ st_confidence (an_overall_status a) = 0.0%Q
        ∧ st_primary_concern (an_overall_status a) = Some "Analysis failed"
        ∧ st_summary (an_overall_status a) = "Health analysis error: " +:+ exn_str e
        ∧ an_error a = Some (exn_str e)
        ∧ an_analysis_timestamp a = Some (sample_isoformat (sample_wall (w_clock_reads w1))).
Proof.
  eexists _, _. split; [vm_compute; reflexivity |].
  destruct (analysis_failure_contained sample_fmt sample_fmt sample_isoformat sample_wall
              "dev-1" text_reading (mk_world plain_monitor 0)) as (a & w' & Hrun & Herr).
  exists a, w'. split; [exact Hrun |].
  apply Herr. vm_compute. reflexivity.
Defined.

Lemma insufficient_data_is_a_result_witness :
  (length (replicate 4 calm_reading) < 5)%nat
  ∧ rs_overall_risk (predict_health_risks (replicate 4 calm_reading)) = "insufficient_data"
  ∧ (5 ≤ length (replicate 5 calm_reading))%nat
  ∧ Forall numeric_vitals (replicate 5 calm_reading)
  ∧ rs_overall_risk (predict_health_risks (replicate 5 calm_reading))
      ∈ ["high"; "medium"; "low"; "minimal"]
  ∧ (length (replicate 9 calm_reading) < 10)%nat
  ∧ analyze_health_trends sample_isoformat sample_wall (λ q, q)
      (replicate 9 calm_reading) (mk_world plain_monitor 0)
    = (Ok insufficient_trend, mk_world plain_monitor 0).
Proof.
  pose proof (insufficient_data_is_a_result sample_isoformat sample_wall (λ q, q))
    as (Hshort & Hlong & Htrend & _).
  assert (H4 : (length (replicate 4 calm_reading) < 5)%nat) by (cbn; lia).
  assert (H5 : (5 ≤ length (replicate 5 calm_reading))%nat) by (cbn; lia).
  assert (H9 : (length (replicate 9 calm_reading) < 10)%nat) by (cbn; lia).
  assert (Hnum : Forall numeric_vitals (replicate 5 calm_reading)).
  { apply Forall_replicate. repeat split. }
  split; [exact H4 |]. split; [exact (proj1 (proj2 (Hshort _ H4))) |].
  split; [exact H5 |]. split; [exact Hnum |].
  split; [exact (proj1 (proj2 (Hlong _ H5) Hnum)) |].
  split; [exact H9 |]. exact (Htrend _ _ H9).
Defined.

Lemma threshold_alerts_exact_witness :
  ∃ alerts,
    _check_immediate_alerts sample_fmt scenario_reading = Ok alerts
    ∧ al_vital_sign <$> alerts = ["heart_rate"; "temperature"; "spo2"]
    ∧ Forall (λ a, al_severity a = "critical") alerts.
Proof.
  eexists. split; [apply scenario_alerts |].
  apply (proj1 (threshold_alerts_exact sample_fmt sample_fmt) scenario_reading).
  apply scenario_alerts.
Defined.

(** The scenario reading does not yield two alerts, whatever the
    rendering of numbers: it yields three. *)
Lemma scenario_alerts_not_two :
  ¬ ∃ (fmt_num : Q → string) (alerts : list alert),
      (_check_immediate_alerts fmt_num scenario_reading = Ok alerts
       ∨ check_alerts_loop fmt_num scenario_thresholds scenario_reading [] = Ok alerts)
      ∧ length alerts = 2%nat.
Proof.
  intros (fmt_num & alerts & [Hrun | Hrun] & Hlen).
  - rewrite scenario_alerts in Hrun. injection Hrun as <-. discriminate Hlen.
  - rewrite scenario_alerts_three_bounds, scenario_alerts in Hrun.
    injection Hrun as <-. discriminate Hlen.
Qed.

Lemma emergency_level_is_critical_witness :
  st_level (_determine_overall_status sample_fmt [low_heart_rate_alert] None None None)
  = "emergency"
  ∧ st_severity (_determine_overall_status sample_fmt [low_heart_rate_alert] None None None)
    = "critical"
  ∧ an_requires_emergency_response
      (_combine_analysis_results sample_fmt fast_reading [low_heart_rate_alert]
         None None None) = true.
Proof.
  split; [reflexivity |].
  apply (emergency_level_is_critical sample_fmt fast_reading [low_heart_rate_alert]
           None None None).
  reflexivity.
Defined.

Lemma anomaly_rule_witness :
  critical_alerts [] = []
  ∧ classification_silent None
  ∧ ar_is_anomaly flagged_anomaly = Some true
  ∧ ar_risk_level flagged_anomaly = Some "high"
  ∧ st_level (_determine_overall_status sample_fmt [] (Some flagged_anomaly) None
                (Some elevated_risk)) = "warning".
Proof.
  split; [reflexivity |]. split; [exact I |]. split; [reflexivity |].
  split; [reflexivity |].
  apply (anomaly_rule sample_fmt [] None (Some elevated_risk) flagged_anomaly "high");
    [reflexivity | exact I | reflexivity | reflexivity | left; reflexivity].
Defined.

Lemma risk_rule_or_normal_witness :
  critical_alerts [] = []
  ∧ classification_silent None
  ∧ anomaly_silent None
  ∧ rr_overall_risk_score elevated_risk = Some 0.65%Q
  ∧ (0.6 < 0.65)%Q
  ∧ st_level (_determine_overall_status sample_fmt [] None None (Some elevated_risk))
    = "caution".
Proof.
  split; [reflexivity |]. split; [exact I |]. split; [exact I |].
  split; [reflexivity |]. split; [reflexivity |].
  apply (proj1 (risk_rule_or_normal sample_fmt [] None None eq_refl I I)
           elevated_risk 0.65%Q eq_refl).
  reflexivity.
Defined.

Lemma analyze_without_models_witness :
  enable_ai_models (w_monitor (mk_world plain_monitor 0)) = false
  ∧ _check_immediate_alerts sample_fmt fast_reading = Ok []
  ∧ ∃ a w',
      analyze_health_data sample_fmt sample_fmt sample_isoformat sample_wall
        "dev-1" fast_reading (mk_world plain_monitor 0) = (Ok a, w')
      ∧ an_error a = None
      ∧ st_level (an_overall_status a) = "normal"
      ∧ an_recommendations a = [].
Proof.
  split; [reflexivity |]. split; [reflexivity |].
  destruct (analyze_without_models sample_fmt sample_fmt sample_isoformat sample_wall
              "dev-1" fast_reading (mk_world plain_monitor 0) [] eq_refl eq_refl)
    as (a & w' & Hrun & Herr & _ & _ & Hlevel & Hrecs & _).
  exists a, w'. split; [exact Hrun |]. split; [exact Herr |].
  split; [exact Hlevel | exact Hrecs].
Defined.

Lemma simulation_verdict_witness :
  get_num "heart_rate" 70 fast_reading = PNum 120
  ∧ get_num "temperature" 36.8 fast_reading = PNum 37.0
  ∧ get_num "spo2" 98 fast_reading = PNum 97
  ∧ _check_immediate_alerts sample_fmt fast_reading = Ok []
  ∧ concerning 120 37.0 97 = true
  ∧ ∃ sa w',
      simulation_analyze_health_data sample_fmt sample_fmt sample_isoformat
        sample_wall "dev-1" fast_reading (mk_world plain_monitor 0) = (Ok sa, w')
      ∧ st_level (an_overall_status (sa_analysis sa)) = "warning"
      ∧ an_requires_emergency_response (sa_analysis sa) = true.
Proof.
  split; [reflexivity |]. split; [reflexivity |]. split; [reflexivity |].
  split; [reflexivity |]. split; [reflexivity |].
  destruct (simulation_verdict sample_fmt sample_fmt sample_isoformat sample_wall
              "dev-1" fast_reading (mk_world plain_monitor 0) [] 120 37.0 97
              eq_refl eq_refl eq_refl eq_refl)
    as (sa & w' & Hrun & _ & _ & _ & _ & Hcalm).
  exists sa, w'. split; [exact Hrun |].
  specialize (Hcalm eq_refl).
  change (concerning 120 37.0 97) with true in Hcalm.
  destruct Hcalm as (Hl & _ & _ & Hflag & _). split; [exact Hl | exact Hflag].
Defined.

Lemma simulation_propagates_witness :
  _check_immediate_alerts sample_fmt text_reading
  = Raise (TypeError "'<' not supported between instances of 'str' and 'int'")
  ∧ ∃ w',
      simulation_analyze_health_data sample_fmt sample_fmt sample_isoformat
        sample_wall "dev-1" text_reading (mk_world plain_monitor 0)
      = (Raise (TypeError "'<' not supported between instances of 'str' and 'int'"), w')
      ∧ length (history_of w' "dev-1") = 1%nat.
Proof.
  split; [reflexivity |].
  destruct (simulation_propagates sample_fmt sample_fmt sample_isoformat sample_wall
              "dev-1" text_reading (mk_world plain_monitor 0) _ eq_refl)
    as (w' & Hrun & Hhist).
  exists w'. split; [exact Hrun |]. rewrite Hhist. reflexivity.
Defined.

Lemma risk_prediction_last_ten_witness :
  (10 ≤ length (replicate 12 calm_reading))%nat
  ∧ rs_overall_risk (predict_health_risks (replicate 12 calm_reading))
    = rs_overall_risk
        (predict_health_risks (slice_from (-10) (replicate 12 calm_reading))).
Proof.
  assert (H : (10 ≤ length (replicate 12 calm_reading))%nat) by (cbn; lia).
  split; [exact H |].
  exact (proj1 (proj2 (risk_prediction_last_ten (replicate 12 calm_reading) H))).
Defined.

Lemma vital_trends_need_five_values_witness :
  ∃ rep w' trends,
    analyze_health_trends sample_isoformat sample_wall (λ q, q)
      (replicate 10 calm_reading) (mk_world plain_monitor 0) = (Ok rep, w')
    ∧ tr_vital_trends rep = Some trends
    ∧ trends.*1 = trend_vitals.
Proof.
  eexists _, _, _. split; [vm_compute; reflexivity |]. split; [reflexivity |].
  erewrite (vital_trends_need_five_values sample_isoformat sample_wall (λ q, q)
              (replicate 10 calm_reading) (mk_world plain_monitor 0));
    [| vm_compute; reflexivity | reflexivity].
  reflexivity.
Defined.

Lemma trend_from_zero_baseline_witness :
  (2 ≤ length from_zero_series)%nat
  ∧ py_mean (slice_to 3 from_zero_series) = Ok ((0 + 0 + 0 + 0) / 3)%Q
  ∧ ((0 + 0 + 0 + 0) / 3 == 0)%Q
  ∧ ∃ t, _calculate_trend (λ q, q) from_zero_series = Ok t
         ∧ vt_direction t = "stable".
Proof.
  assert (H : (2 ≤ length from_zero_series)%nat) by (cbn; lia).
  split; [exact H |]. split; [reflexivity |]. split; [reflexivity |].
  eexists. split; [reflexivity |].
  eapply (proj1 (trend_from_zero_baseline (λ q, q) from_zero_series _ _ H
                   eq_refl eq_refl eq_refl)).
Defined.


Lemma statistics_cover_vitals_witness :
  ∃ hs,
    _calculate_health_statistics fast_window = Ok (Some hs)
    ∧ (hs_health_trends hs).*1 = statistics_vitals
    ∧ (hs_vital_signs_summary hs).*1 = ["heart_rate"; "temperature"; "spo2"].
Proof.
  eexists. split; [vm_compute; reflexivity |].
  match goal with
  | |- (hs_health_trends ?hs).*1 = _ ∧ _ =>
      destruct (statistics_cover_vitals fast_window hs eq_refl) as (Hk & Hs & _ & _)
  end.
  split; [exact Hk | exact Hs].
Defined.

Lemma detector_critical_has_alert_witness :
  assess_risk_level scenario_reading 0.1 = Ok "critical"
  ∧ ∃ alerts,
      _check_immediate_alerts sample_fmt scenario_reading = Ok alerts
      ∧ st_level (_determine_overall_status sample_fmt alerts None None None)
        = "emergency".
Proof.
  split; [reflexivity |]. eexists. split; [vm_compute; reflexivity |].
  eapply (proj1 (proj2 (detector_critical_has_alert sample_fmt sample_fmt
                          scenario_reading 0.1 _ None None None eq_refl eq_refl))).
Defined.

Lemma detector_warning_is_high_witness :
  ∃ r,
    _check_immediate_alerts sample_fmt fast_reading = Ok []
    ∧ classification_silent None
    ∧ predict_anomaly sample_exp true sample_forest fast_reading = Ok r
    ∧ st_level (_determine_overall_status sample_fmt [] (Some r) None None) = "warning"
    ∧ st_severity (_determine_overall_status sample_fmt [] (Some r) None None) = "high".
Proof.
  eexists. split; [reflexivity |]. split; [exact I |].
  split; [vm_compute; reflexivity |].
  match goal with
  | |- st_level (_determine_overall_status _ _ (Some ?r) _ _) = _ ∧ _ =>
      destruct (detector_warning_is_high sample_fmt sample_fmt sample_exp fast_reading
                  sample_forest r None None eq_refl I eq_refl)
        as (p & sc & Hf & _ & Hiff & Himp)
  end.
  injection Hf as <- <-.
  assert (Hw : st_level (_determine_overall_status sample_fmt []
                 (Some {| ar_is_anomaly := Some true;
                          ar_risk_score := _; ar_risk_level := _;
                          ar_confidence := _; ar_recommendations := _;
                          ar_other_keys := _ |}) None None) = "warning")
    by (apply (proj2 Hiff); split; reflexivity).
  split; [exact Hw |]. exact (proj1 (Himp Hw)).
Defined.

Lemma classifier_emergency_response_witness :
  critical_alerts [] = []
  ∧ EmergencyClassifier.eo_emergency_type cardiac_arrest_output ≠ "normal"
  ∧ (0.7 < EmergencyClassifier.eo_confidence cardiac_arrest_output)%Q
  ∧ an_requires_emergency_response
      (_combine_analysis_results sample_fmt fast_reading [] None
         (Some (EmergencyClassifier.emergency_dict cardiac_arrest_output)) None)
    = true.
Proof.
  assert (Hn : EmergencyClassifier.eo_emergency_type cardiac_arrest_output ≠ "normal")
    by discriminate.
  assert (Hc : (0.7 < EmergencyClassifier.eo_confidence cardiac_arrest_output)%Q)
    by reflexivity.
  split; [reflexivity |]. split; [exact Hn |]. split; [exact Hc |].
  apply (proj2 (proj1 (proj2 (classifier_emergency_response sample_fmt fast_reading []
                                None None cardiac_arrest_output eq_refl Hn Hc)))).
  left. apply list_elem_of_here.
Defined.

Lemma severity_monotone_in_confidence_witness :
  (0.5 <= 0.9)%Q
  ∧ (severity_rank (EmergencyClassifier._determine_severity "stroke" 0.5)
     ≤ severity_rank (EmergencyClassifier._determine_severity "stroke" 0.9))%nat.
Proof.
  assert (H : (0.5 <= 0.9)%Q) by discriminate.
  split; [exact H |].
  exact (proj1 (severity_monotone_in_confidence "stroke" 0.5 0.9 H)).
Defined.

Lemma blood_pressure_features_dropped_witness :
  ∃ trends,
    (5 ≤ length sample_history)%nat
    ∧ calculate_health_trends py_mean sample_slope sample_std sample_history = Ok trends
    ∧ take 4 (drop 5 (feature_vector trends (behavioral_data fast_reading)
                         (environmental_data fast_reading 10 2)))
      = replicate 4 (PNum 0.0).
Proof.
  assert (Hlen : (5 ≤ length sample_history)%nat) by (cbn; lia).
  eexists. split; [exact Hlen |]. split; [vm_compute; reflexivity |].
  eapply (proj1 (proj2 (proj2 (blood_pressure_features_dropped py_mean sample_slope
                                 sample_std fast_reading sample_history _ 10 2
                                 Hlen eq_refl)))).
Defined.

Lemma predict_risk_signal_witness :
  ∃ r score,
    predict_risk py_mean sample_slope sample_std true sample_risk_model
      sample_importance 10 2 fast_reading sample_history = Ok r
    ∧ rr_overall_risk_score r = Some score
    ∧ (0 <= score)%Q ∧ (score <= 1)%Q.
Proof.
  eexists. 
  match goal with
  | |- ∃ score, ?run = Ok ?r ∧ _ =>
      assert (Hrun : run = Ok r) by (vm_compute; reflexivity)
  end.
  destruct (predict_risk_signal _ _ _ _ _ _ _ _ _ _ Hrun)
    as (score & level & confidence & windows & factors & recs
        & Hs & _ & _ & _ & _ & _ & H0 & H1 & _).
  exists score. split; [exact Hrun |]. split; [exact Hs |]. split; [exact H0 | exact H1].
Defined.

Lemma risk_factors_ranked_witness :
  ∃ factors,
    _identify_risk_factors true sample_importance (replicate 23 (PNum 0)) = Ok factors
    ∧ (length factors ≤ 5)%nat
    ∧ StronglySorted by_importance factors.
Proof.
  eexists. 
  match goal with
  | |- ?run = Ok ?r ∧ _ =>
      assert (Hrun : run = Ok r) by (vm_compute; reflexivity)
  end.
  destruct (risk_factors_ranked _ _ _ Hrun) as (Hlen & Hsorted & _).
  split; [exact Hrun |]. split; [exact Hlen | exact Hsorted].
Defined.

Lemma predictor_caution_asks_response_witness :
  ∃ r,
    critical_alerts [] = []
    ∧ classification_silent None
    ∧ anomaly_silent None
    ∧ predict_risk py_mean sample_slope sample_std true sample_risk_model
        sample_importance 10 2 fast_reading sample_history = Ok r
    ∧ an_requires_emergency_response
        (_combine_analysis_results sample_fmt fast_reading [] None None (Some r))
      = true.
Proof.
  eexists. split; [reflexivity |]. split; [exact I |]. split; [exact I |].
  match goal with
  | |- ?run = Ok ?r ∧ _ =>
      assert (Hrun : run = Ok r) by (vm_compute; reflexivity)
  end.
  split; [exact Hrun |].
  destruct (predictor_caution_asks_response sample_fmt _ _ _ fast_reading [] None None
              _ _ _ _ _ _ _ eq_refl I I Hrun) as (score & Hs & _ & Hhigh & _).
  injection Hs as <-. apply Hhigh. reflexivity.
Defined.

Lemma service_stores_agree_witness :
  health_history plain_monitor = ∅
  ∧ length (recent_of
              (post_all sample_fmt sample_fmt sample_isoformat sample_wall
                 [sample_post] (initial_service plain_monitor)) "p1")
    = Nat.min 100 (length (posted "p1" [sample_post])).
Proof.
  split; [reflexivity |].
  exact (proj1 (proj2 (proj2 (service_stores_agree sample_fmt sample_fmt sample_isoformat
                                sample_wall plain_monitor [sample_post] "p1" eq_refl)))).
Defined.

Lemma risk_route_after_posts_witness :
  health_history plain_monitor = ∅
  ∧ "p1" ≠ ""
  ∧ (length (posted "p1" [sample_post]) < 5)%nat
  ∧ resp_code
      (predict_risk_route sample_isoformat sample_wall
         (Some (mk_request_json (Some "p1") None))
         (post_all sample_fmt sample_fmt sample_isoformat sample_wall
            [sample_post] (initial_service plain_monitor))).1
    = 400%nat.
Proof.
  assert (Hid : "p1" ≠ "") by discriminate.
  assert (Hn : (length (posted "p1" [sample_post]) < 5)%nat) by (vm_compute; lia).
  split; [reflexivity |]. split; [exact Hid |]. split; [exact Hn |].
  rewrite (proj1 (risk_route_after_posts sample_fmt sample_fmt sample_isoformat
                    sample_wall (λ q, q) plain_monitor [sample_post] "p1" eq_refl Hid) Hn).
  reflexivity.
Defined.
